(** * Mesh benchmark harness: quality metrics, best-of-N runner, battery

    A shallow embedding of [mesh_bench_harness.py] and [adapter_spade.py].

    Conventions.
    - A Python [float] is read as a real number ([R]): rounding, overflow and
      NaN are not modelled.  The one non-finite value the code builds on
      purpose, [float('inf')], is kept: quantities that may hold it
      (aspect ratios, [best_time], the last aspect-ratio bin edge) live in
      [xreal].  This reading serves the geometric identities and the
      structure of the report.
    - Where the outcome depends on binary64 arithmetic itself (which
      triangles pass the guard on the computed edge lengths, which values a
      histogram counts), the loop and the histograms are embedded a second
      time over primitive binary64 floats, in the module [F64]; overflow,
      underflow and NaN are then those of the machine.
    - Python integers are [Z]; list positions and lengths are [nat].
    - A raised exception is a value of [exn]; code that may raise returns
      [result].  Code that also talks to the outside world (clock, backend
      process, file writers) is a state-and-exception computation [M] over an
      abstract world.
    - numpy calls are modelled by their documented value on a one-dimensional
      array: [np_histogram] follows the cumulative-count path numpy takes for
      an explicit list of bin edges.

    Layout.  The definitions come first: the Python and numpy fragments, the
    two source files function by function, then the vocabulary of the
    statements and a scripted world used for worked examples.  The facts
    follow: one triangle, the loop of [compute_mesh_quality], histograms,
    the report, the loop and the histograms in binary64, the runner, the
    battery, malformed input. *)

From Stdlib Require Import Floats.
From Stdlib Require Uint63.
From Stdlib Require Import Reals Lra Lia Psatz ZArith List String Ascii Bool.
From Stdlib Require Import DecimalString.
Import ListNotations.

Local Open Scope R_scope.

(* ================================================================= *)
(** ** Python runtime fragments *)

(** Exceptions the modelled code can raise or let through. *)
Inductive exn : Type :=
| IndexError
| TypeError
| ValueError
| KeyError (key : string)
| RuntimeError (msg : string)
| TimeoutExpired
| JSONDecodeError
| OSError (msg : string).

Inductive result (A : Type) : Type :=
| Ok (a : A)
| Raise (e : exn).
Arguments Ok {A} a.
Arguments Raise {A} e.

Definition rbind {A B} (r : result A) (k : A -> result B) : result B :=
  match r with
  | Ok a => k a
  | Raise e => Raise e
  end.

(** [seq[i]] for a Python sequence or a numpy axis of length [n]: indices
    [0 .. n-1] address from the front, [-n .. -1] from the back, anything
    else raises [IndexError]. *)
Definition py_index {A} (l : list A) (i : Z) : result A :=
  let n := Z.of_nat (List.length l) in
  let j := if (i <? 0)%Z then (i + n)%Z else i in
  if ((0 <=? j) && (j <? n))%Z%bool then
    match nth_error l (Z.to_nat j) with
    | Some a => Ok a
    | None => Raise IndexError
    end
  else Raise IndexError.

(** Floats that may be [float('inf')]. *)
Inductive xreal : Type :=
| Fin (r : R)
| PInf.

Definition Rltb (x y : R) : bool := if Rlt_dec x y then true else false.
Definition Rleb (x y : R) : bool := if Rle_dec x y then true else false.

Definition xltb (x y : xreal) : bool :=
  match x, y with
  | Fin a, Fin b => Rltb a b
  | Fin _, PInf => true
  | PInf, _ => false
  end.

Definition xleb (x y : xreal) : bool :=
  match x, y with
  | Fin a, Fin b => Rleb a b
  | _, PInf => true
  | PInf, Fin _ => false
  end.

Definition xadd (x y : xreal) : xreal :=
  match x, y with
  | Fin a, Fin b => Fin (a + b)
  | _, _ => PInf
  end.

(** Division of a float by a positive count. *)
Definition xdivn (x : xreal) (n : nat) : xreal :=
  match x with
  | Fin a => Fin (a / INR n)
  | PInf => PInf
  end.

(* ================================================================= *)
(** ** Geometry of one triangle ([compute_mesh_quality], loop body) *)

(** A row of [points_np]: [(x, y, z)]. *)
Definition vec3 : Type := (R * R * R)%type.

Definition c0 (v : vec3) : R := fst (fst v).
Definition c1 (v : vec3) : R := snd (fst v).
Definition c2 (v : vec3) : R := snd v.

(** [a - b] on rows. *)
Definition vsub (a b : vec3) : vec3 :=
  (c0 a - c0 b, c1 a - c1 b, c2 a - c2 b).

(** [np.linalg.norm] of a row. *)
Definition norm (v : vec3) : R :=
  sqrt (c0 v * c0 v + c1 v * c1 v + c2 v * c2 v).

(** [np.clip(x, lo, hi)]. *)
Definition clip (x lo hi : R) : R := Rmin (Rmax x lo) hi.

(** [np.degrees]. *)
Definition degrees (x : R) : R := x * (180 / PI).

(** Python's [max(a, b, c)] and [min(a, b, c)]. *)
Definition max3 (a b c : R) : R := Rmax (Rmax a b) c.
Definition min3 (a b c : R) : R := Rmin (Rmin a b) c.

(** Line 93: [0.5 * abs(e0[0] * (-e2[1]) - e0[1] * (-e2[0]))]. *)
Definition triangle_area (p0 p1 p2 : vec3) : R :=
  let e0 := vsub p1 p0 in
  let e2 := vsub p0 p2 in
  0.5 * Rabs (c0 e0 * (- c1 e2) - c1 e0 * (- c0 e2)).

(** Lines 107-109, for given edge lengths and area. *)
Definition aspect_ratio_of (l0 l1 l2 area : R) : xreal :=
  let min_altitude := 2 * area / max3 l0 l1 l2 in
  let max_edge := max3 l0 l1 l2 in
  if Rltb 0 min_altitude then Fin (max_edge / min_altitude) else PInf.

(** Lines 98-103, for given edge lengths. *)
Definition min_angle_of (l0 l1 l2 : R) : R :=
  let angle0 :=
    acos (clip ((l0 ^ 2 + l2 ^ 2 - l1 ^ 2) / (2 * l0 * l2)) (-1) 1) in
  let angle1 :=
    acos (clip ((l0 ^ 2 + l1 ^ 2 - l2 ^ 2) / (2 * l0 * l1)) (-1) 1) in
  let angle2 :=
    acos (clip ((l1 ^ 2 + l2 ^ 2 - l0 ^ 2) / (2 * l1 * l2)) (-1) 1) in
  let min_angle_rad := min3 angle0 angle1 angle2 in
  degrees min_angle_rad.

(** What one pass of the loop body (lines 82-110) appends: the area, always,
    and the pair (minimum angle, aspect ratio) when the three edge lengths
    are positive. *)
Definition triangle_metrics (p0 p1 p2 : vec3) : R * option (R * xreal) :=
  let e0 := vsub p1 p0 in
  let e1 := vsub p2 p1 in
  let e2 := vsub p0 p2 in
  let l0 := norm e0 in
  let l1 := norm e1 in
  let l2 := norm e2 in
  let area := triangle_area p0 p1 p2 in
  if (Rltb 0 l0 && Rltb 0 l1 && Rltb 0 l2)%bool then
    (area, Some (min_angle_of l0 l1 l2, aspect_ratio_of l0 l1 l2 area))
  else
    (area, None).

(** The aspect ratio the loop body computes for a triangle whose edges are
    all positive. *)
Definition triangle_aspect_ratio (p0 p1 p2 : vec3) : xreal :=
  aspect_ratio_of (norm (vsub p1 p0)) (norm (vsub p2 p1)) (norm (vsub p0 p2))
                  (triangle_area p0 p1 p2).

(* ================================================================= *)
(** ** numpy reductions on a one-dimensional float array *)

(** The float operations the reductions need, at [R] and at [xreal]. *)
Class Float (A : Type) : Type := {
  fzero : A;
  fadd : A -> A -> A;
  fdivn : A -> nat -> A;
  fltb : A -> A -> bool;
  fleb : A -> A -> bool
}.

#[global] Instance Float_R : Float R := {|
  fzero := 0;
  fadd := Rplus;
  fdivn := fun x n => x / INR n;
  fltb := Rltb;
  fleb := Rleb
|}.

#[global] Instance Float_xreal : Float xreal := {|
  fzero := Fin 0;
  fadd := xadd;
  fdivn := xdivn;
  fltb := xltb;
  fleb := xleb
|}.

Section Reductions.
Context {A : Type} `{Float A}.

(** [np.sum]. *)
Definition np_sum (a : list A) : A := fold_left fadd a fzero.

(** [np.min] and [np.max]: numpy raises [ValueError] on an empty array. *)
Definition np_min (a : list A) : result A :=
  match a with
  | [] => Raise ValueError
  | x :: rest => Ok (fold_left (fun m y => if fltb y m then y else m) rest x)
  end.

Definition np_max (a : list A) : result A :=
  match a with
  | [] => Raise ValueError
  | x :: rest => Ok (fold_left (fun m y => if fltb m y then y else m) rest x)
  end.

(** [np.mean]: the sum over the count.  (On an empty array numpy warns and
    gives NaN; the harness never calls it there.) *)
Definition np_mean (a : list A) : A := fdivn (np_sum a) (List.length a).

Fixpoint insert_sorted (x : A) (s : list A) : list A :=
  match s with
  | [] => [x]
  | y :: s' => if fleb x y then x :: s else y :: insert_sorted x s'
  end.

(** [np.sort]. *)
Definition np_sort (a : list A) : list A := fold_right insert_sorted [] a.

(** [np.median]: the middle element of the sorted array, or the mean of the
    two middle elements.  (NaN on an empty array; never called there.) *)
Definition np_median (a : list A) : A :=
  let s := np_sort a in
  let n := List.length s in
  if Nat.odd n then nth (n / 2) s fzero
  else fdivn (fadd (nth (n / 2 - 1) s fzero) (nth (n / 2) s fzero)) 2.

(** [sa.searchsorted(v, 'left')] and [sa.searchsorted(v, 'right')] for the
    sorted copy [sa] of [a]: the number of elements below [v], resp. not
    above [v]. *)
Definition searchsorted_left (a : list A) (v : A) : Z :=
  Z.of_nat (List.length (filter (fun x => fltb x v) a)).

Definition searchsorted_right (a : list A) (v : A) : Z :=
  Z.of_nat (List.length (filter (fun x => fleb x v) a)).

(** [v[-1:]]. *)
Definition last_slice (v : list A) : list A :=
  match v with
  | [] => []
  | x :: v' => [last v' x]
  end.

(** numpy's [_search_sorted_inclusive(sa, v)]: every edge but the last is
    searched on the left, the last one on the right. *)
Definition search_sorted_inclusive (a v : list A) : list Z :=
  map (searchsorted_left a) (removelast v)
  ++ map (searchsorted_right a) (last_slice v).

(** [np.diff]. *)
Fixpoint np_diff (c : list Z) : list Z :=
  match c with
  | x :: ((y :: _) as c') => (y - x)%Z :: np_diff c'
  | _ => []
  end.

(** [np.histogram(a, bins=edges)[0]] for an explicit increasing list of
    edges: numpy counts cumulatively at the edges and differences. *)
Definition np_histogram (a bins : list A) : list Z :=
  np_diff (search_sorted_inclusive a bins).
End Reductions.

(* ================================================================= *)
(** ** [compute_mesh_quality] *)

(** An element of a bin list: a Python [int] or [np.inf]. *)
Inductive pynum : Type :=
| PyInt (z : Z)
| PyInf.

Definition str_of_Z (z : Z) : string := NilZero.string_of_int (Z.to_int z).

(** [f'{x}'] of a bin edge. *)
Definition str_of_pynum (x : pynum) : string :=
  match x with
  | PyInt z => str_of_Z z
  | PyInf => "inf"
  end.

(** The value of a bin edge inside [np.asarray(bins)]. *)
Definition float_of_pynum (x : pynum) : xreal :=
  match x with
  | PyInt z => Fin (IZR z)
  | PyInf => PInf
  end.

Definition angle_bins : list Z := [0; 10; 20; 30; 40; 50; 60; 90]%Z.

Definition ar_bins : list pynum :=
  [PyInt 1; PyInt 2; PyInt 5; PyInt 10; PyInt 20; PyInt 50; PyInt 100; PyInf].

(** The dict comprehensions of lines 133-136 and 143-146:
    [{label(bins[i], bins[i+1]): int(hist[i]) for i in range(len(hist))}],
    as the list of its items in insertion order. *)
Fixpoint distribution_items {B} (label : B -> B -> string)
         (bins : list B) (hist : list Z) : result (list (string * Z)) :=
  match hist with
  | [] => Ok []
  | h :: hist' =>
      match bins with
      | lo :: ((hi :: _) as bins') =>
          rbind (distribution_items label bins' hist')
                (fun rest => Ok ((label lo hi, h) :: rest))
      | _ => Raise IndexError
      end
  end.

Definition angle_label (lo hi : Z) : string :=
  (str_of_Z lo ++ "-" ++ str_of_Z hi ++ "°")%string.

Definition ar_label (lo hi : pynum) : string :=
  (str_of_pynum lo ++ "-" ++ str_of_pynum hi)%string.

(** The four guarded statistics of one sequence and its histogram. *)
Record dist_stats (A : Type) : Type := {
  d_min : A;
  d_max : A;
  d_mean : A;
  d_median : A;
  distribution : list (string * Z)
}.
Arguments d_min {A}. Arguments d_max {A}. Arguments d_mean {A}.
Arguments d_median {A}. Arguments distribution {A}.

Record area_stats : Type := {
  a_min : R;
  a_max : R;
  a_mean : R;
  a_median : R
}.

(** The dict [compute_mesh_quality] returns. *)
Record quality_report : Type := {
  num_triangles : nat;
  total_area : R;
  min_angle : dist_stats R;
  aspect_ratio : dist_stats xreal;
  area : area_stats
}.

Definition triangle : Type := (Z * Z * Z)%type.

(** The three sequences the loop of lines 74-110 fills. *)
Record metric_lists : Type := {
  min_angles : list R;
  aspect_ratios : list xreal;
  areas : list R
}.

(** One pass of the loop body on [tri]. *)
Definition metrics_step (points : list vec3) (acc : metric_lists)
           (tri : triangle) : result metric_lists :=
  let '(i0, i1, i2) := tri in
  rbind (py_index points i0) (fun p0 =>
  rbind (py_index points i1) (fun p1 =>
  rbind (py_index points i2) (fun p2 =>
  match triangle_metrics p0 p1 p2 with
  | (area, Some (min_angle_deg, aspect_ratio)) =>
      Ok {| min_angles := min_angles acc ++ [min_angle_deg];
            aspect_ratios := aspect_ratios acc ++ [aspect_ratio];
            areas := areas acc ++ [area] |}
  | (area, None) =>
      Ok {| min_angles := min_angles acc;
            aspect_ratios := aspect_ratios acc;
            areas := areas acc ++ [area] |}
  end))).

(** The loop [for tri in triangles_np]. *)
Fixpoint metrics_loop (points : list vec3) (triangles : list triangle)
         (acc : metric_lists) : result metric_lists :=
  match triangles with
  | [] => Ok acc
  | tri :: rest =>
      rbind (metrics_step points acc tri) (metrics_loop points rest)
  end.

Definition collect_metrics (points : list vec3) (triangles : list triangle)
  : result metric_lists :=
  metrics_loop points triangles
               {| min_angles := []; aspect_ratios := []; areas := [] |}.

(** [float(f(arr)) if len(arr) > 0 else 0]. *)
Definition guarded {A} `{Float A} (f : list A -> result A) (arr : list A)
  : result A :=
  if (0 <? List.length arr)%nat then f arr else Ok fzero.

Definition angle_hist (min_angles_np : list R) : list Z :=
  np_histogram min_angles_np (map IZR angle_bins).

Definition ar_hist (aspect_ratios_np : list xreal) : list Z :=
  np_histogram aspect_ratios_np (map float_of_pynum ar_bins).

(** Lines 112-154: the report built from the three sequences. *)
Definition build_report (triangles : list triangle) (m : metric_lists)
  : result quality_report :=
  let min_angles_np := min_angles m in
  let aspect_ratios_np := aspect_ratios m in
  let areas_np := areas m in
  rbind (guarded np_min min_angles_np) (fun ang_min =>
  rbind (guarded np_max min_angles_np) (fun ang_max =>
  rbind (guarded (fun a => Ok (np_mean a)) min_angles_np) (fun ang_mean =>
  rbind (guarded (fun a => Ok (np_median a)) min_angles_np) (fun ang_median =>
  rbind (distribution_items angle_label angle_bins (angle_hist min_angles_np))
        (fun ang_dist =>
  rbind (guarded np_min aspect_ratios_np) (fun ar_min =>
  rbind (guarded np_max aspect_ratios_np) (fun ar_max =>
  rbind (guarded (fun a => Ok (np_mean a)) aspect_ratios_np) (fun ar_mean =>
  rbind (guarded (fun a => Ok (np_median a)) aspect_ratios_np) (fun ar_median =>
  rbind (distribution_items ar_label ar_bins (ar_hist aspect_ratios_np))
        (fun ar_dist =>
  rbind (guarded np_min areas_np) (fun area_min =>
  rbind (guarded np_max areas_np) (fun area_max =>
  rbind (guarded (fun a => Ok (np_mean a)) areas_np) (fun area_mean =>
  rbind (guarded (fun a => Ok (np_median a)) areas_np) (fun area_median =>
  Ok {| num_triangles := List.length triangles;
        total_area := np_sum areas_np;
        min_angle := {| d_min := ang_min; d_max := ang_max;
                        d_mean := ang_mean; d_median := ang_median;
                        distribution := ang_dist |};
        aspect_ratio := {| d_min := ar_min; d_max := ar_max;
                           d_mean := ar_mean; d_median := ar_median;
                           distribution := ar_dist |};
        area := {| a_min := area_min; a_max := area_max;
                   a_mean := area_mean; a_median := area_median |}
     |})))))))))))))).

Definition compute_mesh_quality (points : list vec3)
           (triangles : list triangle) : result quality_report :=
  rbind (collect_metrics points triangles) (build_report triangles).

(* ================================================================= *)
(** ** Computations with effects *)

(** A computation over the outside world that may raise. *)
Definition M (World A : Type) : Type := World -> result A * World.

Definition ret {World A} (a : A) : M World A := fun w => (Ok a, w).

Definition raise {World A} (e : exn) : M World A := fun w => (Raise e, w).

Definition bind {World A B} (c : M World A) (k : A -> M World B)
  : M World B :=
  fun w =>
    match c w with
    | (Ok a, w') => k a w'
    | (Raise e, w') => (Raise e, w')
    end.

(** A pure step that may raise. *)
Definition lift {World A} (r : result A) : M World A := fun w => (r, w).

Declare Scope harness_scope.
Delimit Scope harness_scope with harness.
Notation "x <- c1 ;; c2" := (bind c1 (fun x => c2))
  (at level 61, c1 at next level, right associativity) : harness_scope.
Notation "' pat <- c1 ;; c2" := (bind c1 (fun x => match x with pat => c2 end))
  (at level 61, pat pattern, c1 at next level, right associativity)
  : harness_scope.
Notation "c1 ;; c2" := (bind c1 (fun _ => c2))
  (at level 61, right associativity) : harness_scope.

(* ================================================================= *)
(** ** [load_testcase] *)

Definition polygon : Type := list (R * R).

(** A whitespace-separated token of a line, as [float(token)] sees it: a
    float, or text on which [float] raises [ValueError]. *)
Inductive token : Type :=
| TokFloat (x : R)
| TokBad.

(** A line of the file after [line.strip().split()]; a line that is blank
    has no token. *)
Definition text_line : Type := list token.

(** [list(map(float, tokens))]. *)
Fixpoint floats_of (toks : text_line) : result (list R) :=
  match toks with
  | [] => Ok []
  | TokFloat x :: rest => rbind (floats_of rest) (fun xs => Ok (x :: xs))
  | TokBad :: _ => Raise ValueError
  end.

(** [[(coords[i], coords[i+1]) for i in range(0, len(coords), 2)]]. *)
Fixpoint pair_up (coords : list R) : result polygon :=
  match coords with
  | [] => Ok []
  | [_] => Raise IndexError
  | x :: y :: rest => rbind (pair_up rest) (fun ps => Ok ((x, y) :: ps))
  end.

Definition parse_loop (line : text_line) : result polygon :=
  rbind (floats_of line) pair_up.

(** [[parse_loop(line) for line in lines if line.strip()]]. *)
Fixpoint parse_loops (lines : list text_line) : result (list polygon) :=
  match lines with
  | [] => Ok []
  | [] :: rest => parse_loops rest
  | line :: rest =>
      rbind (parse_loop line) (fun l =>
      rbind (parse_loops rest) (fun ls => Ok (l :: ls)))
  end.

(** Lines 33-36, on the lines read from the file. *)
Definition parse_testcase (lines : list text_line)
  : result (polygon * list polygon) :=
  match lines with
  | [] => Raise IndexError
  | first :: rest =>
      rbind (parse_loop first) (fun outer =>
      rbind (parse_loops rest) (fun inner_loops =>
      Ok (outer, inner_loops)))
  end.

(* ================================================================= *)
(** ** The harness and its collaborators *)

Definition edge : Type := (Z * Z)%type.

(** A cell block handed to [meshio.Mesh]. *)
Inductive cell_block : Type :=
| TriangleCells (cells : list triangle)
| LineCells (cells : list edge).

(** What the harness calls outside itself. *)
Record externals (World : Type) : Type := {
  (** [time.perf_counter()] *)
  perf_counter : M World R;
  (** [print(text)] *)
  print : string -> M World unit;
  (** [open(filepath).readlines()], tokenised *)
  readlines : string -> M World (list text_line);
  (** [meshio.write(filepath, meshio.Mesh(points=..., cells=...))] *)
  meshio_write : string -> list vec3 -> list cell_block -> M World unit;
  (** [str(outdir / name)] *)
  path_join : string -> string -> string;
  (** [f'{size}'] *)
  format_size : R -> string
}.
Arguments perf_counter {World}. Arguments print {World}.
Arguments readlines {World}. Arguments meshio_write {World}.
Arguments path_join {World}. Arguments format_size {World}.

(** [adapter_module.triangulate(outer=, inner_loops=, maxh=, quality=,
    enforce_constraints=)]. *)
Definition adapter (World Points Triangles Lines : Type) : Type :=
  polygon -> list polygon -> option R -> string -> bool ->
  M World (Points * Triangles * Lines).

Section Harness.
Context {World : Type}.
Variable ext : externals World.

Local Open Scope harness_scope.

Definition load_testcase (filepath : string)
  : M World (polygon * list polygon) :=
  lines <- readlines ext filepath ;;
  lift (parse_testcase lines).

(** [write_vtu]: the line block is added only when [lines] is non-empty. *)
Definition write_vtu (filepath : string) (points : list vec3)
           (triangles : list triangle) (lines : list edge) : M World unit :=
  let cells := [TriangleCells triangles] in
  let cells := match lines with
               | [] => cells
               | _ :: _ => cells ++ [LineCells lines]
               end in
  meshio_write ext filepath points cells.

Section Runner.
Context {Points Triangles Lines : Type}.
Variable adapter_module : adapter World Points Triangles Lines.
Variables (outer : polygon) (inner_loops : list polygon)
          (maxh : option R) (quality : string)
          (enforce_constraints : bool).

(** The loop [for _ in range(repeats)] of [run_benchmark], [n] passes
    to go. *)
Fixpoint repeat_loop (n : nat) (best_time : xreal)
         (best_result : option (Points * Triangles * Lines))
  : M World (xreal * option (Points * Triangles * Lines)) :=
  match n with
  | O => ret (best_time, best_result)
  | S n' =>
      start <- perf_counter ext ;;
      result <- adapter_module outer inner_loops maxh quality
                               enforce_constraints ;;
      stop <- perf_counter ext ;;
      let elapsed := stop - start in
      if xltb (Fin elapsed) best_time
      then repeat_loop n' (Fin elapsed) (Some result)
      else repeat_loop n' best_time best_result
  end.

(** [run_benchmark]; [repeats = None] is the call that leaves the
    keyword out.  Unpacking [best_result = None] raises [TypeError]. *)
Definition run_benchmark (repeats : option Z)
  : M World (Points * Triangles * Lines * xreal) :=
  let repeats := match repeats with Some r => r | None => 3%Z end in
  '(best_time, best_result) <- repeat_loop (Z.to_nat repeats) PInf None ;;
  match best_result with
  | Some (points, triangles, lines) =>
      ret (points, triangles, lines, best_time)
  | None => raise TypeError
  end.
End Runner.

(** A row of [results]. *)
Record bench_row : Type := {
  test : string;
  description : string;
  maxh_of : option R;
  row_num_triangles : nat;
  time_sec : xreal;
  triangles_per_sec : R
}.

(** An element of [quality_metrics]: the report with the keys added to
    it. *)
Record quality_row : Type := {
  q_report : quality_report;
  q_test : string;
  q_description : string;
  q_maxh : option R
}.

(** [len(triangles) / t if t > 0 else 0]. *)
Definition throughput (n : nat) (t : xreal) : R :=
  match t with
  | Fin r => if Rltb 0 r then INR n / r else 0
  | PInf => 0
  end.

(** The parsed command line, as far as the battery reads it. *)
Record arguments : Type := {
  software : string;
  testcase : string;
  outdir : string;
  sizes : list R;
  repeats_arg : Z
}.

Section Battery.
Variable adapter_module : adapter World (list vec3) (list triangle) (list edge).
Variable args : arguments.

(** One scenario: benchmark, mesh file, quality report, and the two
    appends (lines 234-248, 253-267, 271-285 and 291-307). *)
Definition scenario (acc : list bench_row * list quality_row)
           (outer : polygon) (inner_loops : list polygon)
           (maxh : option R) (quality : string)
           (enforce_constraints : bool)
           (vtu_name tag descr : string) (maxh_tag : option R)
  : M World (list bench_row * list quality_row) :=
  let '(results, quality_metrics) := acc in
  '(points, triangles, lines, t) <-
     run_benchmark adapter_module outer inner_loops maxh quality
                   enforce_constraints (Some (repeats_arg args)) ;;
  write_vtu (path_join ext (outdir args) vtu_name) points triangles lines ;;
  q <- lift (compute_mesh_quality points triangles) ;;
  ret (results ++ [{| test := tag;
                      description := descr;
                      maxh_of := maxh_tag;
                      row_num_triangles := List.length triangles;
                      time_sec := t;
                      triangles_per_sec :=
                        throughput (List.length triangles) t |}],
       quality_metrics ++ [{| q_report := q;
                              q_test := tag;
                              q_description := descr;
                              q_maxh := maxh_tag |}]).

(** The loop [for size in args.sizes] (test D). *)
Fixpoint size_sweep (outer : polygon) (inner_loops : list polygon)
         (todo : list R) (acc : list bench_row * list quality_row)
  : M World (list bench_row * list quality_row) :=
  match todo with
  | [] => ret acc
  | size :: rest =>
      print ext ("  Size: " ++ format_size ext size) ;;
      acc' <- scenario acc outer inner_loops (Some size) "moderate" true
                       ("D_city_" ++ format_size ext size ++ ".vtu")
                       "D" ("city_maxh_" ++ format_size ext size)
                       (Some size) ;;
      size_sweep outer inner_loops rest acc'
  end.

(** [main], lines 222-307: the test case is loaded, then the battery
    A, B, C, D fills [results] and [quality_metrics].  (Argument
    parsing, the import of the adapter, the metadata file and the three
    report files around it are file plumbing and are left out.) *)
Definition main : M World (list bench_row * list quality_row) :=
  '(outer, inner_loops) <- load_testcase (testcase args) ;;
  let acc := ([], []) in
  print ext ("Running benchmarks for " ++ software args ++ "...") ;;
  print ext "Test A: Unit square (default)" ;;
  let unit_square := [(0, 0); (1, 0); (1, 1); (0, 1)] in
  acc <- scenario acc unit_square [] None "default" false
                  "A_unit_square_default.vtu"
                  "A" "unit_square_default" None ;;
  print ext "Test B: Unit square with inner polygon" ;;
  let inner_poly := [(0.3, 0.3); (0.7, 0.3); (0.7, 0.7); (0.3, 0.7)] in
  acc <- scenario acc unit_square [inner_poly] None "default" true
                  "B_unit_square_with_inner_polygon.vtu"
                  "B" "unit_square_with_inner" None ;;
  print ext "Test C: City testcase (maxh=100)" ;;
  acc <- scenario acc outer inner_loops (Some 100.0) "moderate" true
                  "C_city_100.vtu"
                  "C" "city_maxh_100" None ;;
  print ext "Test D: Size sweep" ;;
  size_sweep outer inner_loops (sizes args) acc.
End Battery.
End Harness.

(* ================================================================= *)
(** ** [adapter_spade.triangulate] *)

#[local] Set Warnings "-register-all".

(** A value decoded by [json.loads].  The items of an object are listed in
    insertion order, one per key. *)
Inductive json : Type :=
| JNull
| JBool (b : bool)
| JInt (z : Z)
| JFloat (x : R)
| JStr (s : string)
| JList (items : list json)
| JDict (items : list (string * json)).

(** [value[key]] with a string key: only a dict can be subscripted by a
    string, and a missing key raises [KeyError]. *)
Definition getitem (value : json) (key : string) : result json :=
  match value with
  | JDict items =>
      match find (fun kv => String.eqb (fst kv) key) items with
      | Some kv => Ok (snd kv)
      | None => Raise (KeyError key)
      end
  | _ => Raise TypeError
  end.

(** The characters of a string, as one-character strings.  (Text is read
    as ASCII, one character per byte.) *)
Fixpoint chars (s : string) : list string :=
  match s with
  | EmptyString => []
  | String c s' => String c EmptyString :: chars s'
  end.

(** Iteration over a decoded value: a list gives its items, a dict its
    keys, a string its characters; anything else raises [TypeError]. *)
Definition iterate (value : json) : result (list json) :=
  match value with
  | JList items => Ok items
  | JDict items => Ok (map (fun kv => JStr (fst kv)) items)
  | JStr s => Ok (map JStr (chars s))
  | _ => Raise TypeError
  end.

(** A Python tuple of decoded values. *)
Definition pytuple : Type := list json.

(** [[tuple(p) for p in value]]. *)
Fixpoint tuples_of_items (items : list json) : result (list pytuple) :=
  match items with
  | [] => Ok []
  | p :: rest =>
      rbind (iterate p) (fun t =>
      rbind (tuples_of_items rest) (fun ts => Ok (t :: ts)))
  end.

Definition tuples_of (value : json) : result (list pytuple) :=
  rbind (iterate value) tuples_of_items.

(** The dict sent to the command-line tool. *)
Record input_data : Type := {
  in_outer : list (list R);
  in_inner_loops : list (list (list R));
  in_maxh : option R;
  in_quality : string;
  in_enforce_constraints : bool;
  in_min_angle : option R
}.

(** [subprocess.CompletedProcess]. *)
Record completed_process : Type := {
  returncode : Z;
  stdout : string;
  stderr : string
}.

(** What [adapter_spade] calls outside itself. *)
Record spade_externals (World : Type) : Type := {
  (** [str(SPADE_CLI)] *)
  SPADE_CLI : string;
  (** [json.dumps] *)
  json_dumps : input_data -> string;
  (** [json.loads] *)
  json_loads : string -> result json;
  (** [subprocess.run(argv, input=..., capture_output=True, text=True,
      timeout=...)] *)
  subprocess_run : list string -> string -> R -> M World completed_process
}.
Arguments SPADE_CLI {World}. Arguments json_dumps {World}.
Arguments json_loads {World}. Arguments subprocess_run {World}.

Section AdapterSpade.
Context {World : Type}.
Variable sx : spade_externals World.

Local Open Scope harness_scope.

Definition xy_list (loop : polygon) : list (list R) :=
  map (fun p => [fst p; snd p]) loop.

(** Lines 64-71: decoding of the tool's standard output. *)
Definition parse_output (text : string)
  : result (list pytuple * list pytuple * list pytuple) :=
  rbind (json_loads sx text) (fun output =>
  rbind (rbind (getitem output "points") tuples_of) (fun points =>
  rbind (rbind (getitem output "triangles") tuples_of) (fun triangles =>
  rbind (rbind (getitem output "constraint_edges") tuples_of) (fun lines =>
  Ok (points, triangles, lines))))).

Definition triangulate (outer : polygon) (inner_loops : list polygon)
           (maxh : option R) (quality : string)
           (enforce_constraints : bool) (min_angle : option R)
  : M World (list pytuple * list pytuple * list pytuple) :=
  let input := {| in_outer := xy_list outer;
                  in_inner_loops := map xy_list inner_loops;
                  in_maxh := maxh;
                  in_quality := quality;
                  in_enforce_constraints := enforce_constraints;
                  in_min_angle := min_angle |} in
  result <- subprocess_run sx [SPADE_CLI sx] (json_dumps sx input) 300 ;;
  if negb (returncode result =? 0)%Z then
    raise (RuntimeError ("Spade CLI failed: " ++ stderr result))
  else
    lift (parse_output (stdout result)).

(** The module as the harness calls it: [min_angle] keeps its default. *)
Definition spade_adapter
  : adapter World (list pytuple) (list pytuple) (list pytuple) :=
  fun outer inner_loops maxh quality enforce_constraints =>
    triangulate outer inner_loops maxh quality enforce_constraints None.
End AdapterSpade.

(* ================================================================= *)
(** ** Vocabulary of the statements *)

(** [i] addresses an element of a sequence of length [n]. *)
Definition index_ok (n : nat) (i : Z) : bool :=
  ((- Z.of_nat n <=? i) && (i <? Z.of_nat n))%Z.

Definition triangle_ok (n : nat) (tri : triangle) : bool :=
  let '(i0, i1, i2) := tri in
  (index_ok n i0 && index_ok n i1 && index_ok n i2)%bool.

(** Every index of every triangle addresses a point. *)
Definition well_indexed (points : list vec3) (triangles : list triangle)
  : bool :=
  forallb (triangle_ok (List.length points)) triangles.

(** The three vertices of a triangle. *)
Definition corners : Type := (vec3 * vec3 * vec3)%type.

Definition corners_of (points : list vec3) (tri : triangle) : result corners :=
  let '(i0, i1, i2) := tri in
  rbind (py_index points i0) (fun p0 =>
  rbind (py_index points i1) (fun p1 =>
  rbind (py_index points i2) (fun p2 => Ok (p0, p1, p2)))).

Fixpoint corners_all (points : list vec3) (triangles : list triangle)
  : result (list corners) :=
  match triangles with
  | [] => Ok []
  | tri :: rest =>
      rbind (corners_of points tri) (fun v =>
      rbind (corners_all points rest) (fun vs => Ok (v :: vs)))
  end.

(** The guard of line 97. *)
Definition positive_edges (v : corners) : bool :=
  let '(p0, p1, p2) := v in
  (Rltb 0 (norm (vsub p1 p0)) && Rltb 0 (norm (vsub p2 p1))
   && Rltb 0 (norm (vsub p0 p2)))%bool.

Definition has_zero_edge (v : corners) : Prop :=
  let '(p0, p1, p2) := v in
  norm (vsub p1 p0) = 0 \/ norm (vsub p2 p1) = 0 \/ norm (vsub p0 p2) = 0.

Definition area_of (v : corners) : R :=
  let '(p0, p1, p2) := v in triangle_area p0 p1 p2.

Definition min_angle_deg_of (v : corners) : R :=
  let '(p0, p1, p2) := v in
  min_angle_of (norm (vsub p1 p0)) (norm (vsub p2 p1)) (norm (vsub p0 p2)).

Definition aspect_of (v : corners) : xreal :=
  let '(p0, p1, p2) := v in triangle_aspect_ratio p0 p1 p2.

(** What one pass of the loop does to the three sequences. *)
Definition push (acc : metric_lists) (v : corners) : metric_lists :=
  {| min_angles := min_angles acc
                   ++ (if positive_edges v then [min_angle_deg_of v] else []);
     aspect_ratios := aspect_ratios acc
                      ++ (if positive_edges v then [aspect_of v] else []);
     areas := areas acc ++ [area_of v] |}.

(** Membership in the bucket from [lo] to [hi]: closed on the left, open on
    the right, or closed on both sides when [closed] is set. *)
Definition in_bucket {A} `{Float A} (lo hi : A) (closed : bool) (x : A)
  : bool :=
  (fleb lo x && (if closed then fleb x hi else fltb x hi))%bool.

Definition bucket_count {A} `{Float A} (lo hi : A) (closed : bool)
           (a : list A) : Z :=
  Z.of_nat (List.length (filter (in_bucket lo hi closed) a)).

(** The value of [float(f(arr)) if len(arr) > 0 else 0]. *)
Definition stat_or_zero {A} `{Float A} (f : list A -> result A) (arr : list A)
  : A :=
  match guarded f arr with
  | Ok x => x
  | Raise _ => fzero
  end.

Definition angle_labels : list string :=
  ["0-10°"; "10-20°"; "20-30°"; "30-40°"; "40-50°"; "50-60°"; "60-90°"]%string.

Definition ar_labels : list string :=
  ["1-2"; "2-5"; "5-10"; "10-20"; "20-50"; "50-100"; "100-inf"]%string.

(** The report in closed form. *)
Definition report_of (triangles : list triangle) (m : metric_lists)
  : quality_report :=
  {| num_triangles := List.length triangles;
     total_area := np_sum (areas m);
     min_angle :=
       {| d_min := stat_or_zero np_min (min_angles m);
          d_max := stat_or_zero np_max (min_angles m);
          d_mean := stat_or_zero (fun a => Ok (np_mean a)) (min_angles m);
          d_median := stat_or_zero (fun a => Ok (np_median a)) (min_angles m);
          distribution := combine angle_labels (angle_hist (min_angles m)) |};
     aspect_ratio :=
       {| d_min := stat_or_zero np_min (aspect_ratios m);
          d_max := stat_or_zero np_max (aspect_ratios m);
          d_mean := stat_or_zero (fun a => Ok (np_mean a)) (aspect_ratios m);
          d_median := stat_or_zero (fun a => Ok (np_median a)) (aspect_ratios m);
          distribution := combine ar_labels (ar_hist (aspect_ratios m)) |};
     area :=
       {| a_min := stat_or_zero np_min (areas m);
          a_max := stat_or_zero np_max (areas m);
          a_mean := stat_or_zero (fun a => Ok (np_mean a)) (areas m);
          a_median := stat_or_zero (fun a => Ok (np_median a)) (areas m) |}
  |}.

(** [sum(hist)]. *)
Definition total (hist : list Z) : Z := fold_right Z.add 0%Z hist.

(** *** Vocabulary for the runner *)

Section RunnerVocabulary.
Context {World Points Triangles Lines : Type}.
Variable ext : externals World.
Variable adapter_module : adapter World Points Triangles Lines.
Variables (outer : polygon) (inner_loops : list polygon)
          (maxh : option R) (quality : string)
          (enforce_constraints : bool).

Local Open Scope harness_scope.

(** One pass of the loop of [run_benchmark] up to the comparison: the
    elapsed time measured around the adapter call, and the call's
    result. *)
Definition timed_call : M World (R * (Points * Triangles * Lines)) :=
  start <- perf_counter ext ;;
  result <- adapter_module outer inner_loops maxh quality
                           enforce_constraints ;;
  stop <- perf_counter ext ;;
  ret (stop - start, result).

(** The measurements of [n] passes in a row. *)
Fixpoint timed_calls (n : nat)
  : M World (list (R * (Points * Triangles * Lines))) :=
  match n with
  | O => ret []
  | S n' =>
      x <- timed_call ;;
      xs <- timed_calls n' ;;
      ret (x :: xs)
  end.
End RunnerVocabulary.

(** The running minimum over a list of measurements. *)
Fixpoint select_best {X} (ms : list (R * X)) (best_time : xreal)
         (best_result : option X) : xreal * option X :=
  match ms with
  | [] => (best_time, best_result)
  | (elapsed, result) :: ms' =>
      if xltb (Fin elapsed) best_time
      then select_best ms' (Fin elapsed) (Some result)
      else select_best ms' best_time best_result
  end.

(** *** Vocabulary for the battery *)

(** What identifies a row of [results] and an element of
    [quality_metrics]: the keys ['test'], ['description'] and ['maxh']. *)
Definition row_tag (r : bench_row) : string * string * option R :=
  (test r, description r, maxh_of r).

Definition quality_tag (q : quality_row) : string * string * option R :=
  (q_test q, q_description q, q_maxh q).

(** The tags of the battery for a given sweep: A, B, C, then one D per
    size, in the order of the sweep. *)
Definition battery_tags (fmt : R -> string) (sweep : list R)
  : list (string * string * option R) :=
  [("A", "unit_square_default", None);
   ("B", "unit_square_with_inner", None);
   ("C", "city_maxh_100", None)]%string
  ++ map (fun size => ("D", "city_maxh_" ++ fmt size, Some size)%string) sweep.

(** The keyword arguments of one adapter call. *)
Record call_args : Type := {
  call_outer : polygon;
  call_inner_loops : list polygon;
  call_maxh : option R;
  call_quality : string;
  call_enforce_constraints : bool
}.

Definition unit_square : polygon := [(0, 0); (1, 0); (1, 1); (0, 1)].

Definition inner_poly : polygon :=
  [(0.3, 0.3); (0.7, 0.3); (0.7, 0.7); (0.3, 0.7)].

(** The adapter call of test A: the unit square with the defaults. *)
Definition call_A : call_args :=
  {| call_outer := unit_square; call_inner_loops := []; call_maxh := None;
     call_quality := "default"; call_enforce_constraints := false |}.

(** The adapter calls of the four tests: A, then B on the unit square with
    the inner polygon and constraints enforced, C on the loaded test case at
    moderate quality with the size hint 100, D the same for every size of the
    sweep. *)
Definition battery_calls (outer : polygon) (inner_loops : list polygon)
           (sweep : list R) : list call_args :=
  [call_A;
   {| call_outer := unit_square; call_inner_loops := [inner_poly];
      call_maxh := None; call_quality := "default";
      call_enforce_constraints := true |};
   {| call_outer := outer; call_inner_loops := inner_loops;
      call_maxh := Some 100.0; call_quality := "moderate";
      call_enforce_constraints := true |}]
  ++ map (fun size =>
            {| call_outer := outer; call_inner_loops := inner_loops;
               call_maxh := Some size; call_quality := "moderate";
               call_enforce_constraints := true |}) sweep.

(** Every call made [n] times in a row. *)
Definition repeated (n : nat) (calls : list call_args) : list call_args :=
  flat_map (fun c => repeat c n) calls.

(** The float tokens of a loop, as a line of the test-case file lists
    them. *)
Definition tokens_of (loop : polygon) : text_line :=
  flat_map (fun p => [TokFloat (fst p); TokFloat (snd p)]) loop.

(* ================================================================= *)
(** ** Test data *)

(** A right triangle and, on the same points, a triangle that names the
    first point twice. *)
Definition sample_points : list vec3 := [(0, 0, 0); (1, 0, 0); (0, 1, 0)].
Definition sample_triangles : list triangle := [(0, 1, 2); (0, 0, 1)]%Z.
Definition collapsed_triangles : list triangle := [(0, 0, 1)]%Z.


(* ================================================================= *)
(** ** A scripted world

    A test double for the collaborators: the clock reads the next scripted
    tick, the backend process returns the next scripted outcome, and the
    world counts the adapter calls, remembers the mesh files written and
    records the arguments of every call of [sim_adapter]. *)

Record sim_world : Type := {
  ticks : list R;
  procs : list completed_process;
  calls : nat;
  written : list string;
  trace : list call_args
}.

Definition sim_perf_counter : M sim_world R :=
  fun w =>
    match ticks w with
    | [] => (Ok 0, w)
    | t :: rest =>
        (Ok t, {| ticks := rest; procs := procs w; calls := calls w;
                  written := written w; trace := trace w |})
    end.

Definition sim_print (text : string) : M sim_world unit := ret tt.

(** The test-case file: a square and one triangular inner loop. *)
Definition sim_file : list text_line :=
  [[TokFloat 0; TokFloat 0; TokFloat 4; TokFloat 0;
    TokFloat 4; TokFloat 4; TokFloat 0; TokFloat 4];
   [];
   [TokFloat 1; TokFloat 1; TokFloat 2; TokFloat 1; TokFloat 1; TokFloat 2]].

Definition sim_readlines (filepath : string) : M sim_world (list text_line) :=
  ret sim_file.

(** The writer only records the path.  (Unlike [meshio.write], it takes
    any mesh, also one without triangles.) *)
Definition sim_meshio_write (filepath : string) (points : list vec3)
           (cells : list cell_block) : M sim_world unit :=
  fun w =>
    (Ok tt, {| ticks := ticks w; procs := procs w; calls := calls w;
               written := written w ++ [filepath]; trace := trace w |}).

Definition sim_format_size (size : R) : string :=
  if Req_dec_T size 5 then "5.0" else "?".

Definition sim_ext : externals sim_world := {|
  perf_counter := sim_perf_counter;
  print := sim_print;
  readlines := sim_readlines;
  meshio_write := sim_meshio_write;
  path_join := fun dir name => (dir ++ "/" ++ name)%string;
  format_size := sim_format_size
|}.

(** An adapter whose mesh depends on how many calls came before.  The mesh
    of the first call has a constraint edge that names a point that does not
    exist. *)
Definition sim_mesh (n : nat) : list vec3 * list triangle * list edge :=
  match n with
  | O => (sample_points, [(0, 1, 2)]%Z, [(0, 7)]%Z)
  | S O => (sample_points, sample_triangles, [(0, 1)]%Z)
  | _ => (sample_points, [], [])
  end.

Definition sim_adapter
  : adapter sim_world (list vec3) (list triangle) (list edge) :=
  fun outer inner_loops maxh quality enforce_constraints w =>
    (Ok (sim_mesh (calls w)),
     {| ticks := ticks w; procs := procs w; calls := S (calls w);
        written := written w;
        trace := trace w
                 ++ [{| call_outer := outer;
                        call_inner_loops := inner_loops;
                        call_maxh := maxh;
                        call_quality := quality;
                        call_enforce_constraints := enforce_constraints |}] |}).

(** The backend process: the next scripted outcome. *)
Definition sim_subprocess_run (argv : list string) (input : string)
           (timeout : R) : M sim_world completed_process :=
  fun w =>
    match procs w with
    | [] => (Raise (OSError "no process"), w)
    | p :: rest =>
        (Ok p, {| ticks := ticks w; procs := rest; calls := S (calls w);
                  written := written w; trace := trace w |})
    end.

Definition sim_output : json :=
  JDict [("points"%string, JList [JList [JFloat 0; JFloat 0; JFloat 0]]);
         ("triangles"%string, JList []);
         ("constraint_edges"%string, JList [])].

Definition sim_sx : spade_externals sim_world := {|
  SPADE_CLI := "spade-cli";
  json_dumps := fun _ => "{}"%string;
  json_loads := fun _ => Ok sim_output;
  subprocess_run := sim_subprocess_run
|}.

Definition proc_ok : completed_process :=
  {| returncode := 0; stdout := "{}"; stderr := "" |}.

Definition proc_failed : completed_process :=
  {| returncode := 1; stdout := "{}"; stderr := "boom" |}.

(** Three repeats take 5, 2 and 4 seconds. *)
Definition world_three_runs : sim_world :=
  {| ticks := [0; 5; 10; 12; 20; 24]; procs := []; calls := 0; written := [];
     trace := [] |}.

(** The backend fails on the second call. *)
Definition world_second_fails : sim_world :=
  {| ticks := [0; 5; 10; 12; 20; 24]; procs := [proc_ok; proc_failed; proc_ok];
     calls := 0; written := []; trace := [] |}.

(** A test-case file whose outer loop has two points. *)
Definition short_file : list text_line :=
  [[TokFloat 0; TokFloat 0; TokFloat 1; TokFloat 1]].

Definition sim_ext_short : externals sim_world := {|
  perf_counter := sim_perf_counter;
  print := sim_print;
  readlines := fun _ => ret short_file;
  meshio_write := sim_meshio_write;
  path_join := fun dir name => (dir ++ "/" ++ name)%string;
  format_size := sim_format_size
|}.

(** The command line of a run with a sweep that names the size 5 twice. *)
Definition sim_args : arguments :=
  {| software := "Spade"; testcase := "city.txt"; outdir := "out";
     sizes := [5; 5]; repeats_arg := 2 |}.

Definition world_battery : sim_world :=
  {| ticks := []; procs := []; calls := 0; written := []; trace := [] |}.

(* ================================================================= *)
(** ** Further vocabulary: vertex order *)




(* ================================================================= *)
(** ** [get_system_meta] *)

(** [try: body except: handler] with a bare [except]: whatever the body
    raises is dropped and the handler runs in the world the body left. *)
Definition catch {World A} (body handler : M World A) : M World A :=
  fun w =>
    match body w with
    | (Ok a, w') => (Ok a, w')
    | (Raise _, w') => handler w'
    end.

(** A dict with string keys, as the list of its items in insertion
    order. *)
Definition dict (V : Type) : Type := list (string * V).

(** [d[key] = value]: an existing key keeps its place and takes the new
    value, a new key goes to the end. *)
Fixpoint dict_set {V} (d : dict V) (key : string) (value : V) : dict V :=
  match d with
  | [] => [(key, value)]
  | (k, v) :: d' =>
      if String.eqb k key then (key, value) :: d'
      else (k, v) :: dict_set d' key value
  end.

(** [list(d)]: the keys in insertion order. *)
Definition dict_keys {V} (d : dict V) : list string := map fst d.

(** What [get_system_meta] calls outside itself. *)
Record meta_externals (World : Type) : Type := {
  platform_system : M World string;
  platform_version : M World string;
  platform_platform : M World string;
  platform_machine : M World string;
  platform_processor : M World string;
  platform_python_version : M World string;
  (** [subprocess.run(argv, capture_output=True, text=True, timeout=...)] *)
  tool_run : list string -> R -> M World completed_process;
  (** [text.strip()] *)
  str_strip : string -> string
}.
Arguments platform_system {World}. Arguments platform_version {World}.
Arguments platform_platform {World}. Arguments platform_machine {World}.
Arguments platform_processor {World}.
Arguments platform_python_version {World}.
Arguments tool_run {World}. Arguments str_strip {World}.

Section SystemMeta.
Context {World : Type}.
Variable mx : meta_externals World.

Local Open Scope harness_scope.

(** One of the two [try] blocks of lines 51-63: the version of [tool] goes
    under [key] when the tool ran and returned 0. *)
Definition probe_version (meta : dict string) (tool key : string)
  : M World (dict string) :=
  catch (result <- tool_run mx [tool; "--version"%string] 5 ;;
         if (returncode result =? 0)%Z
         then ret (dict_set meta key (str_strip mx (stdout result)))
         else ret meta)
        (ret meta).

Definition get_system_meta : M World (dict string) :=
  os <- platform_system mx ;;
  os_version <- platform_version mx ;;
  platform <- platform_platform mx ;;
  machine <- platform_machine mx ;;
  processor <- platform_processor mx ;;
  python_version <- platform_python_version mx ;;
  let meta := [("os", os); ("os_version", os_version);
               ("platform", platform); ("machine", machine);
               ("processor", processor);
               ("python_version", python_version)]%string in
  meta <- probe_version meta "rustc" "rust_version" ;;
  probe_version meta "cargo" "cargo_version".
End SystemMeta.

(** The keys of the dict literal of lines 41-48. *)
Definition platform_keys : list string :=
  ["os"; "os_version"; "platform"; "machine"; "processor";
   "python_version"]%string.

(* ================================================================= *)
(** ** [adapter_spade_native.triangulate] *)

(** [spade_python.triangulate(outer, inner_loops, maxh=, quality=,
    enforce_constraints=, min_angle=, exclude_holes=)]. *)
Definition native_backend (World Points Triangles Lines : Type) : Type :=
  polygon -> list polygon -> option R -> string -> bool -> option R -> bool ->
  M World (Points * Triangles * Lines).

Section AdapterNative.
Context {World Points Triangles Lines : Type}.
Variable spade_python_triangulate : native_backend World Points Triangles Lines.

Local Open Scope harness_scope.

Definition native_triangulate (outer : polygon) (inner_loops : list polygon)
           (maxh : option R) (quality : string) (enforce_constraints : bool)
           (min_angle : option R) (exclude_holes : bool)
  : M World (Points * Triangles * Lines) :=
  '(points, triangles, lines) <-
     spade_python_triangulate outer inner_loops maxh quality
                              enforce_constraints min_angle exclude_holes ;;
  ret (points, triangles, lines).

(** The module as the harness calls it: [min_angle] and [exclude_holes]
    keep their defaults, [None] and [True]. *)
Definition native_adapter : adapter World Points Triangles Lines :=
  fun outer inner_loops maxh quality enforce_constraints =>
    native_triangulate outer inner_loops maxh quality enforce_constraints
                       None true.
End AdapterNative.

(** The arguments of one call of the native backend. *)
Record backend_call : Type := {
  bc_outer : polygon;
  bc_inner_loops : list polygon;
  bc_maxh : option R;
  bc_quality : string;
  bc_enforce_constraints : bool;
  bc_min_angle : option R;
  bc_exclude_holes : bool
}.

(* ================================================================= *)
(** ** The report files of [main] (lines 309-367) *)

(** The format specifications the report files use, and the writers. *)
Record report_externals (World : Type) : Type := {
  (** [f'{x:.6f}'] *)
  fmt_6f : xreal -> string;
  (** [f'{x:.2f}'] *)
  fmt_2f : xreal -> string;
  (** [f'{x:.4f}'] *)
  fmt_4f : R -> string;
  (** [f'{x:5.1f}'] *)
  fmt_5_1f : R -> string;
  (** [f'{n:6d}'] *)
  fmt_6d : Z -> string;
  (** [f'{s:15s}'] *)
  fmt_15s : string -> string;
  (** [json.dumps(results, indent=2)] *)
  json_dumps_results : list bench_row -> string;
  (** [with open(path, 'w') as f: f.write(text)] *)
  write_file : string -> string -> M World unit
}.
Arguments fmt_6f {World}. Arguments fmt_2f {World}. Arguments fmt_4f {World}.
Arguments fmt_5_1f {World}. Arguments fmt_6d {World}.
Arguments fmt_15s {World}.
Arguments json_dumps_results {World}. Arguments write_file {World}.

(** ["\n"]. *)
Definition nl : string := String (Ascii.ascii_of_nat 10) EmptyString.

(** Lines 343 and 354:
    [100 * count / num_triangles if num_triangles > 0 else 0]. *)
Definition percentage (count : Z) (n : nat) : R :=
  if (0 <? n)%nat then 100 * IZR count / INR n else 0.

Section Reports.
Context {World : Type}.
Variable ext : externals World.
Variable rx : report_externals World.
Variable args : arguments.

Local Open Scope harness_scope.
Local Open Scope string_scope.

(** The six fields of a row of the CSV file; [r.get('maxh', '')] is the
    empty string for a row without the key. *)
Definition csv_fields (r : bench_row) : list string :=
  [test r; description r;
   match maxh_of r with Some size => format_size ext size | None => "" end;
   str_of_Z (Z.of_nat (row_num_triangles r));
   fmt_6f rx (time_sec r);
   fmt_2f rx (Fin (triangles_per_sec r))].

(** The line written for a row (lines 319-320). *)
Definition csv_line (r : bench_row) : string :=
  String.concat "," (csv_fields r) ++ nl.

Definition csv_header : string :=
  "test,description,maxh,num_triangles,time_sec,triangles_per_sec" ++ nl.

(** The text of the CSV file, write by write. *)
Definition csv_writes (results : list bench_row) : list string :=
  csv_header :: map csv_line results.

(** The lines of one distribution (lines 342-344 and 353-355). *)
Definition distribution_writes (num_triangles : nat)
           (items : list (string * Z)) : list string :=
  map (fun item =>
         "      " ++ fmt_15s rx (fst item) ++ " " ++ fmt_6d rx (snd item)
         ++ " (" ++ fmt_5_1f rx (percentage (snd item) num_triangles)
         ++ "%)" ++ nl) items.

(** What the loop of lines 328-363 writes for one element of
    [quality_metrics]. *)
Definition metric_writes (metric : quality_row) : list string :=
  let q := q_report metric in
  ["Test: " ++ q_test metric ++ " - " ++ q_description metric ++ nl]
  ++ match q_maxh metric with
     | Some size => ["  maxh: " ++ format_size ext size ++ nl]
     | None => []
     end
  ++ ["  Triangle Count: " ++ str_of_Z (Z.of_nat (num_triangles q)) ++ nl;
      "  Total Surface Area: " ++ fmt_2f rx (Fin (total_area q)) ++ nl;
      nl;
      "  Minimum Angle Statistics:" ++ nl;
      "    Min:    " ++ fmt_2f rx (Fin (d_min (min_angle q))) ++ "°" ++ nl;
      "    Max:    " ++ fmt_2f rx (Fin (d_max (min_angle q))) ++ "°" ++ nl;
      "    Mean:   " ++ fmt_2f rx (Fin (d_mean (min_angle q))) ++ "°" ++ nl;
      "    Median: " ++ fmt_2f rx (Fin (d_median (min_angle q))) ++ "°" ++ nl;
      "    Distribution:" ++ nl]
  ++ distribution_writes (num_triangles q) (distribution (min_angle q))
  ++ [nl;
      "  Aspect Ratio Statistics:" ++ nl;
      "    Min:    " ++ fmt_2f rx (d_min (aspect_ratio q)) ++ nl;
      "    Max:    " ++ fmt_2f rx (d_max (aspect_ratio q)) ++ nl;
      "    Mean:   " ++ fmt_2f rx (d_mean (aspect_ratio q)) ++ nl;
      "    Median: " ++ fmt_2f rx (d_median (aspect_ratio q)) ++ nl;
      "    Distribution:" ++ nl]
  ++ distribution_writes (num_triangles q) (distribution (aspect_ratio q))
  ++ [nl;
      "  Triangle Area Statistics:" ++ nl;
      "    Min:    " ++ fmt_4f rx (a_min (area q)) ++ nl;
      "    Max:    " ++ fmt_4f rx (a_max (area q)) ++ nl;
      "    Mean:   " ++ fmt_4f rx (a_mean (area q)) ++ nl;
      "    Median: " ++ fmt_4f rx (a_median (area q)) ++ nl;
      nl ++ string_of_list_ascii (repeat "-"%char 80) ++ nl ++ nl].

(** The text of the metrics log, write by write (lines 325-363). *)
Definition metrics_log_writes (quality_metrics : list quality_row)
  : list string :=
  ["Mesh Quality Metrics for " ++ software args ++ nl;
   string_of_list_ascii (repeat "="%char 80) ++ nl ++ nl]
  ++ flat_map metric_writes quality_metrics.

(** Lines 309-367: the three report files, then the closing messages.
    ([outdir args] stands for [str(outdir)].) *)
Definition write_reports (results : list bench_row)
           (quality_metrics : list quality_row) : M World unit :=
  write_file rx (path_join ext (outdir args)
                           ("bench_" ++ software args ++ ".json"))
             (json_dumps_results rx results) ;;
  write_file rx (path_join ext (outdir args)
                           ("bench_" ++ software args ++ ".csv"))
             (String.concat "" (csv_writes results)) ;;
  let metrics_path :=
    path_join ext (outdir args) ("metrics_" ++ software args ++ ".log") in
  write_file rx metrics_path
             (String.concat "" (metrics_log_writes quality_metrics)) ;;
  print ext (nl ++ "Benchmark complete! Results in " ++ outdir args) ;;
  print ext ("Generated "
             ++ str_of_Z (Z.of_nat (List.length results))
             ++ " test results") ;;
  print ext ("Quality metrics saved to " ++ metrics_path).
End Reports.

(* ================================================================= *)
(** ** Further vocabulary: lines of a test-case file *)

(** [line.strip()] is not empty. *)
Definition nonblank (line : text_line) : bool :=
  match line with
  | [] => false
  | _ :: _ => true
  end.

Definition all_floats (line : text_line) : bool :=
  forallb (fun t => match t with TokFloat _ => true | TokBad => false end) line.

(* ================================================================= *)
(** ** Further test data *)

(** A world that is the list of the backend calls made so far. *)
Definition recording_backend
  : native_backend (list backend_call) (list vec3) (list triangle) (list edge) :=
  fun outer inner_loops maxh quality enforce_constraints min_angle
      exclude_holes w =>
    (Ok (sample_points, sample_triangles, []),
     w ++ [{| bc_outer := outer; bc_inner_loops := inner_loops;
              bc_maxh := maxh; bc_quality := quality;
              bc_enforce_constraints := enforce_constraints;
              bc_min_angle := min_angle;
              bc_exclude_holes := exclude_holes |}]).

Definition recording_ext : externals (list backend_call) := {|
  perf_counter := ret 0;
  print := fun _ => ret tt;
  readlines := fun _ => ret sim_file;
  meshio_write := fun _ _ _ => ret tt;
  path_join := fun dir name => (dir ++ "/" ++ name)%string;
  format_size := sim_format_size
|}.

(** An adapter whose mesh names a point that does not exist. *)
Definition sim_bad_adapter
  : adapter sim_world (list vec3) (list triangle) (list edge) :=
  fun outer inner_loops maxh quality enforce_constraints w =>
    (Ok (sample_points, [(0, 1, 3)]%Z, []),
     {| ticks := ticks w; procs := procs w; calls := S (calls w);
        written := written w; trace := trace w |}).

(** The collaborators of [get_system_meta] in the scripted world: fixed
    platform strings, and tools run by the scripted process list. *)
Definition sim_mx : meta_externals sim_world := {|
  platform_system := ret "Linux"%string;
  platform_version := ret "6.1"%string;
  platform_platform := ret "Linux-6.1-x86_64"%string;
  platform_machine := ret "x86_64"%string;
  platform_processor := ret ""%string;
  platform_python_version := ret "3.12.0"%string;
  tool_run := fun argv timeout => sim_subprocess_run argv ""%string timeout;
  str_strip := fun s => s
|}.

(** [rustc] is found and answers; [cargo] is not installed. *)
Definition world_rustc_only : sim_world :=
  {| ticks := [];
     procs := [{| returncode := 0; stdout := "rustc 1.80.0"; stderr := "" |}];
     calls := 0; written := []; trace := [] |}.

(* ================================================================= *)
(** ** The battery followed by the report files *)

(** [main], lines 222-367. *)
Definition main_with_reports {World : Type} (ext : externals World)
           (rx : report_externals World)
           (adapter_module : adapter World (list vec3) (list triangle)
                                     (list edge))
           (args : arguments) : M World unit :=
  bind (main ext adapter_module args)
       (fun out => write_reports ext rx args (fst out) (snd out)).

(** The command line with another sweep. *)
Definition with_sizes (args : arguments) (sweep : list R) : arguments :=
  {| software := software args; testcase := testcase args;
     outdir := outdir args; sizes := sweep;
     repeats_arg := repeats_arg args |}.

(** The names of the mesh files of the battery for a given sweep. *)
Definition battery_files (fmt : R -> string) (sweep : list R) : list string :=
  ["A_unit_square_default.vtu"; "B_unit_square_with_inner_polygon.vtu";
   "C_city_100.vtu"]%string
  ++ map (fun size => ("D_city_" ++ fmt size ++ ".vtu")%string) sweep.

(** The first three fields of the CSV rows of the battery. *)
Definition battery_csv_heads (fmt : R -> string) (sweep : list R)
  : list (list string) :=
  [["A"; "unit_square_default"; ""];
   ["B"; "unit_square_with_inner"; ""];
   ["C"; "city_maxh_100"; ""]]%string
  ++ map (fun size => ["D"; "city_maxh_" ++ fmt size; fmt size]%string) sweep.

(** Report writers for the scripted world: files are recorded by name. *)
Definition sim_rx : report_externals sim_world := {|
  fmt_6f := fun _ => "0.000000"%string;
  fmt_2f := fun _ => "0.00"%string;
  fmt_4f := fun _ => "0.0000"%string;
  fmt_5_1f := fun _ => "  0.0"%string;
  fmt_6d := fun n => str_of_Z n;
  fmt_15s := fun s => s;
  json_dumps_results := fun _ => "[]"%string;
  write_file := fun path text w =>
    (Ok tt, {| ticks := ticks w; procs := procs w; calls := calls w;
               written := written w ++ [path]; trace := trace w |})
|}.

(** An adapter that returns a mesh without triangles three times and
    fails from then on. *)
Definition sim_limited_adapter
  : adapter sim_world (list vec3) (list triangle) (list edge) :=
  fun outer inner_loops maxh quality enforce_constraints w =>
    let w' := {| ticks := ticks w; procs := procs w; calls := S (calls w);
                 written := written w; trace := trace w |} in
    if (calls w <? 3)%nat then (Ok (sample_points, [], []), w')
    else (Raise (RuntimeError "boom"), w').

(** One repeat, and a sweep of two sizes. *)
Definition sim_args_once : arguments :=
  {| software := "Spade"; testcase := "city.txt"; outdir := "out";
     sizes := [5; 5]; repeats_arg := 1 |}.

(* ================================================================= *)
(** * The metrics loop and the histograms in binary64

    Reading a float as a real number leaves out what binary64 arithmetic
    adds: overflow to infinity, underflow to 0, NaN and rounding.  The
    lengths of the sequences and the sums of the histogram counts depend on
    these, so lines 74-123 of [compute_mesh_quality] are embedded once more
    here, over Rocq's primitive floats: IEEE 754 binary64 with
    round-to-nearest-even, the arithmetic of a numpy [float64].

    - [+], [-], [*], [/], [sqrt], [abs] and the comparisons are the
      primitive operations; a comparison with NaN is false.
    - [np.arccos], [np.degrees] and [x ** 2] on a scalar come from the C
      library through numpy.  They are parameters of the loop (the record
      [libm]): what is proved holds whatever they return.
    - [np.linalg.norm] of a row is the square root of [x.dot(x)]; the order
      in which the three products are added is the BLAS library's and is
      fixed here from left to right. *)

#[local] Set Warnings "-inexact-float".

(** The comparisons the histogram needs, at binary64.  ([fadd] and [fdivn]
    complete the instance; the reductions that use them are not applied to
    binary64 sequences below.) *)
#[global] Instance Float_binary64 : Float PrimFloat.float := {|
  fzero := PrimFloat.zero;
  fadd := PrimFloat.add;
  fdivn := fun x n =>
             PrimFloat.div x (PrimFloat.of_uint63 (Uint63.of_Z (Z.of_nat n)));
  fltb := PrimFloat.ltb;
  fleb := PrimFloat.leb
|}.

Module F64.
Import PrimFloat.
Local Open Scope float_scope.

(** A row of [points_np]. *)
Definition vec3 : Type := (float * float * float)%type.

Definition c0 (v : vec3) : float := fst (fst v).
Definition c1 (v : vec3) : float := snd (fst v).
Definition c2 (v : vec3) : float := snd v.

(** [a - b] on rows. *)
Definition vsub (a b : vec3) : vec3 :=
  (c0 a - c0 b, c1 a - c1 b, c2 a - c2 b).

(** [np.linalg.norm] of a row: [sqrt(x.dot(x))]. *)
Definition norm (v : vec3) : float :=
  sqrt (c0 v * c0 v + c1 v * c1 v + c2 v * c2 v).

(** [np.clip(x, lo, hi)], that is [minimum(maximum(x, lo), hi)], for
    [lo <= hi]: NaN stays NaN. *)
Definition clip (x lo hi : float) : float :=
  if x <? lo then lo else if hi <? x then hi else x.

(** Python's [max(a, b, c)] and [min(a, b, c)]: the first argument is kept
    until a later one compares greater (less). *)
Definition max3 (a b c : float) : float :=
  let m := if a <? b then b else a in
  if m <? c then c else m.

Definition min3 (a b c : float) : float :=
  let m := if b <? a then b else a in
  if c <? m then c else m.

(** Line 93: [0.5 * abs(e0[0] * (-e2[1]) - e0[1] * (-e2[0]))]. *)
Definition triangle_area (p0 p1 p2 : vec3) : float :=
  let e0 := vsub p1 p0 in
  let e2 := vsub p0 p2 in
  0.5 * abs (c0 e0 * (- c1 e2) - c1 e0 * (- c0 e2)).

(** Lines 107-109, for given edge lengths and area. *)
Definition aspect_ratio_of (l0 l1 l2 area : float) : float :=
  let min_altitude := 2 * area / max3 l0 l1 l2 in
  let max_edge := max3 l0 l1 l2 in
  if 0 <? min_altitude then max_edge / min_altitude else infinity.

(** What the loop body takes from the C library. *)
Record libm : Type := {
  (** [np.arccos(x)] *)
  np_arccos : float -> float;
  (** [np.degrees(x)] *)
  np_degrees : float -> float;
  (** [x ** 2] *)
  pow2 : float -> float
}.

Record metric_lists : Type := {
  min_angles : list float;
  aspect_ratios : list float;
  areas : list float
}.

Section Loop.
Variable lm : libm.

(** Lines 98-103, for given edge lengths. *)
Definition min_angle_of (l0 l1 l2 : float) : float :=
  let angle0 :=
    np_arccos lm
      (clip ((pow2 lm l0 + pow2 lm l2 - pow2 lm l1) / (2 * l0 * l2)) (-1) 1) in
  let angle1 :=
    np_arccos lm
      (clip ((pow2 lm l0 + pow2 lm l1 - pow2 lm l2) / (2 * l0 * l1)) (-1) 1) in
  let angle2 :=
    np_arccos lm
      (clip ((pow2 lm l1 + pow2 lm l2 - pow2 lm l0) / (2 * l1 * l2)) (-1) 1) in
  let min_angle_rad := min3 angle0 angle1 angle2 in
  np_degrees lm min_angle_rad.

(** One pass of the loop body (lines 82-110): the area, always, and the
    pair (minimum angle, aspect ratio) under the guard of line 97. *)
Definition triangle_metrics (p0 p1 p2 : vec3)
  : float * option (float * float) :=
  let e0 := vsub p1 p0 in
  let e1 := vsub p2 p1 in
  let e2 := vsub p0 p2 in
  let l0 := norm e0 in
  let l1 := norm e1 in
  let l2 := norm e2 in
  let area := triangle_area p0 p1 p2 in
  if ((0 <? l0) && (0 <? l1) && (0 <? l2))%bool then
    (area, Some (min_angle_of l0 l1 l2, aspect_ratio_of l0 l1 l2 area))
  else
    (area, None).

Definition metrics_step (points : list vec3) (acc : metric_lists)
           (tri : triangle) : result metric_lists :=
  let '(i0, i1, i2) := tri in
  rbind (py_index points i0) (fun p0 =>
  rbind (py_index points i1) (fun p1 =>
  rbind (py_index points i2) (fun p2 =>
  match triangle_metrics p0 p1 p2 with
  | (area, Some (min_angle_deg, aspect_ratio)) =>
      Ok {| min_angles := min_angles acc ++ [min_angle_deg];
            aspect_ratios := aspect_ratios acc ++ [aspect_ratio];
            areas := areas acc ++ [area] |}
  | (area, None) =>
      Ok {| min_angles := min_angles acc;
            aspect_ratios := aspect_ratios acc;
            areas := areas acc ++ [area] |}
  end))).

(** The loop [for tri in triangles_np]. *)
Fixpoint metrics_loop (points : list vec3) (triangles : list triangle)
         (acc : metric_lists) : result metric_lists :=
  match triangles with
  | [] => Ok acc
  | tri :: rest =>
      rbind (metrics_step points acc tri) (metrics_loop points rest)
  end.

Definition collect_metrics (points : list vec3) (triangles : list triangle)
  : result metric_lists :=
  metrics_loop points triangles
               {| min_angles := []; aspect_ratios := []; areas := [] |}.
End Loop.

(** The value of an integer bin edge inside [np.asarray(bins)], once it is
    compared with floats. *)
Definition float_of_int (z : Z) : float :=
  if (z <? 0)%Z then - of_uint63 (Uint63.of_Z (- z))
  else of_uint63 (Uint63.of_Z z).

Definition float_of_pynum (x : pynum) : float :=
  match x with
  | PyInt z => float_of_int z
  | PyInf => infinity
  end.

(** Lines 117-123. *)
Definition angle_hist (min_angles_np : list float) : list Z :=
  np_histogram min_angles_np (map float_of_int angle_bins).

Definition ar_hist (aspect_ratios_np : list float) : list Z :=
  np_histogram aspect_ratios_np (map float_of_pynum ar_bins).

(** The two [distribution] dicts of the report (lines 133-136 and
    143-146), as lists of items. *)
Definition distributions (lm : libm) (points : list vec3)
           (triangles : list triangle)
  : result (list (string * Z) * list (string * Z)) :=
  rbind (collect_metrics lm points triangles) (fun m =>
  rbind (distribution_items angle_label angle_bins (angle_hist (min_angles m)))
        (fun ang_dist =>
  rbind (distribution_items ar_label ar_bins (ar_hist (aspect_ratios m)))
        (fun ar_dist => Ok (ang_dist, ar_dist)))).

(** *** Vocabulary *)

Definition well_indexed (points : list vec3) (triangles : list triangle)
  : bool :=
  forallb (triangle_ok (List.length points)) triangles.

Definition corners : Type := (vec3 * vec3 * vec3)%type.

Definition corners_of (points : list vec3) (tri : triangle) : result corners :=
  let '(i0, i1, i2) := tri in
  rbind (py_index points i0) (fun p0 =>
  rbind (py_index points i1) (fun p1 =>
  rbind (py_index points i2) (fun p2 => Ok (p0, p1, p2)))).

Fixpoint corners_all (points : list vec3) (triangles : list triangle)
  : result (list corners) :=
  match triangles with
  | [] => Ok []
  | tri :: rest =>
      rbind (corners_of points tri) (fun v =>
      rbind (corners_all points rest) (fun vs => Ok (v :: vs)))
  end.

(** The guard of line 97, on the computed edge lengths. *)
Definition positive_edges (v : corners) : bool :=
  let '(p0, p1, p2) := v in
  ((0 <? norm (vsub p1 p0)) && (0 <? norm (vsub p2 p1))
   && (0 <? norm (vsub p0 p2)))%bool.

(** An edge vector all of whose components are 0 (of either sign). *)
Definition zero_vector (e : vec3) : bool :=
  ((c0 e =? 0) && (c1 e =? 0) && (c2 e =? 0))%bool.

(** A triangle with an edge of length exactly 0: one of the edge vectors of
    lines 84-86 is the zero vector. *)
Definition has_zero_edge (v : corners) : bool :=
  let '(p0, p1, p2) := v in
  (zero_vector (vsub p1 p0) || zero_vector (vsub p2 p1)
   || zero_vector (vsub p0 p2))%bool.

Definition area_of (v : corners) : float :=
  let '(p0, p1, p2) := v in triangle_area p0 p1 p2.

Definition min_angle_deg_of (lm : libm) (v : corners) : float :=
  let '(p0, p1, p2) := v in
  min_angle_of lm (norm (vsub p1 p0)) (norm (vsub p2 p1))
               (norm (vsub p0 p2)).

Definition aspect_of (v : corners) : float :=
  let '(p0, p1, p2) := v in
  aspect_ratio_of (norm (vsub p1 p0)) (norm (vsub p2 p1))
                  (norm (vsub p0 p2)) (triangle_area p0 p1 p2).

(** What one pass of the loop does to the three sequences. *)
Definition push (lm : libm) (acc : metric_lists) (v : corners)
  : metric_lists :=
  {| min_angles := min_angles acc
                   ++ (if positive_edges v then [min_angle_deg_of lm v]
                       else []);
     aspect_ratios := aspect_ratios acc
                      ++ (if positive_edges v then [aspect_of v] else []);
     areas := areas acc ++ [area_of v] |}.

(** A vertex with a NaN coordinate, and a triangle with such a vertex. *)
Definition nan_vertex (p : vec3) : bool :=
  (is_nan (c0 p) || is_nan (c1 p) || is_nan (c2 p))%bool.

Definition has_nan (v : corners) : bool :=
  let '(p0, p1, p2) := v in
  (nan_vertex p0 || nan_vertex p1 || nan_vertex p2)%bool.

(** A triangle whose three computed edge lengths are infinite. *)
Definition infinite_edges (v : corners) : bool :=
  let '(p0, p1, p2) := v in
  ((norm (vsub p1 p0) =? infinity) && (norm (vsub p2 p1) =? infinity)
   && (norm (vsub p0 p2) =? infinity))%bool.

(** A value the angle histogram counts: between the outer edges 0 and 90,
    both included.  NaN is not. *)
Definition angle_counted (x : float) : bool := ((0 <=? x) && (x <=? 90))%bool.

(** A value the aspect-ratio histogram counts: at least 1 (infinity
    included).  NaN is not. *)
Definition ar_counted (x : float) : bool := 1 <=? x.

(** *** Test data *)

(** A stand-in for the C library: glibc's [acos] at the three arguments
    a 3-4-5 triangle reaches (0, 0.6 and 0.8), NaN for NaN (and for
    arguments that are not tabulated); [degrees] as the product with
    180/pi; the square as a product. *)
Definition sim_libm : libm := {|
  np_arccos := fun x =>
    if x =? 0 then 1.5707963267948966
    else if x =? 0.6 then 0.9272952180016123
    else if x =? 0.8 then 0.6435011087932843
    else nan;
  np_degrees := fun x => x * 57.29577951308232;
  pow2 := fun x => x * x
|}.

(** A right triangle with legs of length 1e200: the squares of its edge
    lengths overflow. *)
Definition huge_points : list vec3 :=
  [(0, 0, 0); (1e200, 0, 0); (0, 1e200, 0)].

(** A right triangle with legs of length 1e-200: the squares of its edge
    lengths underflow to 0. *)
Definition tiny_points : list vec3 :=
  [(0, 0, 0); (1e-200, 0, 0); (0, 1e-200, 0)].

Definition one_triangle : list triangle := [(0, 1, 2)]%Z.

(** The 3-4-5 triangle with the y coordinate of its second vertex
    replaced by NaN. *)
Definition nan_points : list vec3 := [(0, 0, 0); (3, nan, 0); (0, 4, 0)].

(** A 3-4-5 triangle, the huge and the tiny triangle, and a triangle that
    names a vertex twice. *)
Definition mixed_points : list vec3 :=
  [(0, 0, 0); (3, 0, 0); (0, 4, 0); (1e200, 0, 0); (0, 1e200, 0);
   (1e-200, 0, 0); (0, 1e-200, 0)].

Definition mixed_triangles : list triangle :=
  [(0, 1, 2); (0, 3, 4); (0, 5, 6); (0, 1, 1)]%Z.
End F64.
(* ================================================================= *)
(** ** Facts about real comparisons *)

Lemma Rltb_true (x y : R) : Rltb x y = true <-> x < y.
Proof. unfold Rltb; destruct (Rlt_dec x y); split; intros; try easy. Qed.

Lemma Rltb_false (x y : R) : Rltb x y = false <-> y <= x.
Proof.
  unfold Rltb; destruct (Rlt_dec x y); split; intros; try easy; lra.
Qed.

Lemma Rleb_true (x y : R) : Rleb x y = true <-> x <= y.
Proof. unfold Rleb; destruct (Rle_dec x y); split; intros; try easy. Qed.

Lemma Rleb_false (x y : R) : Rleb x y = false <-> y < x.
Proof.
  unfold Rleb; destruct (Rle_dec x y); split; intros; try easy; lra.
Qed.

(* ================================================================= *)
(** ** Facts about one triangle *)

Lemma norm_nonneg (v : vec3) : 0 <= norm v.
Proof. apply sqrt_pos. Qed.

Lemma norm_sq (v : vec3) :
  norm v * norm v = c0 v * c0 v + c1 v * c1 v + c2 v * c2 v.
Proof. unfold norm. apply sqrt_sqrt. nra. Qed.






(* ================================================================= *)
(** ** The aspect ratio of an equilateral triangle *)

(** The squared cross product of the two edge vectors at [p0], in terms of
    the squared edge lengths (planar triangle). *)
Lemma cross_sq (p0 p1 p2 : vec3) :
  c2 p0 = c2 p1 -> c2 p1 = c2 p2 ->
  let a := norm (vsub p1 p0) * norm (vsub p1 p0) in
  let b := norm (vsub p2 p1) * norm (vsub p2 p1) in
  let c := norm (vsub p0 p2) * norm (vsub p0 p2) in
  4 * (2 * triangle_area p0 p1 p2) * (2 * triangle_area p0 p1 p2)
  = 2 * a * b + 2 * b * c + 2 * c * a - a * a - b * b - c * c.
Proof.
  intros Hz1 Hz2. cbv zeta. rewrite !norm_sq.
  unfold triangle_area; cbv zeta.
  set (k := c0 (vsub p1 p0) * - c1 (vsub p0 p2) - c1 (vsub p1 p0) * - c0 (vsub p0 p2)).
  replace (4 * (2 * (0.5 * Rabs k)) * (2 * (0.5 * Rabs k))) with (4 * (Rabs k * Rabs k)) by lra.
  replace (Rabs k * Rabs k) with (k * k).
  2:{ unfold Rabs; destruct (Rcase_abs k); ring. }
  subst k. destruct p0 as [[x0 y0] z0], p1 as [[x1 y1] z1], p2 as [[x2 y2] z2].
  unfold vsub, c0, c1, c2 in *; cbn [fst snd] in *. subst. ring.
Qed.

Lemma sqrt3_sq : sqrt 3 * sqrt 3 = 3.
Proof. apply sqrt_sqrt; lra. Qed.

Lemma sqrt3_pos : 0 < sqrt 3.
Proof. apply sqrt_lt_R0; lra. Qed.









Lemma two_over_sqrt3_gt_1 : 1 < 2 / sqrt 3.
Proof.
  pose proof sqrt3_pos. pose proof sqrt3_sq.
  apply Rmult_lt_reg_r with (sqrt 3); [assumption|].
  replace (2 / sqrt 3 * sqrt 3) with 2 by (field; lra).
  nra.
Qed.

(** Heron's expression in the squared edge lengths bounds the squared cross
    product the code uses (with equality for a planar triangle). *)
Lemma cross_sq_le (p0 p1 p2 : vec3) :
  let a := norm (vsub p1 p0) * norm (vsub p1 p0) in
  let b := norm (vsub p2 p1) * norm (vsub p2 p1) in
  let c := norm (vsub p0 p2) * norm (vsub p0 p2) in
  4 * (2 * triangle_area p0 p1 p2) * (2 * triangle_area p0 p1 p2)
  <= 2 * a * b + 2 * b * c + 2 * c * a - a * a - b * b - c * c.
Proof.
  cbv zeta. rewrite !norm_sq.
  unfold triangle_area; cbv zeta.
  set (k := c0 (vsub p1 p0) * - c1 (vsub p0 p2) - c1 (vsub p1 p0) * - c0 (vsub p0 p2)).
  replace (4 * (2 * (0.5 * Rabs k)) * (2 * (0.5 * Rabs k))) with (4 * (Rabs k * Rabs k)) by lra.
  replace (Rabs k * Rabs k) with (k * k).
  2:{ unfold Rabs; destruct (Rcase_abs k); ring. }
  subst k. destruct p0 as [[x0 y0] z0], p1 as [[x1 y1] z1], p2 as [[x2 y2] z2].
  unfold vsub, c0, c1, c2 in *; cbn [fst snd] in *.
  apply Rminus_le. 
  match goal with |- ?l - ?r <= 0 =>
    replace (l - r) with
      (- (4 * (((y1 - y0) * (z2 - z0) - (z1 - z0) * (y2 - y0)) * ((y1 - y0) * (z2 - z0) - (z1 - z0) * (y2 - y0))
             + ((z1 - z0) * (x2 - x0) - (x1 - x0) * (z2 - z0)) * ((z1 - z0) * (x2 - x0) - (x1 - x0) * (z2 - z0))))) by ring
  end.
  set (X := (y1 - y0) * (z2 - z0) - (z1 - z0) * (y2 - y0)).
  set (Y := (z1 - z0) * (x2 - x0) - (x1 - x0) * (z2 - z0)).
  pose proof (Rle_0_sqr X) as HX. pose proof (Rle_0_sqr Y) as HY.
  unfold Rsqr in HX, HY. lra.
Qed.

Lemma max3_cases (a b c : R) :
  (max3 a b c = a /\ b <= a /\ c <= a) \/
  (max3 a b c = b /\ a <= b /\ c <= b) \/
  (max3 a b c = c /\ a <= c /\ b <= c).
Proof. unfold max3, Rmax. repeat destruct (Rle_dec _ _); lra. Qed.

(** Heron's expression is at most three times the square of the largest
    squared edge, with equality only when the three are equal. *)
Lemma heron_le_max (a b c m : R) :
  0 <= a -> 0 <= b -> 0 <= c ->
  (m = a /\ b <= a /\ c <= a) \/ (m = b /\ a <= b /\ c <= b) \/ (m = c /\ a <= c /\ b <= c) ->
  2 * a * b + 2 * b * c + 2 * c * a - a * a - b * b - c * c <= 3 * (m * m).
Proof.
  intros Ha Hb Hc [[-> [H1 H2]]|[[-> [H1 H2]]|[-> [H1 H2]]]]; nra.
Qed.

Lemma heron_eq_max (a b c m : R) :
  0 < m -> 0 <= a -> 0 <= b -> 0 <= c ->
  (m = a /\ b <= a /\ c <= a) \/ (m = b /\ a <= b /\ c <= b) \/ (m = c /\ a <= c /\ b <= c) ->
  3 * (m * m) <= 2 * a * b + 2 * b * c + 2 * c * a - a * a - b * b - c * c ->
  a = m /\ b = m /\ c = m.
Proof.
  intros Hm Ha Hb Hc [[-> [H1 H2]]|[[-> [H1 H2]]|[-> [H1 H2]]]] Hle.
  - assert ((b - c) * (b - c) + 2 * a * (a - b) + 2 * a * (a - c) <= 0) by nra.
    assert (0 <= (b - c) * (b - c)) by nra.
    assert (0 <= a * (a - b)) by nra. assert (0 <= a * (a - c)) by nra.
    assert (a * (a - b) = 0) by nra. assert (a * (a - c) = 0) by nra.
    repeat split; nra.
  - assert ((a - c) * (a - c) + 2 * b * (b - a) + 2 * b * (b - c) <= 0) by nra.
    assert (0 <= (a - c) * (a - c)) by nra.
    assert (0 <= b * (b - a)) by nra. assert (0 <= b * (b - c)) by nra.
    assert (b * (b - a) = 0) by nra. assert (b * (b - c) = 0) by nra.
    repeat split; nra.
  - assert ((a - b) * (a - b) + 2 * c * (c - a) + 2 * c * (c - b) <= 0) by nra.
    assert (0 <= (a - b) * (a - b)) by nra.
    assert (0 <= c * (c - a)) by nra. assert (0 <= c * (c - b)) by nra.
    assert (c * (c - a) = 0) by nra. assert (c * (c - b) = 0) by nra.
    repeat split; nra.
Qed.

Lemma max3_sq_cases (l0 l1 l2 : R) :
  0 <= l0 -> 0 <= l1 -> 0 <= l2 ->
  let m := max3 l0 l1 l2 in
  (m * m = l0 * l0 /\ l1 * l1 <= l0 * l0 /\ l2 * l2 <= l0 * l0) \/
  (m * m = l1 * l1 /\ l0 * l0 <= l1 * l1 /\ l2 * l2 <= l1 * l1) \/
  (m * m = l2 * l2 /\ l0 * l0 <= l2 * l2 /\ l1 * l1 <= l2 * l2).
Proof.
  intros H0 H1 H2 m. subst m.
  destruct (max3_cases l0 l1 l2) as [[-> [Ha Hb]]|[[-> [Ha Hb]]|[-> [Ha Hb]]]];
    [left|right; left|right; right]; repeat split; nra.
Qed.

Lemma sq_le_reg (u v : R) : 0 <= v -> u * u <= v * v -> u <= v.
Proof. intros Hv H. destruct (Rle_lt_dec u v); [assumption|nra]. Qed.

(** The finite aspect ratios the loop body computes are at least [2/sqrt 3],
    and a planar triangle that attains this value is equilateral. *)
Lemma aspect_ratio_bound (p0 p1 p2 : vec3) (r : R) :
  let l0 := norm (vsub p1 p0) in
  let l1 := norm (vsub p2 p1) in
  let l2 := norm (vsub p0 p2) in
  0 < l0 -> 0 < l1 -> 0 < l2 ->
  aspect_ratio_of l0 l1 l2 (triangle_area p0 p1 p2) = Fin r ->
  2 / sqrt 3 <= r /\
  (c2 p0 = c2 p1 -> c2 p1 = c2 p2 -> r = 2 / sqrt 3 -> l0 = l1 /\ l1 = l2).
Proof.
  intros l0 l1 l2 H0 H1 H2. unfold aspect_ratio_of; cbv zeta.
  destruct (Rltb 0 (2 * triangle_area p0 p1 p2 / max3 l0 l1 l2)) eqn:Hpos;
    [|discriminate].
  intros Heq; injection Heq as <-.
  apply Rltb_true in Hpos.
  pose proof (cross_sq_le p0 p1 p2) as Hle. cbv zeta in Hle.
  fold l0 l1 l2 in Hle.
  pose proof (max3_sq_cases l0 l1 l2 ltac:(lra) ltac:(lra) ltac:(lra)) as Hm.
  cbv zeta in Hm.
  set (m := max3 l0 l1 l2) in *. set (A := triangle_area p0 p1 p2) in *.
  assert (Hmpos : 0 < m).
  { destruct (max3_cases l0 l1 l2) as [[E _]|[[E _]|[E _]]]; fold m in E; lra. }
  assert (HA : 0 < 2 * A).
  { apply Rmult_lt_reg_r with (/ m); [apply Rinv_0_lt_compat; lra|].
    unfold Rdiv in Hpos. lra. }
  pose proof sqrt3_pos as Hs. pose proof sqrt3_sq as Hs2.
  assert (Hr : m / (2 * A / m) = m * m / (2 * A)) by (field; lra).
  rewrite Hr.
  pose proof (heron_le_max (l0 * l0) (l1 * l1) (l2 * l2) (m * m)
                ltac:(nra) ltac:(nra) ltac:(nra) Hm) as Hh.
  assert (Hmain : 2 * (2 * A) <= sqrt 3 * (m * m)).
  { apply sq_le_reg; [nra|]. nra. }
  split.
  - apply Rmult_le_reg_r with (sqrt 3 * (2 * A)); [nra|].
    replace (2 / sqrt 3 * (sqrt 3 * (2 * A))) with (2 * (2 * A)) by (field; lra).
    replace (m * m / (2 * A) * (sqrt 3 * (2 * A))) with (sqrt 3 * (m * m)) by (field; lra).
    exact Hmain.
  - intros Hz1 Hz2 Hrv.
    pose proof (cross_sq p0 p1 p2 Hz1 Hz2) as Hc. cbv zeta in Hc.
    fold l0 l1 l2 A in Hc.
    assert (Heq2 : 2 * (2 * A) = sqrt 3 * (m * m)).
    { apply (f_equal (fun x => x * (sqrt 3 * (2 * A)))) in Hrv.
      replace (2 / sqrt 3 * (sqrt 3 * (2 * A))) with (2 * (2 * A)) in Hrv by (field; lra).
      replace (m * m / (2 * A) * (sqrt 3 * (2 * A))) with (sqrt 3 * (m * m)) in Hrv by (field; lra).
      lra. }
    assert (H3 : 3 * (m * m * (m * m))
                 <= 2 * (l0 * l0) * (l1 * l1) + 2 * (l1 * l1) * (l2 * l2)
                    + 2 * (l2 * l2) * (l0 * l0) - l0 * l0 * (l0 * l0)
                    - l1 * l1 * (l1 * l1) - l2 * l2 * (l2 * l2)).
    { rewrite <- Hc. nra. }
    destruct (heron_eq_max (l0 * l0) (l1 * l1) (l2 * l2) (m * m)
                ltac:(nra) ltac:(nra) ltac:(nra) ltac:(nra) Hm H3)
      as [E0 [E1 E2]].
    split; apply Rle_antisym; apply sq_le_reg; lra.
Qed.





(* ================================================================= *)
(** ** The loop of [compute_mesh_quality] *)

Lemma py_index_ok {A} (l : list A) (i : Z) :
  index_ok (List.length l) i = true -> exists a, py_index l i = Ok a.
Proof.
  unfold index_ok, py_index; cbv zeta. intros H.
  apply andb_prop in H as [H1 H2].
  apply Z.leb_le in H1. apply Z.ltb_lt in H2.
  set (n := Z.of_nat (List.length l)) in *.
  set (j := if (i <? 0)%Z then (i + n)%Z else i).
  assert (Hj : (0 <= j < n)%Z).
  { subst j. destruct (i <? 0)%Z eqn:E;
      [apply Z.ltb_lt in E | apply Z.ltb_ge in E]; lia. }
  assert (E1 : (0 <=? j)%Z = true) by (apply Z.leb_le; lia).
  assert (E2 : (j <? n)%Z = true) by (apply Z.ltb_lt; lia).
  rewrite E1, E2; cbn [andb].
  destruct (nth_error l (Z.to_nat j)) eqn:E; [eauto|].
  apply nth_error_None in E. subst n. lia.
Qed.

Lemma py_index_bad {A} (l : list A) (i : Z) :
  index_ok (List.length l) i = false -> py_index l i = Raise IndexError.
Proof.
  unfold index_ok, py_index; cbv zeta. intros H.
  set (n := Z.of_nat (List.length l)) in *.
  destruct ((0 <=? (if (i <? 0)%Z then (i + n)%Z else i))%Z
            && ((if (i <? 0)%Z then (i + n)%Z else i) <? n)%Z)%bool eqn:E;
    [|reflexivity].
  exfalso. apply andb_prop in E as [E1 E2].
  apply Z.leb_le in E1. apply Z.ltb_lt in E2.
  apply andb_false_iff in H as [H|H];
    [apply Z.leb_gt in H | apply Z.ltb_ge in H];
    destruct (i <? 0)%Z eqn:E;
    try apply Z.ltb_lt in E; try apply Z.ltb_ge in E; lia.
Qed.

Lemma corners_of_ok (points : list vec3) (tri : triangle) :
  triangle_ok (List.length points) tri = true ->
  exists v, corners_of points tri = Ok v.
Proof.
  destruct tri as [[i0 i1] i2]. unfold triangle_ok, corners_of. intros H.
  apply andb_prop in H as [H H2]. apply andb_prop in H as [H0 H1].
  destruct (py_index_ok points i0 H0) as [p0 ->].
  destruct (py_index_ok points i1 H1) as [p1 ->].
  destruct (py_index_ok points i2 H2) as [p2 ->].
  cbn. eauto.
Qed.

Lemma corners_of_bad (points : list vec3) (tri : triangle) :
  triangle_ok (List.length points) tri = false ->
  corners_of points tri = Raise IndexError.
Proof.
  destruct tri as [[i0 i1] i2]. unfold triangle_ok, corners_of. intros H.
  destruct (index_ok (List.length points) i0) eqn:H0.
  2:{ rewrite (py_index_bad _ _ H0). reflexivity. }
  destruct (py_index_ok points i0 H0) as [p0 ->]. cbn [rbind].
  destruct (index_ok (List.length points) i1) eqn:H1.
  2:{ rewrite (py_index_bad _ _ H1). reflexivity. }
  destruct (py_index_ok points i1 H1) as [p1 ->]. cbn [rbind].
  cbn [andb] in H. rewrite (py_index_bad _ _ H). reflexivity.
Qed.

Lemma triangle_metrics_eq (p0 p1 p2 : vec3) :
  triangle_metrics p0 p1 p2
  = (area_of (p0, p1, p2),
     if positive_edges (p0, p1, p2)
     then Some (min_angle_deg_of (p0, p1, p2), aspect_of (p0, p1, p2))
     else None).
Proof.
  unfold triangle_metrics, positive_edges, area_of, min_angle_deg_of,
    aspect_of, triangle_aspect_ratio; cbv zeta.
  destruct (Rltb 0 (norm (vsub p1 p0)) && Rltb 0 (norm (vsub p2 p1))
            && Rltb 0 (norm (vsub p0 p2)))%bool; reflexivity.
Qed.

Lemma metrics_step_eq (points : list vec3) (acc : metric_lists)
      (tri : triangle) :
  metrics_step points acc tri
  = rbind (corners_of points tri) (fun v => Ok (push acc v)).
Proof.
  destruct tri as [[i0 i1] i2]. unfold metrics_step, corners_of.
  destruct (py_index points i0) as [p0|]; [|reflexivity].
  destruct (py_index points i1) as [p1|]; [|reflexivity].
  destruct (py_index points i2) as [p2|]; [|reflexivity].
  cbn [rbind]. rewrite triangle_metrics_eq. unfold push.
  destruct (positive_edges (p0, p1, p2)); rewrite ?app_nil_r; reflexivity.
Qed.

Lemma fold_push_areas (vs : list corners) (acc : metric_lists) :
  areas (fold_left push vs acc) = areas acc ++ map area_of vs.
Proof.
  revert acc; induction vs as [|v vs IH]; intros acc; cbn [fold_left map].
  - now rewrite app_nil_r.
  - rewrite IH. cbn [push areas]. now rewrite <- app_assoc.
Qed.

Lemma fold_push_min_angles (vs : list corners) (acc : metric_lists) :
  min_angles (fold_left push vs acc)
  = min_angles acc ++ map min_angle_deg_of (filter positive_edges vs).
Proof.
  revert acc; induction vs as [|v vs IH]; intros acc; cbn [fold_left filter].
  - cbn. now rewrite app_nil_r.
  - rewrite IH. cbn [push min_angles].
    destruct (positive_edges v); cbn [map]; now rewrite <- app_assoc.
Qed.

Lemma fold_push_aspect_ratios (vs : list corners) (acc : metric_lists) :
  aspect_ratios (fold_left push vs acc)
  = aspect_ratios acc ++ map aspect_of (filter positive_edges vs).
Proof.
  revert acc; induction vs as [|v vs IH]; intros acc; cbn [fold_left filter].
  - cbn. now rewrite app_nil_r.
  - rewrite IH. cbn [push aspect_ratios].
    destruct (positive_edges v); cbn [map]; now rewrite <- app_assoc.
Qed.

Lemma corners_all_ok (points : list vec3) (triangles : list triangle) :
  well_indexed points triangles = true ->
  exists vs, corners_all points triangles = Ok vs /\
             List.length vs = List.length triangles.
Proof.
  unfold well_indexed. induction triangles as [|tri rest IH]; cbn [forallb].
  - intros _. exists []. split; reflexivity.
  - intros H. apply andb_prop in H as [Ht Hr].
    destruct (corners_of_ok points tri Ht) as [v Hv].
    destruct (IH Hr) as [vs [Hvs Hlen]].
    exists (v :: vs). cbn [corners_all]. rewrite Hv, Hvs. cbn.
    split; [reflexivity | now rewrite Hlen].
Qed.

Lemma metrics_loop_ok (points : list vec3) (triangles : list triangle)
      (vs : list corners) (acc : metric_lists) :
  corners_all points triangles = Ok vs ->
  metrics_loop points triangles acc = Ok (fold_left push vs acc).
Proof.
  revert vs acc. induction triangles as [|tri rest IH]; intros vs acc;
    cbn [corners_all metrics_loop].
  - intros H; injection H as <-. reflexivity.
  - rewrite metrics_step_eq.
    destruct (corners_of points tri) as [v|]; [|discriminate]. cbn [rbind].
    destruct (corners_all points rest) as [vs'|] eqn:E; [|discriminate].
    cbn [rbind]. intros H; injection H as <-. cbn [fold_left].
    now apply IH.
Qed.

Lemma metrics_loop_bad (points : list vec3) (triangles : list triangle)
      (acc : metric_lists) :
  well_indexed points triangles = false ->
  metrics_loop points triangles acc = Raise IndexError.
Proof.
  unfold well_indexed. revert acc.
  induction triangles as [|tri rest IH]; intros acc; cbn [forallb metrics_loop].
  - discriminate.
  - intros H. rewrite metrics_step_eq.
    destruct (triangle_ok (List.length points) tri) eqn:Ht.
    + destruct (corners_of_ok points tri Ht) as [v ->]. cbn [rbind].
      apply IH. exact H.
    + rewrite (corners_of_bad points tri Ht). reflexivity.
Qed.

(** The loop succeeds exactly on well-indexed meshes, and then the three
    sequences are the per-triangle values in triangle order, the angle and
    aspect-ratio sequences restricted to the triangles that pass the guard. *)
Lemma collect_metrics_ok (points : list vec3) (triangles : list triangle) :
  well_indexed points triangles = true ->
  exists vs,
    corners_all points triangles = Ok vs /\
    List.length vs = List.length triangles /\
    collect_metrics points triangles
    = Ok {| min_angles := map min_angle_deg_of (filter positive_edges vs);
            aspect_ratios := map aspect_of (filter positive_edges vs);
            areas := map area_of vs |}.
Proof.
  intros H. destruct (corners_all_ok points triangles H) as [vs [Hvs Hlen]].
  exists vs. split; [exact Hvs|]. split; [exact Hlen|].
  unfold collect_metrics. rewrite (metrics_loop_ok _ _ vs _ Hvs).
  f_equal.
  set (acc0 := {| min_angles := []; aspect_ratios := []; areas := [] |}).
  pose proof (fold_push_areas vs acc0) as Ha.
  pose proof (fold_push_min_angles vs acc0) as Hm.
  pose proof (fold_push_aspect_ratios vs acc0) as Hr.
  destruct (fold_left push vs acc0) as [ma ar a]. cbn in Ha, Hm, Hr.
  now subst.
Qed.

Lemma positive_edges_false_iff (v : corners) :
  positive_edges v = false <-> has_zero_edge v.
Proof.
  destruct v as [[p0 p1] p2]. unfold positive_edges, has_zero_edge.
  pose proof (norm_nonneg (vsub p1 p0)). pose proof (norm_nonneg (vsub p2 p1)).
  pose proof (norm_nonneg (vsub p0 p2)).
  rewrite !andb_false_iff, !Rltb_false. split; intros Hd; lra.
Qed.


(* ================================================================= *)
(** ** Histograms *)

Lemma xltb_not_xleb (x y : xreal) : xltb x y = negb (xleb y x).
Proof.
  destruct x as [a|], y as [b|]; cbn; try reflexivity.
  unfold Rltb, Rleb. destruct (Rlt_dec a b), (Rle_dec b a); cbn; try easy; lra.
Qed.

Lemma Rltb_not_Rleb (x y : R) : Rltb x y = negb (Rleb y x).
Proof.
  unfold Rltb, Rleb. destruct (Rlt_dec x y), (Rle_dec y x); cbn; try easy; lra.
Qed.

Section Buckets.
Context {A : Type} `{Float A}.
Hypothesis lt_not_le : forall x y : A, fltb x y = negb (fleb y x).
Hypothesis lt_le_trans :
  forall x y z : A, fltb x y = true -> fleb y z = true -> fltb x z = true.
Hypothesis lt_le : forall x y : A, fltb x y = true -> fleb x y = true.

(** The count below [hi] is the count below [lo] plus the count in
    [[lo, hi)]. *)
Lemma searchsorted_left_split (a : list A) (lo hi : A) :
  fleb lo hi = true ->
  searchsorted_left a hi
  = (searchsorted_left a lo + bucket_count lo hi false a)%Z.
Proof.
  intros Hlh. unfold searchsorted_left, bucket_count.
  induction a as [|x a IH]; [reflexivity|]. cbn [filter].
  unfold in_bucket at 1. rewrite (lt_not_le x lo).
  destruct (fleb lo x) eqn:E; cbn [negb andb].
  - destruct (fltb x hi); cbn [List.length]; lia.
  - assert (Hx : fltb x lo = true) by (rewrite lt_not_le, E; reflexivity).
    rewrite (lt_le_trans x lo hi Hx Hlh). cbn [List.length]. lia.
Qed.

(** The count up to and including [hi] is the count below [lo] plus the
    count in [[lo, hi]]. *)
Lemma searchsorted_right_split (a : list A) (lo hi : A) :
  fleb lo hi = true ->
  searchsorted_right a hi
  = (searchsorted_left a lo + bucket_count lo hi true a)%Z.
Proof.
  intros Hlh. unfold searchsorted_right, searchsorted_left, bucket_count.
  induction a as [|x a IH]; [reflexivity|]. cbn [filter].
  unfold in_bucket at 1. rewrite (lt_not_le x lo).
  destruct (fleb lo x) eqn:E; cbn [negb andb].
  - destruct (fleb x hi); cbn [List.length]; lia.
  - assert (Hx : fltb x lo = true) by (rewrite lt_not_le, E; reflexivity).
    rewrite (lt_le x hi (lt_le_trans x lo hi Hx Hlh)). cbn [List.length]. lia.
Qed.

Lemma searchsorted_left_none (a : list A) (lo : A) :
  (forall x, In x a -> fleb lo x = true) -> searchsorted_left a lo = 0%Z.
Proof.
  intros Hall. unfold searchsorted_left.
  induction a as [|x a IH]; [reflexivity|]. cbn [filter].
  rewrite lt_not_le, (Hall x (or_introl eq_refl)). cbn [negb].
  apply IH. intros y Hy. apply Hall. now right.
Qed.

Lemma searchsorted_right_all (a : list A) (hi : A) :
  (forall x, In x a -> fleb x hi = true) ->
  searchsorted_right a hi = Z.of_nat (List.length a).
Proof.
  intros Hall. unfold searchsorted_right.
  induction a as [|x a IH]; [reflexivity|]. cbn [filter].
  rewrite (Hall x (or_introl eq_refl)). cbn [List.length].
  rewrite !Nat2Z.inj_succ. f_equal.
  apply IH. intros y Hy. apply Hall. now right.
Qed.
End Buckets.

Lemma Rltb_Rleb_trans (x y z : R) :
  Rltb x y = true -> Rleb y z = true -> Rltb x z = true.
Proof. rewrite !Rltb_true, Rleb_true. lra. Qed.

Lemma Rltb_Rleb (x y : R) : Rltb x y = true -> Rleb x y = true.
Proof. rewrite Rltb_true, Rleb_true. lra. Qed.

Lemma xltb_xleb_trans (x y z : xreal) :
  xltb x y = true -> xleb y z = true -> xltb x z = true.
Proof.
  destruct x as [a|], y as [b|], z as [c|]; cbn; try easy.
  apply Rltb_Rleb_trans.
Qed.

Lemma xltb_xleb (x y : xreal) : xltb x y = true -> xleb x y = true.
Proof. destruct x as [a|], y as [b|]; cbn; try easy. apply Rltb_Rleb. Qed.

Lemma IZR_leb (m n : Z) : (m <=? n)%Z = true -> Rleb (IZR m) (IZR n) = true.
Proof. intros H. apply Rleb_true, IZR_le, Z.leb_le, H. Qed.

Lemma R_left_split (a : list R) (lo hi : Z) :
  (lo <=? hi)%Z = true ->
  searchsorted_left a (IZR hi)
  = (searchsorted_left a (IZR lo) + bucket_count (IZR lo) (IZR hi) false a)%Z.
Proof.
  intros Hle.
  apply (searchsorted_left_split (H := Float_R) Rltb_not_Rleb Rltb_Rleb_trans).
  apply IZR_leb, Hle.
Qed.

Lemma R_right_split (a : list R) (lo hi : Z) :
  (lo <=? hi)%Z = true ->
  searchsorted_right a (IZR hi)
  = (searchsorted_left a (IZR lo) + bucket_count (IZR lo) (IZR hi) true a)%Z.
Proof.
  intros Hle.
  apply (searchsorted_right_split (H := Float_R)
           Rltb_not_Rleb Rltb_Rleb_trans Rltb_Rleb).
  apply IZR_leb, Hle.
Qed.

Lemma x_left_split (a : list xreal) (lo hi : Z) :
  (lo <=? hi)%Z = true ->
  searchsorted_left a (Fin (IZR hi))
  = (searchsorted_left a (Fin (IZR lo))
     + bucket_count (Fin (IZR lo)) (Fin (IZR hi)) false a)%Z.
Proof.
  intros Hle.
  apply (searchsorted_left_split (H := Float_xreal)
           xltb_not_xleb xltb_xleb_trans).
  apply IZR_leb, Hle.
Qed.

Lemma x_right_split (a : list xreal) (lo : Z) :
  searchsorted_right a PInf
  = (searchsorted_left a (Fin (IZR lo))
     + bucket_count (Fin (IZR lo)) PInf true a)%Z.
Proof.
  apply (searchsorted_right_split (H := Float_xreal)
           xltb_not_xleb xltb_xleb_trans xltb_xleb).
  reflexivity.
Qed.

(** The angle histogram, bucket by bucket: [[0,10)], ..., [[50,60)],
    [[60,90]]. *)
Lemma angle_hist_buckets (a : list R) :
  angle_hist a
  = [bucket_count 0 10 false a; bucket_count 10 20 false a;
     bucket_count 20 30 false a; bucket_count 30 40 false a;
     bucket_count 40 50 false a; bucket_count 50 60 false a;
     bucket_count 60 90 true a].
Proof.
  unfold angle_hist, np_histogram, search_sorted_inclusive, angle_bins.
  cbn [map removelast last_slice last app np_diff].
  rewrite (R_right_split a 60 90), (R_left_split a 50 60),
    (R_left_split a 40 50), (R_left_split a 30 40), (R_left_split a 20 30),
    (R_left_split a 10 20), (R_left_split a 0 10) by reflexivity.
  repeat (f_equal; try lia).
Qed.

(** The aspect-ratio histogram, bucket by bucket: [[1,2)], ..., [[50,100)],
    [[100,inf]]. *)
Lemma ar_hist_buckets (a : list xreal) :
  ar_hist a
  = [bucket_count (Fin 1) (Fin 2) false a; bucket_count (Fin 2) (Fin 5) false a;
     bucket_count (Fin 5) (Fin 10) false a;
     bucket_count (Fin 10) (Fin 20) false a;
     bucket_count (Fin 20) (Fin 50) false a;
     bucket_count (Fin 50) (Fin 100) false a;
     bucket_count (Fin 100) PInf true a].
Proof.
  unfold ar_hist, np_histogram, search_sorted_inclusive, ar_bins.
  cbn [map removelast last_slice last app np_diff float_of_pynum].
  rewrite (x_right_split a 100), (x_left_split a 50 100),
    (x_left_split a 20 50), (x_left_split a 10 20), (x_left_split a 5 10),
    (x_left_split a 2 5), (x_left_split a 1 2) by reflexivity.
  repeat (f_equal; try lia).
Qed.

(** The counts add up to the number of values between the outer edges. *)
Lemma angle_hist_total (a : list R) :
  total (angle_hist a)
  = (searchsorted_right a 90%R - searchsorted_left a 0%R)%Z.
Proof.
  unfold angle_hist, np_histogram, search_sorted_inclusive, angle_bins.
  cbn [map removelast last_slice last app np_diff total fold_right]. lia.
Qed.

Lemma ar_hist_total (a : list xreal) :
  total (ar_hist a)
  = (searchsorted_right a PInf - searchsorted_left a (Fin 1%R))%Z.
Proof.
  unfold ar_hist, np_histogram, search_sorted_inclusive, ar_bins.
  cbn [map removelast last_slice last app np_diff total fold_right
       float_of_pynum]. lia.
Qed.

Lemma angle_hist_total_in_range (a : list R) :
  (forall x, In x a -> 0 <= x <= 90) ->
  total (angle_hist a) = Z.of_nat (List.length a).
Proof.
  intros Hall. rewrite angle_hist_total.
  rewrite (searchsorted_right_all (H := Float_R)).
  2:{ intros x Hx. apply Rleb_true. apply (Hall x Hx). }
  rewrite (searchsorted_left_none (H := Float_R) Rltb_not_Rleb).
  2:{ intros x Hx. apply Rleb_true. apply (Hall x Hx). }
  lia.
Qed.

Lemma ar_hist_total_in_range (a : list xreal) :
  (forall x, In x a -> xleb (Fin 1) x = true) ->
  total (ar_hist a) = Z.of_nat (List.length a).
Proof.
  intros Hall. rewrite ar_hist_total.
  rewrite (searchsorted_right_all (H := Float_xreal)).
  2:{ intros x Hx. destruct x; reflexivity. }
  rewrite (searchsorted_left_none (H := Float_xreal) xltb_not_xleb).
  2:{ exact Hall. }
  lia.
Qed.

(* ================================================================= *)
(** ** The range of the per-triangle values *)

Lemma clip_bounds (x : R) : -1 <= clip x (-1) 1 <= 1.
Proof. unfold clip, Rmin, Rmax. repeat destruct (Rle_dec _ _); lra. Qed.

Lemma clip_nonneg (x : R) : 0 <= x -> 0 <= clip x (-1) 1.
Proof. unfold clip, Rmin, Rmax. repeat destruct (Rle_dec _ _); lra. Qed.

Lemma acos_le_half_pi (x : R) : 0 <= x <= 1 -> acos x <= PI / 2.
Proof.
  intros Hx. destruct (Rle_lt_dec (acos x) (PI / 2)) as [|Hgt]; [assumption|].
  exfalso. pose proof (acos_bound x) as [_ Hpi]. pose proof PI_RGT_0.
  assert (Hneg : cos (acos x) < 0) by (apply cos_lt_0; lra).
  rewrite cos_acos in Hneg; lra.
Qed.

Lemma min3_le (a b c : R) :
  min3 a b c <= a /\ min3 a b c <= b /\ min3 a b c <= c.
Proof. unfold min3, Rmin. repeat destruct (Rle_dec _ _); lra. Qed.

Lemma min3_ge (a b c m : R) : m <= a -> m <= b -> m <= c -> m <= min3 a b c.
Proof. unfold min3, Rmin. repeat destruct (Rle_dec _ _); lra. Qed.

Lemma div_nonneg (n d : R) : 0 <= n -> 0 < d -> 0 <= n / d.
Proof.
  intros Hn Hd. unfold Rdiv. apply Rmult_le_pos; [assumption|].
  left. now apply Rinv_0_lt_compat.
Qed.

(** The minimum angle of lines 98-103 lies between 0 and 90 degrees. *)
Lemma min_angle_range (l0 l1 l2 : R) :
  0 < l0 -> 0 < l1 -> 0 < l2 -> 0 <= min_angle_of l0 l1 l2 <= 90.
Proof.
  intros H0 H1 H2. unfold min_angle_of; cbv zeta.
  set (t0 := (l0 ^ 2 + l2 ^ 2 - l1 ^ 2) / (2 * l0 * l2)).
  set (t1 := (l0 ^ 2 + l1 ^ 2 - l2 ^ 2) / (2 * l0 * l1)).
  set (t2 := (l1 ^ 2 + l2 ^ 2 - l0 ^ 2) / (2 * l1 * l2)).
  pose proof PI_RGT_0 as Hpi.
  assert (Hk : 0 < 180 / PI) by (apply Rdiv_lt_0_compat; lra).
  pose proof (acos_bound (clip t0 (-1) 1)) as [A0 _].
  pose proof (acos_bound (clip t1 (-1) 1)) as [A1 _].
  pose proof (acos_bound (clip t2 (-1) 1)) as [A2 _].
  pose proof (min3_le (acos (clip t0 (-1) 1)) (acos (clip t1 (-1) 1))
                      (acos (clip t2 (-1) 1))) as [M0 [M1 _]].
  pose proof (min3_ge _ _ _ 0 A0 A1 A2) as Mge.
  set (m := min3 _ _ _) in *.
  assert (Hm : m <= PI / 2).
  { assert (Hnum : 0 <= l0 ^ 2 + l2 ^ 2 - l1 ^ 2 \/ 0 <= l0 ^ 2 + l1 ^ 2 - l2 ^ 2)
      by nra.
    destruct Hnum as [Hn|Hn].
    - assert (0 <= t0) by (apply div_nonneg; [assumption | nra]).
      pose proof (clip_bounds t0). pose proof (clip_nonneg t0 ltac:(assumption)).
      pose proof (acos_le_half_pi (clip t0 (-1) 1) ltac:(lra)). lra.
    - assert (0 <= t1) by (apply div_nonneg; [assumption | nra]).
      pose proof (clip_bounds t1). pose proof (clip_nonneg t1 ltac:(assumption)).
      pose proof (acos_le_half_pi (clip t1 (-1) 1) ltac:(lra)). lra. }
  unfold degrees. split.
  - apply Rmult_le_pos; lra.
  - replace 90 with (PI / 2 * (180 / PI)) by (field; lra).
    apply Rmult_le_compat_r; lra.
Qed.

Lemma positive_edges_true (p0 p1 p2 : vec3) :
  positive_edges (p0, p1, p2) = true ->
  0 < norm (vsub p1 p0) /\ 0 < norm (vsub p2 p1) /\ 0 < norm (vsub p0 p2).
Proof.
  unfold positive_edges. rewrite !andb_true_iff, !Rltb_true. tauto.
Qed.

Lemma min_angle_deg_range (v : corners) :
  positive_edges v = true -> 0 <= min_angle_deg_of v <= 90.
Proof.
  destruct v as [[p0 p1] p2]. intros H.
  apply positive_edges_true in H as [H0 [H1 H2]].
  now apply min_angle_range.
Qed.

(** An aspect ratio the loop appends is at least 1 (in fact at least
    [2/sqrt 3]) or infinite. *)
Lemma aspect_of_range (v : corners) :
  positive_edges v = true -> xleb (Fin 1) (aspect_of v) = true.
Proof.
  destruct v as [[p0 p1] p2]. intros H.
  apply positive_edges_true in H as [H0 [H1 H2]].
  unfold aspect_of, triangle_aspect_ratio.
  destruct (aspect_ratio_of _ _ _ _) as [r|] eqn:E; [|reflexivity].
  destruct (aspect_ratio_bound p0 p1 p2 r H0 H1 H2 E) as [Hr _].
  pose proof two_over_sqrt3_gt_1. cbn. apply Rleb_true. lra.
Qed.

Lemma in_map_filter {A B} (f : A -> B) (p : A -> bool) (l : list A) (y : B) :
  In y (map f (filter p l)) -> exists x, In x l /\ p x = true /\ f x = y.
Proof.
  intros Hin. apply in_map_iff in Hin as [x [Hf Hx]].
  apply filter_In in Hx as [Hx Hp]. eauto.
Qed.

(* ================================================================= *)
(** ** The report *)

Lemma guarded_ok {A} `{Float A} (f : list A -> result A) (arr : list A) :
  (forall x rest, exists y, f (x :: rest) = Ok y) ->
  guarded f arr = Ok (stat_or_zero f arr).
Proof.
  intros Hf. unfold stat_or_zero, guarded.
  destruct arr as [|x rest]; [reflexivity|].
  cbn [List.length Nat.ltb Nat.leb]. destruct (Hf x rest) as [y ->].
  reflexivity.
Qed.

Lemma stat_or_zero_nil {A} `{Float A} (f : list A -> result A) :
  stat_or_zero f [] = fzero.
Proof. reflexivity. Qed.

Lemma np_min_total {A} `{Float A} (x : A) (rest : list A) :
  exists y, np_min (x :: rest) = Ok y.
Proof. cbn. eauto. Qed.

Lemma np_max_total {A} `{Float A} (x : A) (rest : list A) :
  exists y, np_max (x :: rest) = Ok y.
Proof. cbn. eauto. Qed.

Lemma angle_distribution_items (a : list R) :
  distribution_items angle_label angle_bins (angle_hist a)
  = Ok (combine angle_labels (angle_hist a)).
Proof. rewrite angle_hist_buckets. reflexivity. Qed.

Lemma ar_distribution_items (a : list xreal) :
  distribution_items ar_label ar_bins (ar_hist a)
  = Ok (combine ar_labels (ar_hist a)).
Proof. rewrite ar_hist_buckets. reflexivity. Qed.

(** Lines 112-154 never raise. *)
Lemma build_report_ok (triangles : list triangle) (m : metric_lists) :
  build_report triangles m = Ok (report_of triangles m).
Proof.
  unfold build_report; cbv zeta.
  rewrite !(guarded_ok np_min) by (intros; apply np_min_total).
  rewrite !(guarded_ok np_max) by (intros; apply np_max_total).
  rewrite !(guarded_ok (fun a => Ok (np_mean a))) by (intros; eauto).
  rewrite !(guarded_ok (fun a => Ok (np_median a))) by (intros; eauto).
  rewrite angle_distribution_items, ar_distribution_items.
  reflexivity.
Qed.

(** [compute_mesh_quality] returns a report exactly on well-indexed meshes,
    and raises [IndexError] otherwise. *)
Lemma compute_mesh_quality_ok (points : list vec3) (triangles : list triangle) :
  well_indexed points triangles = true ->
  exists vs m,
    corners_all points triangles = Ok vs /\
    List.length vs = List.length triangles /\
    m = {| min_angles := map min_angle_deg_of (filter positive_edges vs);
           aspect_ratios := map aspect_of (filter positive_edges vs);
           areas := map area_of vs |} /\
    collect_metrics points triangles = Ok m /\
    compute_mesh_quality points triangles = Ok (report_of triangles m).
Proof.
  intros H. destruct (collect_metrics_ok points triangles H) as [vs [Hvs [Hl Hc]]].
  eexists vs, _. split; [exact Hvs|]. split; [exact Hl|].
  split; [reflexivity|]. split; [exact Hc|].
  unfold compute_mesh_quality. rewrite Hc. cbn [rbind]. apply build_report_ok.
Qed.

Lemma compute_mesh_quality_bad (points : list vec3) (triangles : list triangle) :
  well_indexed points triangles = false ->
  compute_mesh_quality points triangles = Raise IndexError.
Proof.
  intros H. unfold compute_mesh_quality, collect_metrics.
  rewrite metrics_loop_bad by exact H. reflexivity.
Qed.

Lemma map_snd_combine {A B} (l : list A) (l' : list B) :
  List.length l = List.length l' -> map snd (combine l l') = l'.
Proof.
  revert l'; induction l as [|x l IH]; intros [|y l']; cbn; try easy.
  intros Hl. f_equal. apply IH. lia.
Qed.

(* ================================================================= *)
(** ** Sequence lengths, histogram sums and empty sequences *)

Lemma filter_length_le {A} (p : A -> bool) (l : list A) :
  (List.length (filter p l) <= List.length l)%nat.
Proof.
  induction l as [|x l IH]; cbn; [lia|]. destruct (p x); cbn; lia.
Qed.



(** Over exact reals: on a well-indexed mesh the angle and aspect-ratio
    sequences have the same length, the number of triangles without a
    zero-length edge, and the counts of the aspect-ratio histogram add up
    to that number.  (In binary64 the guard and the histogram decide
    otherwise on some meshes; see the binary64 part below.) *)
Lemma exact_sequences_same_length
        (points : list vec3) (triangles : list triangle) :
  well_indexed points triangles = true ->
  exists vs m q,
    corners_all points triangles = Ok vs /\
    collect_metrics points triangles = Ok m /\
    compute_mesh_quality points triangles = Ok q /\
    min_angles m = map min_angle_deg_of (filter positive_edges vs) /\
    aspect_ratios m = map aspect_of (filter positive_edges vs) /\
    (forall v, positive_edges v = false <-> has_zero_edge v) /\
    List.length (min_angles m) = List.length (aspect_ratios m) /\
    List.length (aspect_ratios m) = List.length (filter positive_edges vs) /\
    total (map snd (distribution (aspect_ratio q)))
    = Z.of_nat (List.length (filter positive_edges vs)).
Proof.
  intros H.
  destruct (compute_mesh_quality_ok points triangles H)
    as [vs [m [Hvs [Hl [Hm [Hc Hq]]]]]].
  exists vs, m, (report_of triangles m).
  split; [exact Hvs|]. split; [exact Hc|]. split; [exact Hq|].
  subst m. cbn [areas min_angles aspect_ratios report_of aspect_ratio
                distribution].
  split; [reflexivity|]. split; [reflexivity|].
  split; [exact positive_edges_false_iff|].
  rewrite !length_map. split; [reflexivity|]. split; [reflexivity|].
  rewrite map_snd_combine by (rewrite ar_hist_buckets; reflexivity).
  rewrite ar_hist_total_in_range, length_map; [reflexivity|].
  intros x Hx. apply in_map_filter in Hx as [v [_ [Hp <-]]].
  now apply aspect_of_range.
Qed.

(** Over exact reals: every minimum angle lies between 0 and 90 and every
    aspect ratio is at least 1, so the counts of each histogram add up to
    the length of its sequence.  (In binary64 a value can be NaN; see the
    binary64 part below.) *)
Lemma exact_histogram_counts_sum_to_length
        (points : list vec3) (triangles : list triangle) :
  well_indexed points triangles = true ->
  exists m q,
    collect_metrics points triangles = Ok m /\
    compute_mesh_quality points triangles = Ok q /\
    map snd (distribution (min_angle q)) = angle_hist (min_angles m) /\
    map snd (distribution (aspect_ratio q)) = ar_hist (aspect_ratios m) /\
    angle_hist (min_angles m)
    = [bucket_count 0 10 false (min_angles m);
       bucket_count 10 20 false (min_angles m);
       bucket_count 20 30 false (min_angles m);
       bucket_count 30 40 false (min_angles m);
       bucket_count 40 50 false (min_angles m);
       bucket_count 50 60 false (min_angles m);
       bucket_count 60 90 true (min_angles m)] /\
    ar_hist (aspect_ratios m)
    = [bucket_count (Fin 1) (Fin 2) false (aspect_ratios m);
       bucket_count (Fin 2) (Fin 5) false (aspect_ratios m);
       bucket_count (Fin 5) (Fin 10) false (aspect_ratios m);
       bucket_count (Fin 10) (Fin 20) false (aspect_ratios m);
       bucket_count (Fin 20) (Fin 50) false (aspect_ratios m);
       bucket_count (Fin 50) (Fin 100) false (aspect_ratios m);
       bucket_count (Fin 100) PInf true (aspect_ratios m)] /\
    total (angle_hist (min_angles m))
    = Z.of_nat (List.length (min_angles m)) /\
    total (ar_hist (aspect_ratios m))
    = Z.of_nat (List.length (aspect_ratios m)) /\
    (triangles = [] ->
     total (angle_hist (min_angles m)) = 0%Z /\
     total (ar_hist (aspect_ratios m)) = 0%Z).
Proof.
  intros H.
  destruct (compute_mesh_quality_ok points triangles H)
    as [vs [m [Hvs [Hl [Hm [Hc Hq]]]]]].
  exists m, (report_of triangles m).
  split; [exact Hc|]. split; [exact Hq|].
  cbn [report_of min_angle aspect_ratio distribution].
  split; [apply map_snd_combine; rewrite angle_hist_buckets; reflexivity|].
  split; [apply map_snd_combine; rewrite ar_hist_buckets; reflexivity|].
  split; [apply angle_hist_buckets|]. split; [apply ar_hist_buckets|].
  assert (Hang : total (angle_hist (min_angles m))
                 = Z.of_nat (List.length (min_angles m))).
  { apply angle_hist_total_in_range. subst m; cbn [min_angles].
    intros x Hx. apply in_map_filter in Hx as [v [_ [Hp <-]]].
    now apply min_angle_deg_range. }
  assert (Har : total (ar_hist (aspect_ratios m))
                = Z.of_nat (List.length (aspect_ratios m))).
  { apply ar_hist_total_in_range. subst m; cbn [aspect_ratios].
    intros x Hx. apply in_map_filter in Hx as [v [_ [Hp <-]]].
    now apply aspect_of_range. }
  split; [exact Hang|]. split; [exact Har|].
  intros ->. rewrite Hang, Har.
  destruct vs; [|discriminate]. subst m. split; reflexivity.
Qed.

Lemma corners_all_well_indexed (points : list vec3) (triangles : list triangle)
      (vs : list corners) :
  corners_all points triangles = Ok vs -> well_indexed points triangles = true.
Proof.
  intros H. destruct (well_indexed points triangles) eqn:E; [reflexivity|].
  exfalso. revert vs H. unfold well_indexed in E.
  induction triangles as [|tri rest IH]; intros vs H; cbn in E; [discriminate|].
  cbn [corners_all] in H.
  destruct (triangle_ok (List.length points) tri) eqn:Ht.
  - destruct (corners_of points tri); [|discriminate]. cbn [rbind] in H.
    destruct (corners_all points rest) as [vs'|]; [|discriminate].
    apply (IH E vs' eq_refl).
  - rewrite (corners_of_bad points tri Ht) in H. discriminate.
Qed.

Lemma filter_none {A} (p : A -> bool) (l : list A) :
  (forall x, In x l -> p x = false) -> filter p l = [].
Proof.
  induction l as [|x l IH]; intros H; [reflexivity|]. cbn.
  rewrite (H x (or_introl eq_refl)). apply IH. intros y Hy. apply H. now right.
Qed.

(** C7. When a mesh has no triangle, or every triangle has a zero-length
    edge, the angle and aspect-ratio sequences are empty;
    [compute_mesh_quality] returns a report, and the minimum, maximum, mean
    and median of both sequences are 0 in it. *)
Theorem C7_empty_sequences_report_zero
        (points : list vec3) (triangles : list triangle) (vs : list corners) :
  corners_all points triangles = Ok vs ->
  (forall v, In v vs -> has_zero_edge v) ->
  exists m q,
    collect_metrics points triangles = Ok m /\
    min_angles m = [] /\ aspect_ratios m = [] /\
    compute_mesh_quality points triangles = Ok q /\
    d_min (min_angle q) = 0 /\ d_max (min_angle q) = 0 /\
    d_mean (min_angle q) = 0 /\ d_median (min_angle q) = 0 /\
    d_min (aspect_ratio q) = Fin 0 /\ d_max (aspect_ratio q) = Fin 0 /\
    d_mean (aspect_ratio q) = Fin 0 /\ d_median (aspect_ratio q) = Fin 0.
Proof.
  intros Hvs Hdeg.
  pose proof (corners_all_well_indexed points triangles vs Hvs) as Hw.
  destruct (compute_mesh_quality_ok points triangles Hw)
    as [vs' [m [Hvs' [Hl [Hm [Hc Hq]]]]]].
  rewrite Hvs in Hvs'. injection Hvs' as <-.
  assert (Hf : filter positive_edges vs = []).
  { apply filter_none. intros v Hv. apply positive_edges_false_iff.
    now apply Hdeg. }
  rewrite Hf in Hm. cbn [map] in Hm.
  exists m, (report_of triangles m).
  split; [exact Hc|]. subst m. cbn [min_angles aspect_ratios].
  split; [reflexivity|]. split; [reflexivity|]. split; [exact Hq|].
  cbn [report_of min_angle aspect_ratio d_min d_max d_mean d_median
       min_angles aspect_ratios].
  rewrite !stat_or_zero_nil. repeat split; reflexivity.
Qed.

Lemma norm_self (p : vec3) : norm (vsub p p) = 0.
Proof.
  unfold norm, vsub, c0, c1, c2; cbn [fst snd].
  replace ((fst (fst p) - fst (fst p)) * (fst (fst p) - fst (fst p))
           + (snd (fst p) - snd (fst p)) * (snd (fst p) - snd (fst p))
           + (snd p - snd p) * (snd p - snd p)) with 0 by ring.
  apply sqrt_0.
Qed.

(** A mesh whose only triangle names a point twice. *)
Lemma C7_witness :
  exists m q,
    collect_metrics sample_points collapsed_triangles = Ok m /\
    min_angles m = [] /\ aspect_ratios m = [] /\
    compute_mesh_quality sample_points collapsed_triangles = Ok q /\
    d_min (min_angle q) = 0 /\ d_max (min_angle q) = 0 /\
    d_mean (min_angle q) = 0 /\ d_median (min_angle q) = 0 /\
    d_min (aspect_ratio q) = Fin 0 /\ d_max (aspect_ratio q) = Fin 0 /\
    d_mean (aspect_ratio q) = Fin 0 /\ d_median (aspect_ratio q) = Fin 0.
Proof.
  apply (C7_empty_sequences_report_zero
           sample_points collapsed_triangles
           [((0, 0, 0), (0, 0, 0), (1, 0, 0))]).
  - reflexivity.
  - intros v [<-|[]]. left. apply norm_self.
Defined.
(* ================================================================= *)
(** ** Order facts of binary64 *)

(** The comparison of two specification floats by cases. *)
Ltac sf_compare :=
  cbn [SpecFloat.SFcompare option_map CompOpp];
  repeat match goal with
         | |- context [Z.compare ?a ?b] => destruct (Z.compare_spec a b)
         | H : context [Z.compare ?a ?b] |- _ => destruct (Z.compare_spec a b)
         | |- context [Pos.compare_cont Eq ?a ?b] =>
             change (Pos.compare_cont Eq a b) with (Pos.compare a b);
             destruct (Pos.compare_spec a b)
         | H : context [Pos.compare_cont Eq ?a ?b] |- _ =>
             change (Pos.compare_cont Eq a b) with (Pos.compare a b) in H;
             destruct (Pos.compare_spec a b)
         end;
  cbn [CompOpp] in *; try congruence; try lia.

Lemma SFcompare_antisym (x y : SpecFloat.spec_float) :
  SpecFloat.SFcompare y x = option_map CompOpp (SpecFloat.SFcompare x y).
Proof.
  destruct x as [[]|[]| |[] mx ex], y as [[]|[]| |[] my ey];
    try reflexivity; sf_compare.
Qed.

Lemma SFcompare_refl (x : SpecFloat.spec_float) :
  x <> SpecFloat.S754_nan -> SpecFloat.SFcompare x x = Some Eq.
Proof.
  destruct x as [[]|[]| |[] mx ex]; try reflexivity; try congruence;
    intros _; sf_compare.
Qed.

Lemma SFcompare_nan_l (x y : SpecFloat.spec_float) :
  SpecFloat.SFcompare x y <> None -> x <> SpecFloat.S754_nan.
Proof. intros H ->. apply H. reflexivity. Qed.

Lemma SFcompare_nan_r (x y : SpecFloat.spec_float) :
  SpecFloat.SFcompare x y <> None -> y <> SpecFloat.S754_nan.
Proof. intros H ->. apply H. destruct x as [[]|[]| |[] mx ex]; reflexivity. Qed.

Lemma SFcompare_some (x y : SpecFloat.spec_float) :
  x <> SpecFloat.S754_nan -> y <> SpecFloat.S754_nan ->
  exists c, SpecFloat.SFcompare x y = Some c.
Proof.
  destruct x as [[]|[]| |[] mx ex], y as [[]|[]| |[] my ey];
    try congruence; intros _ _; cbn [SpecFloat.SFcompare]; eauto.
Qed.

(** Less than, then less than or equal, is less than. *)
Lemma SFcompare_lt_le_trans (x y z : SpecFloat.spec_float) (c : comparison) :
  SpecFloat.SFcompare x y = Some Lt ->
  SpecFloat.SFcompare y z = Some c -> c <> Gt ->
  SpecFloat.SFcompare x z = Some Lt.
Proof.
  destruct x as [[]|[]| |[] mx ex], y as [[]|[]| |[] my ey],
           z as [[]|[]| |[] mz ez];
    cbn [SpecFloat.SFcompare]; try congruence;
    intros H1 H2 Hc; injection H1 as H1; injection H2 as H2;
    try (subst c; congruence); f_equal; sf_compare.
Qed.

Lemma f64_ltb_compare (x y : PrimFloat.float) :
  PrimFloat.ltb x y = true <->
  SpecFloat.SFcompare (FloatOps.Prim2SF x) (FloatOps.Prim2SF y) = Some Lt.
Proof.
  rewrite FloatAxioms.ltb_spec. unfold SpecFloat.SFltb.
  destruct (SpecFloat.SFcompare _ _) as [[]|]; split; congruence.
Qed.

Lemma f64_leb_compare (x y : PrimFloat.float) :
  PrimFloat.leb x y = true <->
  exists c, SpecFloat.SFcompare (FloatOps.Prim2SF x) (FloatOps.Prim2SF y)
            = Some c /\ c <> Gt.
Proof.
  rewrite FloatAxioms.leb_spec. unfold SpecFloat.SFleb.
  destruct (SpecFloat.SFcompare _ _) as [[]|]; split;
    try congruence; try (intros _; eexists; split; [reflexivity|congruence]);
    intros [c [E Hc]]; congruence.
Qed.

(** A float that compares with something is not NaN: it is less than or
    equal to itself. *)
Lemma f64_leb_refl_iff (x : PrimFloat.float) :
  PrimFloat.leb x x = true <-> FloatOps.Prim2SF x <> SpecFloat.S754_nan.
Proof.
  rewrite f64_leb_compare. split.
  - intros [c [E _]]. apply (SFcompare_nan_l _ (FloatOps.Prim2SF x)).
    congruence.
  - intros H. exists Eq. split; [now apply SFcompare_refl|congruence].
Qed.

Lemma f64_ltb_leb_trans (x y z : PrimFloat.float) :
  PrimFloat.ltb x y = true -> PrimFloat.leb y z = true ->
  PrimFloat.ltb x z = true.
Proof.
  rewrite !f64_ltb_compare, f64_leb_compare. intros H1 [c [H2 Hc]].
  exact (SFcompare_lt_le_trans _ _ _ c H1 H2 Hc).
Qed.

Lemma f64_ltb_leb (x y : PrimFloat.float) :
  PrimFloat.ltb x y = true -> PrimFloat.leb x y = true.
Proof.
  rewrite f64_ltb_compare, f64_leb_compare. intros H.
  exists Lt. split; [exact H|congruence].
Qed.

Lemma f64_leb_refl_l (x y : PrimFloat.float) :
  PrimFloat.leb x y = true -> PrimFloat.leb x x = true.
Proof.
  rewrite f64_leb_refl_iff, f64_leb_compare. intros [c [E _]].
  apply (SFcompare_nan_l _ (FloatOps.Prim2SF y)). congruence.
Qed.

Lemma f64_leb_refl_r (x y : PrimFloat.float) :
  PrimFloat.leb x y = true -> PrimFloat.leb y y = true.
Proof.
  rewrite f64_leb_refl_iff, f64_leb_compare. intros [c [E _]].
  apply (SFcompare_nan_r (FloatOps.Prim2SF x)). congruence.
Qed.

(** On floats that are not NaN, [x < y] is the negation of [y <= x]. *)
Lemma f64_ltb_not_leb (x y : PrimFloat.float) :
  PrimFloat.leb x x = true -> PrimFloat.leb y y = true ->
  PrimFloat.ltb x y = negb (PrimFloat.leb y x).
Proof.
  rewrite !f64_leb_refl_iff. intros Hx Hy.
  rewrite FloatAxioms.ltb_spec, FloatAxioms.leb_spec.
  unfold SpecFloat.SFltb, SpecFloat.SFleb.
  rewrite (SFcompare_antisym (FloatOps.Prim2SF x) (FloatOps.Prim2SF y)).
  destruct (SFcompare_some _ _ Hx Hy) as [c ->]. destruct c; reflexivity.
Qed.

Lemma f64_nan_leb_r (x : PrimFloat.float) :
  PrimFloat.leb x PrimFloat.nan = false.
Proof.
  rewrite FloatAxioms.leb_spec. unfold SpecFloat.SFleb.
  destruct (SpecFloat.SFcompare _ _) as [c|] eqn:E; [|reflexivity].
  exfalso. apply (SFcompare_nan_r (FloatOps.Prim2SF x)
                                  (FloatOps.Prim2SF PrimFloat.nan));
    [congruence|reflexivity].
Qed.

(** Every float but NaN is at most infinity. *)
Lemma f64_leb_infinity (x : PrimFloat.float) :
  PrimFloat.leb x x = true -> PrimFloat.leb x PrimFloat.infinity = true.
Proof.
  rewrite f64_leb_refl_iff, FloatAxioms.leb_spec. unfold SpecFloat.SFleb.
  change (FloatOps.Prim2SF PrimFloat.infinity)
    with (SpecFloat.S754_infinity false).
  destruct (FloatOps.Prim2SF x) as [[]|[]| |[] mx ex]; try reflexivity.
  congruence.
Qed.

(* ================================================================= *)
(** ** Histograms of binary64 sequences *)

(** The count below [hi] is the count below [lo] plus the count in
    [[lo, hi)]; NaN is in none of the three. *)
Lemma f64_left_split (a : list PrimFloat.float) (lo hi : PrimFloat.float) :
  PrimFloat.leb lo hi = true ->
  searchsorted_left a hi
  = (searchsorted_left a lo + bucket_count lo hi false a)%Z.
Proof.
  intros Hlh. unfold searchsorted_left, bucket_count.
  induction a as [|x a IH]; [reflexivity|]. cbn [filter].
  unfold in_bucket at 1. cbn [fltb fleb Float_binary64] in *.
  destruct (PrimFloat.leb lo x) eqn:E; cbn [andb].
  - rewrite (f64_ltb_not_leb x lo (f64_leb_refl_r _ _ E)
                             (f64_leb_refl_l _ _ E)), E. cbn [negb].
    destruct (PrimFloat.ltb x hi); cbn [List.length]; lia.
  - destruct (PrimFloat.ltb x lo) eqn:Elo.
    + rewrite (f64_ltb_leb_trans x lo hi Elo Hlh). cbn [List.length]. lia.
    + destruct (PrimFloat.ltb x hi) eqn:Ehi; [|exact IH]. exfalso.
      rewrite (f64_ltb_not_leb x lo) in Elo.
      * rewrite E in Elo. discriminate.
      * apply (f64_leb_refl_l x hi), f64_ltb_leb, Ehi.
      * apply (f64_leb_refl_l lo hi), Hlh.
Qed.

Lemma f64_right_split (a : list PrimFloat.float) (lo hi : PrimFloat.float) :
  PrimFloat.leb lo hi = true ->
  searchsorted_right a hi
  = (searchsorted_left a lo + bucket_count lo hi true a)%Z.
Proof.
  intros Hlh. unfold searchsorted_right, searchsorted_left, bucket_count.
  induction a as [|x a IH]; [reflexivity|]. cbn [filter].
  unfold in_bucket at 1. cbn [fltb fleb Float_binary64] in *.
  destruct (PrimFloat.leb lo x) eqn:E; cbn [andb].
  - rewrite (f64_ltb_not_leb x lo (f64_leb_refl_r _ _ E)
                             (f64_leb_refl_l _ _ E)), E. cbn [negb].
    destruct (PrimFloat.leb x hi); cbn [List.length]; lia.
  - destruct (PrimFloat.ltb x lo) eqn:Elo.
    + rewrite (f64_ltb_leb x hi (f64_ltb_leb_trans x lo hi Elo Hlh)).
      cbn [List.length]. lia.
    + destruct (PrimFloat.leb x hi) eqn:Ehi; [|exact IH]. exfalso.
      rewrite (f64_ltb_not_leb x lo) in Elo.
      * rewrite E in Elo. discriminate.
      * apply (f64_leb_refl_l x hi), Ehi.
      * apply (f64_leb_refl_l lo hi), Hlh.
Qed.

Lemma f64_angle_edges :
  map F64.float_of_int angle_bins
  = [0%float; 10%float; 20%float; 30%float; 40%float; 50%float;
     60%float; 90%float].
Proof. reflexivity. Qed.

Lemma f64_ar_edges :
  map F64.float_of_pynum ar_bins
  = [1%float; 2%float; 5%float; 10%float; 20%float; 50%float;
     100%float; PrimFloat.infinity].
Proof. reflexivity. Qed.

(** The angle histogram, bucket by bucket: [[0,10)], ..., [[50,60)],
    [[60,90]], with the comparisons of binary64. *)
Lemma f64_angle_hist_buckets (a : list PrimFloat.float) :
  F64.angle_hist a
  = [bucket_count 0%float 10%float false a;
     bucket_count 10%float 20%float false a;
     bucket_count 20%float 30%float false a;
     bucket_count 30%float 40%float false a;
     bucket_count 40%float 50%float false a;
     bucket_count 50%float 60%float false a;
     bucket_count 60%float 90%float true a].
Proof.
  unfold F64.angle_hist. rewrite f64_angle_edges.
  unfold np_histogram, search_sorted_inclusive.
  cbn [map removelast last_slice last app np_diff].
  rewrite (f64_right_split a 60 90), (f64_left_split a 50 60),
    (f64_left_split a 40 50), (f64_left_split a 30 40),
    (f64_left_split a 20 30), (f64_left_split a 10 20),
    (f64_left_split a 0 10) by reflexivity.
  repeat (f_equal; try lia).
Qed.

(** The aspect-ratio histogram, bucket by bucket: [[1,2)], ...,
    [[50,100)], [[100,inf]]. *)
Lemma f64_ar_hist_buckets (a : list PrimFloat.float) :
  F64.ar_hist a
  = [bucket_count 1%float 2%float false a;
     bucket_count 2%float 5%float false a;
     bucket_count 5%float 10%float false a;
     bucket_count 10%float 20%float false a;
     bucket_count 20%float 50%float false a;
     bucket_count 50%float 100%float false a;
     bucket_count 100%float PrimFloat.infinity true a].
Proof.
  unfold F64.ar_hist. rewrite f64_ar_edges.
  unfold np_histogram, search_sorted_inclusive.
  cbn [map removelast last_slice last app np_diff].
  rewrite (f64_right_split a 100 PrimFloat.infinity),
    (f64_left_split a 50 100), (f64_left_split a 20 50),
    (f64_left_split a 10 20), (f64_left_split a 5 10),
    (f64_left_split a 2 5), (f64_left_split a 1 2) by reflexivity.
  repeat (f_equal; try lia).
Qed.

Lemma count_filter_ext {A} (p q : A -> bool) (l : list A) :
  (forall x, p x = q x) -> filter p l = filter q l.
Proof.
  intros H. induction l as [|x l IH]; [reflexivity|]. cbn [filter].
  now rewrite H, IH.
Qed.

(** The counts of the angle histogram add up to the number of values
    between 0 and 90. *)
Lemma f64_angle_hist_total (a : list PrimFloat.float) :
  total (F64.angle_hist a)
  = Z.of_nat (List.length (filter F64.angle_counted a)).
Proof.
  transitivity (searchsorted_right a 90%float - searchsorted_left a 0%float)%Z.
  - unfold F64.angle_hist. rewrite f64_angle_edges.
    unfold np_histogram, search_sorted_inclusive.
    cbn [map removelast last_slice last app np_diff total fold_right]. lia.
  - rewrite (f64_right_split a 0 90) by reflexivity.
    unfold bucket_count.
    rewrite (count_filter_ext (in_bucket 0%float 90%float true)
                              F64.angle_counted) by reflexivity.
    lia.
Qed.

Lemma f64_ar_counted (x : PrimFloat.float) :
  in_bucket 1%float PrimFloat.infinity true x = F64.ar_counted x.
Proof.
  unfold in_bucket, F64.ar_counted. cbn [fleb Float_binary64].
  destruct (PrimFloat.leb 1 x) eqn:E; [|reflexivity].
  cbn [andb]. apply f64_leb_infinity. exact (f64_leb_refl_r _ _ E).
Qed.

(** The counts of the aspect-ratio histogram add up to the number of
    values that are at least 1. *)
Lemma f64_ar_hist_total (a : list PrimFloat.float) :
  total (F64.ar_hist a) = Z.of_nat (List.length (filter F64.ar_counted a)).
Proof.
  transitivity (searchsorted_right a PrimFloat.infinity
                - searchsorted_left a 1%float)%Z.
  - unfold F64.ar_hist. rewrite f64_ar_edges.
    unfold np_histogram, search_sorted_inclusive.
    cbn [map removelast last_slice last app np_diff total fold_right]. lia.
  - rewrite (f64_right_split a 1 PrimFloat.infinity) by reflexivity.
    unfold bucket_count.
    rewrite (count_filter_ext _ _ a f64_ar_counted). lia.
Qed.

(** NaN is in no bucket. *)
Lemma f64_nan_in_no_bucket (lo hi : PrimFloat.float) (closed : bool) :
  in_bucket lo hi closed PrimFloat.nan = false.
Proof. unfold in_bucket. cbn [fleb Float_binary64]. now rewrite f64_nan_leb_r. Qed.

Lemma filter_length_all {A} (p : A -> bool) (l : list A) :
  List.length (filter p l) = List.length l <->
  Forall (fun x => p x = true) l.
Proof.
  induction l as [|x l IH]; cbn.
  - split; [constructor|reflexivity].
  - pose proof (filter_length_le p l) as Hle.
    destruct (p x) eqn:E; cbn.
    + split.
      * intros H. constructor; [exact E|]. apply IH. lia.
      * intros H. inversion H; subst. f_equal. now apply IH.
    + split; [lia|]. intros H. inversion H; subst. congruence.
Qed.

Lemma f64_angle_distribution_items (a : list PrimFloat.float) :
  distribution_items angle_label angle_bins (F64.angle_hist a)
  = Ok (combine angle_labels (F64.angle_hist a)).
Proof. rewrite f64_angle_hist_buckets. reflexivity. Qed.

Lemma f64_ar_distribution_items (a : list PrimFloat.float) :
  distribution_items ar_label ar_bins (F64.ar_hist a)
  = Ok (combine ar_labels (F64.ar_hist a)).
Proof. rewrite f64_ar_hist_buckets. reflexivity. Qed.

(* ================================================================= *)
(** ** The loop in binary64 *)

Lemma f64_corners_of_ok (points : list F64.vec3) (tri : triangle) :
  triangle_ok (List.length points) tri = true ->
  exists v, F64.corners_of points tri = Ok v.
Proof.
  destruct tri as [[i0 i1] i2]. unfold triangle_ok, F64.corners_of. intros H.
  apply andb_prop in H as [H H2]. apply andb_prop in H as [H0 H1].
  destruct (py_index_ok points i0 H0) as [p0 ->].
  destruct (py_index_ok points i1 H1) as [p1 ->].
  destruct (py_index_ok points i2 H2) as [p2 ->].
  cbn. eauto.
Qed.

Lemma f64_triangle_metrics_eq (lm : F64.libm) (p0 p1 p2 : F64.vec3) :
  F64.triangle_metrics lm p0 p1 p2
  = (F64.area_of (p0, p1, p2),
     if F64.positive_edges (p0, p1, p2)
     then Some (F64.min_angle_deg_of lm (p0, p1, p2),
                F64.aspect_of (p0, p1, p2))
     else None).
Proof.
  unfold F64.triangle_metrics, F64.positive_edges, F64.area_of,
    F64.min_angle_deg_of, F64.aspect_of; cbv zeta.
  destruct (PrimFloat.ltb 0 (F64.norm (F64.vsub p1 p0))
            && PrimFloat.ltb 0 (F64.norm (F64.vsub p2 p1))
            && PrimFloat.ltb 0 (F64.norm (F64.vsub p0 p2)))%bool;
    reflexivity.
Qed.

Lemma f64_metrics_step_eq (lm : F64.libm) (points : list F64.vec3)
      (acc : F64.metric_lists) (tri : triangle) :
  F64.metrics_step lm points acc tri
  = rbind (F64.corners_of points tri) (fun v => Ok (F64.push lm acc v)).
Proof.
  destruct tri as [[i0 i1] i2]. unfold F64.metrics_step, F64.corners_of.
  destruct (py_index points i0) as [p0|]; [|reflexivity].
  destruct (py_index points i1) as [p1|]; [|reflexivity].
  destruct (py_index points i2) as [p2|]; [|reflexivity].
  cbn [rbind]. rewrite f64_triangle_metrics_eq. unfold F64.push.
  destruct (F64.positive_edges (p0, p1, p2)); rewrite ?app_nil_r; reflexivity.
Qed.

Lemma f64_fold_push (lm : F64.libm) (vs : list F64.corners)
      (acc : F64.metric_lists) :
  fold_left (F64.push lm) vs acc
  = {| F64.min_angles :=
         F64.min_angles acc
         ++ map (F64.min_angle_deg_of lm) (filter F64.positive_edges vs);
       F64.aspect_ratios :=
         F64.aspect_ratios acc
         ++ map F64.aspect_of (filter F64.positive_edges vs);
       F64.areas := F64.areas acc ++ map F64.area_of vs |}.
Proof.
  revert acc; induction vs as [|v vs IH]; intros acc;
    cbn [fold_left filter map].
  - rewrite !app_nil_r. now destruct acc.
  - rewrite IH. unfold F64.push at 1 2 3.
    cbn [F64.min_angles F64.aspect_ratios F64.areas].
    destruct (F64.positive_edges v); cbn [map];
      rewrite <- ?app_assoc, ?app_nil_r; reflexivity.
Qed.

Lemma f64_corners_all_ok (points : list F64.vec3) (triangles : list triangle) :
  F64.well_indexed points triangles = true ->
  exists vs, F64.corners_all points triangles = Ok vs /\
             List.length vs = List.length triangles.
Proof.
  unfold F64.well_indexed.
  induction triangles as [|tri rest IH]; cbn [forallb].
  - intros _. exists []. split; reflexivity.
  - intros H. apply andb_prop in H as [Ht Hr].
    destruct (f64_corners_of_ok points tri Ht) as [v Hv].
    destruct (IH Hr) as [vs [Hvs Hlen]].
    exists (v :: vs). cbn [F64.corners_all]. rewrite Hv, Hvs. cbn.
    split; [reflexivity | now rewrite Hlen].
Qed.

Lemma f64_metrics_loop_ok (lm : F64.libm) (points : list F64.vec3)
      (triangles : list triangle) (vs : list F64.corners)
      (acc : F64.metric_lists) :
  F64.corners_all points triangles = Ok vs ->
  F64.metrics_loop lm points triangles acc
  = Ok (fold_left (F64.push lm) vs acc).
Proof.
  revert vs acc. induction triangles as [|tri rest IH]; intros vs acc;
    cbn [F64.corners_all F64.metrics_loop].
  - intros H; injection H as <-. reflexivity.
  - rewrite f64_metrics_step_eq.
    destruct (F64.corners_of points tri) as [v|]; [|discriminate].
    cbn [rbind].
    destruct (F64.corners_all points rest) as [vs'|] eqn:E; [|discriminate].
    cbn [rbind]. intros H; injection H as <-. cbn [fold_left].
    now apply IH.
Qed.

(** On a mesh of valid indices the loop returns, whatever the C library
    gives: the three sequences are the per-triangle values in triangle
    order, the angle and aspect-ratio sequences restricted to the triangles
    that pass the guard. *)
Lemma f64_collect_metrics_ok (lm : F64.libm) (points : list F64.vec3)
      (triangles : list triangle) :
  F64.well_indexed points triangles = true ->
  exists vs,
    F64.corners_all points triangles = Ok vs /\
    List.length vs = List.length triangles /\
    F64.collect_metrics lm points triangles
    = Ok {| F64.min_angles :=
              map (F64.min_angle_deg_of lm) (filter F64.positive_edges vs);
            F64.aspect_ratios :=
              map F64.aspect_of (filter F64.positive_edges vs);
            F64.areas := map F64.area_of vs |}.
Proof.
  intros H. destruct (f64_corners_all_ok points triangles H) as [vs [Hvs Hlen]].
  exists vs. split; [exact Hvs|]. split; [exact Hlen|].
  unfold F64.collect_metrics. rewrite (f64_metrics_loop_ok _ _ _ vs _ Hvs).
  rewrite f64_fold_push. reflexivity.
Qed.

(** A float that equals 0 is one of the two zeros. *)
Lemma f64_eqb_zero (x : PrimFloat.float) :
  PrimFloat.eqb x 0%float = true ->
  x = PrimFloat.zero \/ x = PrimFloat.neg_zero.
Proof.
  rewrite FloatAxioms.eqb_spec. unfold SpecFloat.SFeqb.
  change (FloatOps.Prim2SF 0%float) with (SpecFloat.S754_zero false).
  intros H. rewrite <- (FloatAxioms.SF2Prim_Prim2SF x).
  destruct (FloatOps.Prim2SF x) as [[]|[]| |[] mx ex]; cbn in H;
    try discriminate; [right|left]; reflexivity.
Qed.

(** The zero vector has length 0, so it fails the comparison of line 97. *)
Lemma f64_zero_vector_norm (e : F64.vec3) :
  F64.zero_vector e = true -> PrimFloat.ltb 0 (F64.norm e) = false.
Proof.
  destruct e as [[x y] z]. unfold F64.zero_vector, F64.norm, F64.c0, F64.c1,
    F64.c2. cbn [fst snd]. intros H.
  apply andb_prop in H as [H Hz]. apply andb_prop in H as [Hx Hy].
  destruct (f64_eqb_zero x Hx) as [-> | ->],
           (f64_eqb_zero y Hy) as [-> | ->],
           (f64_eqb_zero z Hz) as [-> | ->]; reflexivity.
Qed.

Lemma f64_zero_edge_excluded (v : F64.corners) :
  F64.has_zero_edge v = true -> F64.positive_edges v = false.
Proof.
  destruct v as [[p0 p1] p2]. unfold F64.has_zero_edge, F64.positive_edges.
  intros H. apply orb_prop in H as [H|H]; [apply orb_prop in H as [H|H]|];
    rewrite (f64_zero_vector_norm _ H); rewrite ?andb_false_r; reflexivity.
Qed.
(* ================================================================= *)
(** ** Histogram sums and sequence lengths in binary64 *)

Section Binary64Claims.
Local Open Scope float_scope.

Lemma f64_filter_le {A} (p : A -> bool) (l : list A) :
  (Z.of_nat (List.length (filter p l)) <= Z.of_nat (List.length l))%Z.
Proof. apply inj_le, filter_length_le. Qed.

Lemma f64_filter_all {A} (p : A -> bool) (l : list A) :
  Z.of_nat (List.length (filter p l)) = Z.of_nat (List.length l) <->
  Forall (fun x => p x = true) l.
Proof. rewrite <- filter_length_all. split; [apply Nat2Z.inj|congruence]. Qed.

(** The triangle of [huge_points], whatever the C library gives on
    numbers: the only things used are that the square of infinity is
    infinity and that NaN goes through [np.arccos] and [np.degrees].  The
    three edge lengths are infinite, the three cosines are
    [(inf + inf - inf) / inf], NaN; the minimum angle is NaN, and the angle
    histogram counts it nowhere. *)
Lemma huge_triangle_angle_is_nan (lm : F64.libm) :
  F64.pow2 lm PrimFloat.infinity = PrimFloat.infinity ->
  F64.np_arccos lm PrimFloat.nan = PrimFloat.nan ->
  F64.np_degrees lm PrimFloat.nan = PrimFloat.nan ->
  F64.collect_metrics lm F64.huge_points F64.one_triangle
  = Ok {| F64.min_angles := [PrimFloat.nan];
          F64.aspect_ratios := [PrimFloat.infinity];
          F64.areas := [PrimFloat.infinity] |}.
Proof.
  intros Hsq Hacos Hdeg.
  set (v := ((0, 0, 0), (1e200, 0, 0), (0, 1e200, 0)) : F64.corners).
  unfold F64.collect_metrics.
  rewrite (f64_metrics_loop_ok lm F64.huge_points F64.one_triangle [v] _
                               eq_refl).
  cbn [fold_left]. unfold F64.push.
  change (F64.positive_edges v) with true.
  change (F64.aspect_of v) with infinity.
  change (F64.area_of v) with infinity.
  change (F64.min_angle_deg_of lm v)
    with (F64.min_angle_of lm infinity infinity infinity).
  unfold F64.min_angle_of. rewrite Hsq.
  change (F64.clip ((infinity + infinity - infinity)
                    / (2 * infinity * infinity)) (-1) 1) with nan.
  rewrite Hacos.
  change (F64.min3 nan nan nan) with nan.
  rewrite Hdeg. reflexivity.
Qed.

(** The triangle of [tiny_points], whatever the C library gives: the
    squares of the coordinates underflow, the three edge lengths come out
    as 0, and the guard of line 97 drops the triangle, although none of its
    edge vectors is zero. *)
Lemma tiny_triangle_is_dropped (lm : F64.libm) :
  F64.collect_metrics lm F64.tiny_points F64.one_triangle
  = Ok {| F64.min_angles := []; F64.aspect_ratios := [];
          F64.areas := [0] |}.
Proof.
  set (v := ((0, 0, 0), (1e-200, 0, 0), (0, 1e-200, 0)) : F64.corners).
  unfold F64.collect_metrics.
  rewrite (f64_metrics_loop_ok lm F64.tiny_points F64.one_triangle [v] _
                               eq_refl).
  reflexivity.
Qed.

Lemma filter_length_mono {A} (p q : A -> bool) (l : list A) :
  (forall x, p x = true -> q x = true) ->
  (List.length (filter p l) <= List.length (filter q l))%nat.
Proof.
  intros H. induction l as [|x l IH]; [reflexivity|]. cbn [filter].
  destruct (p x) eqn:E.
  - rewrite (H x E). cbn [List.length]. lia.
  - destruct (q x); cbn [List.length]; lia.
Qed.

Lemma f64_distributions_ok (lm : F64.libm) (points : list F64.vec3)
      (triangles : list triangle) (m : F64.metric_lists) :
  F64.collect_metrics lm points triangles = Ok m ->
  F64.distributions lm points triangles
  = Ok (combine angle_labels (F64.angle_hist (F64.min_angles m)),
        combine ar_labels (F64.ar_hist (F64.aspect_ratios m))).
Proof.
  intros H. unfold F64.distributions. rewrite H. cbn [rbind].
  now rewrite f64_angle_distribution_items, f64_ar_distribution_items.
Qed.

(** C3 (amended).  On a mesh of valid indices, whatever the C library
    returns, the report's two distributions hold the counts of
    [np.histogram] over the fixed edges, and each count is the number of
    values in its bucket (closed on the left, open on the right, the last
    bucket closed at 90 for angles and reaching infinity for aspect
    ratios), by the comparisons of binary64.  The counts add up to the
    number of values between the outer edges: the angles from 0 to 90, the
    aspect ratios of at least 1.  NaN is such a value in neither sequence.
    So the sum is at most the length of the sequence, it is the length
    exactly when every value lies between the outer edges, and it is 0 for
    a mesh without triangles. *)
Theorem C3_histogram_counts_sum_to_values_in_range
        (lm : F64.libm) (points : list F64.vec3) (triangles : list triangle) :
  F64.well_indexed points triangles = true ->
  exists m ang_dist ar_dist,
    F64.collect_metrics lm points triangles = Ok m /\
    F64.distributions lm points triangles = Ok (ang_dist, ar_dist) /\
    map snd ang_dist = F64.angle_hist (F64.min_angles m) /\
    map snd ar_dist = F64.ar_hist (F64.aspect_ratios m) /\
    F64.angle_hist (F64.min_angles m)
    = [bucket_count 0 10 false (F64.min_angles m);
       bucket_count 10 20 false (F64.min_angles m);
       bucket_count 20 30 false (F64.min_angles m);
       bucket_count 30 40 false (F64.min_angles m);
       bucket_count 40 50 false (F64.min_angles m);
       bucket_count 50 60 false (F64.min_angles m);
       bucket_count 60 90 true (F64.min_angles m)] /\
    F64.ar_hist (F64.aspect_ratios m)
    = [bucket_count 1 2 false (F64.aspect_ratios m);
       bucket_count 2 5 false (F64.aspect_ratios m);
       bucket_count 5 10 false (F64.aspect_ratios m);
       bucket_count 10 20 false (F64.aspect_ratios m);
       bucket_count 20 50 false (F64.aspect_ratios m);
       bucket_count 50 100 false (F64.aspect_ratios m);
       bucket_count 100 infinity true (F64.aspect_ratios m)] /\
    (forall lo hi closed, in_bucket lo hi closed nan = false) /\
    total (F64.angle_hist (F64.min_angles m))
    = Z.of_nat (List.length (filter F64.angle_counted (F64.min_angles m))) /\
    total (F64.ar_hist (F64.aspect_ratios m))
    = Z.of_nat (List.length (filter F64.ar_counted (F64.aspect_ratios m))) /\
    (total (F64.angle_hist (F64.min_angles m))
     <= Z.of_nat (List.length (F64.min_angles m)))%Z /\
    (total (F64.ar_hist (F64.aspect_ratios m))
     <= Z.of_nat (List.length (F64.aspect_ratios m)))%Z /\
    (total (F64.angle_hist (F64.min_angles m))
     = Z.of_nat (List.length (F64.min_angles m))
     <-> Forall (fun x => F64.angle_counted x = true) (F64.min_angles m)) /\
    (total (F64.ar_hist (F64.aspect_ratios m))
     = Z.of_nat (List.length (F64.aspect_ratios m))
     <-> Forall (fun x => F64.ar_counted x = true) (F64.aspect_ratios m)) /\
    (triangles = [] ->
     total (F64.angle_hist (F64.min_angles m)) = 0%Z /\
     total (F64.ar_hist (F64.aspect_ratios m)) = 0%Z).
Proof.
  intros H.
  destruct (f64_collect_metrics_ok lm points triangles H)
    as [vs [Hvs [Hl Hc]]].
  eexists _, _, _. split; [exact Hc|].
  split; [exact (f64_distributions_ok lm points triangles _ Hc)|].
  set (m := {| F64.min_angles := _; F64.aspect_ratios := _;
               F64.areas := _ |}) in *.
  split; [apply map_snd_combine; rewrite f64_angle_hist_buckets; reflexivity|].
  split; [apply map_snd_combine; rewrite f64_ar_hist_buckets; reflexivity|].
  split; [apply f64_angle_hist_buckets|].
  split; [apply f64_ar_hist_buckets|].
  split; [exact f64_nan_in_no_bucket|].
  rewrite f64_angle_hist_total, f64_ar_hist_total.
  split; [reflexivity|]. split; [reflexivity|].
  split; [apply f64_filter_le|]. split; [apply f64_filter_le|].
  split; [apply f64_filter_all|]. split; [apply f64_filter_all|].
  intros ->. destruct vs; [|discriminate]. split; reflexivity.
Qed.

(** The mesh [mixed_triangles]: the 3-4-5 triangle (minimum angle 36.87,
    aspect ratio 2.08), the huge triangle (NaN, infinity), the tiny
    triangle and the triangle with a zero-length edge (both dropped). *)
Example mixed_mesh_sequences :
  F64.collect_metrics F64.sim_libm F64.mixed_points F64.mixed_triangles
  = Ok {| F64.min_angles := [36.86989764584401; nan];
          F64.aspect_ratios := [2.0833333333333335; infinity];
          F64.areas := [6; infinity; 0; 0] |}.
Proof. reflexivity. Qed.

Example mixed_mesh_distributions :
  F64.distributions F64.sim_libm F64.mixed_points F64.mixed_triangles
  = Ok ([("0-10°", 0); ("10-20°", 0); ("20-30°", 0); ("30-40°", 1);
         ("40-50°", 0); ("50-60°", 0); ("60-90°", 0)]%string%Z,
        [("1-2", 0); ("2-5", 1); ("5-10", 0); ("10-20", 0); ("20-50", 0);
         ("50-100", 0); ("100-inf", 1)]%string%Z).
Proof. vm_compute. reflexivity. Qed.

Lemma C3_witness :
  exists m ang_dist ar_dist,
    F64.collect_metrics F64.sim_libm F64.mixed_points F64.mixed_triangles
    = Ok m /\
    F64.distributions F64.sim_libm F64.mixed_points F64.mixed_triangles
    = Ok (ang_dist, ar_dist) /\
    map snd ang_dist = F64.angle_hist (F64.min_angles m) /\
    map snd ar_dist = F64.ar_hist (F64.aspect_ratios m) /\
    F64.angle_hist (F64.min_angles m)
    = [bucket_count 0 10 false (F64.min_angles m);
       bucket_count 10 20 false (F64.min_angles m);
       bucket_count 20 30 false (F64.min_angles m);
       bucket_count 30 40 false (F64.min_angles m);
       bucket_count 40 50 false (F64.min_angles m);
       bucket_count 50 60 false (F64.min_angles m);
       bucket_count 60 90 true (F64.min_angles m)] /\
    F64.ar_hist (F64.aspect_ratios m)
    = [bucket_count 1 2 false (F64.aspect_ratios m);
       bucket_count 2 5 false (F64.aspect_ratios m);
       bucket_count 5 10 false (F64.aspect_ratios m);
       bucket_count 10 20 false (F64.aspect_ratios m);
       bucket_count 20 50 false (F64.aspect_ratios m);
       bucket_count 50 100 false (F64.aspect_ratios m);
       bucket_count 100 infinity true (F64.aspect_ratios m)] /\
    (forall lo hi closed, in_bucket lo hi closed nan = false) /\
    total (F64.angle_hist (F64.min_angles m))
    = Z.of_nat (List.length (filter F64.angle_counted (F64.min_angles m))) /\
    total (F64.ar_hist (F64.aspect_ratios m))
    = Z.of_nat (List.length (filter F64.ar_counted (F64.aspect_ratios m))) /\
    (total (F64.angle_hist (F64.min_angles m))
     <= Z.of_nat (List.length (F64.min_angles m)))%Z /\
    (total (F64.ar_hist (F64.aspect_ratios m))
     <= Z.of_nat (List.length (F64.aspect_ratios m)))%Z /\
    (total (F64.angle_hist (F64.min_angles m))
     = Z.of_nat (List.length (F64.min_angles m))
     <-> Forall (fun x => F64.angle_counted x = true) (F64.min_angles m)) /\
    (total (F64.ar_hist (F64.aspect_ratios m))
     = Z.of_nat (List.length (F64.aspect_ratios m))
     <-> Forall (fun x => F64.ar_counted x = true) (F64.aspect_ratios m)) /\
    (F64.mixed_triangles = [] ->
     total (F64.angle_hist (F64.min_angles m)) = 0%Z /\
     total (F64.ar_hist (F64.aspect_ratios m)) = 0%Z).
Proof.
  apply (C3_histogram_counts_sum_to_values_in_range
           F64.sim_libm F64.mixed_points F64.mixed_triangles).
  reflexivity.
Defined.

(** C3, as stated, fails in binary64.  The mesh [huge_points] has valid
    indices and one triangle; its angle sequence has one value, NaN; every
    count of the angle histogram is 0. *)
Lemma C3_counterexample :
  F64.well_indexed F64.huge_points F64.one_triangle = true /\
  exists m,
    F64.collect_metrics F64.sim_libm F64.huge_points F64.one_triangle = Ok m /\
    F64.min_angles m = [nan] /\
    F64.angle_hist (F64.min_angles m) = [0; 0; 0; 0; 0; 0; 0]%Z /\
    Z.of_nat (List.length (F64.min_angles m)) = 1%Z /\
    total (F64.angle_hist (F64.min_angles m)) = 0%Z /\
    total (F64.angle_hist (F64.min_angles m))
    <> Z.of_nat (List.length (F64.min_angles m)).
Proof.
  split; [reflexivity|]. eexists. split.
  - apply (huge_triangle_angle_is_nan F64.sim_libm); reflexivity.
  - cbn [F64.min_angles]. split; [reflexivity|].
    split; [vm_compute; reflexivity|]. split; [reflexivity|].
    split; [vm_compute; reflexivity|]. vm_compute. discriminate.
Qed.

(** C10 (amended).  On a mesh of valid indices, whatever the C library
    returns, the angle and aspect-ratio sequences have the same length: the
    number of triangles that pass the guard of line 97, whose three
    computed edge lengths are positive.  A triangle with a zero edge vector
    fails the guard, so that number is at most the number of triangles
    without a zero-length edge.  The counts of the aspect-ratio histogram in
    the report add up to the number of collected ratios that are at least
    1, which is at most the number of triangles that pass the guard. *)
Theorem C10_angle_and_aspect_sequences_same_length
        (lm : F64.libm) (points : list F64.vec3) (triangles : list triangle) :
  F64.well_indexed points triangles = true ->
  exists vs m ang_dist ar_dist,
    F64.corners_all points triangles = Ok vs /\
    F64.collect_metrics lm points triangles = Ok m /\
    F64.distributions lm points triangles = Ok (ang_dist, ar_dist) /\
    F64.min_angles m
    = map (F64.min_angle_deg_of lm) (filter F64.positive_edges vs) /\
    F64.aspect_ratios m = map F64.aspect_of (filter F64.positive_edges vs) /\
    (forall v, F64.has_zero_edge v = true -> F64.positive_edges v = false) /\
    List.length (F64.min_angles m) = List.length (F64.aspect_ratios m) /\
    List.length (F64.aspect_ratios m)
    = List.length (filter F64.positive_edges vs) /\
    (List.length (filter F64.positive_edges vs)
     <= List.length (filter (fun v => negb (F64.has_zero_edge v)) vs))%nat /\
    (List.length (filter (fun v => negb (F64.has_zero_edge v)) vs)
     <= List.length triangles)%nat /\
    total (map snd ar_dist)
    = Z.of_nat (List.length (filter F64.ar_counted (F64.aspect_ratios m))) /\
    (total (map snd ar_dist)
     <= Z.of_nat (List.length (filter F64.positive_edges vs)))%Z.
Proof.
  intros H.
  destruct (f64_collect_metrics_ok lm points triangles H)
    as [vs [Hvs [Hl Hc]]].
  eexists vs, _, _, _. split; [exact Hvs|]. split; [exact Hc|].
  split; [exact (f64_distributions_ok lm points triangles _ Hc)|].
  cbn [F64.min_angles F64.aspect_ratios].
  split; [reflexivity|]. split; [reflexivity|].
  split; [exact f64_zero_edge_excluded|].
  rewrite !length_map. split; [reflexivity|]. split; [reflexivity|].
  split.
  { apply filter_length_mono. intros v Hp.
    destruct (F64.has_zero_edge v) eqn:E; [|reflexivity].
    rewrite (f64_zero_edge_excluded v E) in Hp. discriminate. }
  split; [rewrite <- Hl; apply filter_length_le|].
  rewrite map_snd_combine by (rewrite f64_ar_hist_buckets; reflexivity).
  rewrite f64_ar_hist_total. split; [reflexivity|].
  rewrite <- (length_map F64.aspect_of (filter F64.positive_edges vs)).
  apply f64_filter_le.
Qed.

Lemma C10_witness :
  exists vs m ang_dist ar_dist,
    F64.corners_all F64.mixed_points F64.mixed_triangles = Ok vs /\
    F64.collect_metrics F64.sim_libm F64.mixed_points F64.mixed_triangles
    = Ok m /\
    F64.distributions F64.sim_libm F64.mixed_points F64.mixed_triangles
    = Ok (ang_dist, ar_dist) /\
    F64.min_angles m
    = map (F64.min_angle_deg_of F64.sim_libm)
          (filter F64.positive_edges vs) /\
    F64.aspect_ratios m = map F64.aspect_of (filter F64.positive_edges vs) /\
    (forall v, F64.has_zero_edge v = true -> F64.positive_edges v = false) /\
    List.length (F64.min_angles m) = List.length (F64.aspect_ratios m) /\
    List.length (F64.aspect_ratios m)
    = List.length (filter F64.positive_edges vs) /\
    (List.length (filter F64.positive_edges vs)
     <= List.length (filter (fun v => negb (F64.has_zero_edge v)) vs))%nat /\
    (List.length (filter (fun v => negb (F64.has_zero_edge v)) vs)
     <= List.length F64.mixed_triangles)%nat /\
    total (map snd ar_dist)
    = Z.of_nat (List.length (filter F64.ar_counted (F64.aspect_ratios m))) /\
    (total (map snd ar_dist)
     <= Z.of_nat (List.length (filter F64.positive_edges vs)))%Z.
Proof.
  apply (C10_angle_and_aspect_sequences_same_length
           F64.sim_libm F64.mixed_points F64.mixed_triangles).
  reflexivity.
Defined.

(** C10, as stated, fails in binary64.  The one triangle of [tiny_points]
    has no zero-length edge: its three edge vectors are not zero.  Yet it
    is in neither sequence, and the counts of the aspect-ratio histogram
    add up to 0, not to the number of triangles without a zero-length
    edge, which is 1. *)
Lemma C10_counterexample :
  exists vs m,
    F64.corners_all F64.tiny_points F64.one_triangle = Ok vs /\
    F64.collect_metrics F64.sim_libm F64.tiny_points F64.one_triangle = Ok m /\
    List.length (filter (fun v => negb (F64.has_zero_edge v)) vs) = 1%nat /\
    F64.min_angles m = [] /\
    F64.aspect_ratios m = [] /\
    total (F64.ar_hist (F64.aspect_ratios m)) = 0%Z /\
    total (F64.ar_hist (F64.aspect_ratios m))
    <> Z.of_nat (List.length (filter (fun v => negb (F64.has_zero_edge v))
                                     vs)).
Proof.
  eexists _, _. split; [reflexivity|].
  split; [apply tiny_triangle_is_dropped|].
  cbn [F64.min_angles F64.aspect_ratios].
  split; [reflexivity|]. split; [reflexivity|]. split; [reflexivity|].
  split; [reflexivity|]. vm_compute. discriminate.
Qed.
End Binary64Claims.
(* ================================================================= *)
(** ** NaN coordinates and overflowing triangles *)

Section Binary64Extra.
Local Open Scope float_scope.

Lemma f64_is_nan (x : float) : is_nan x = true -> x = nan.
Proof.
  unfold is_nan. rewrite FloatAxioms.eqb_spec. unfold SpecFloat.SFeqb.
  intros H. apply FloatAxioms.Prim2SF_inj.
  change (FloatOps.Prim2SF nan) with SpecFloat.S754_nan.
  destruct (FloatOps.Prim2SF x) as [[]|[]| |[] mx ex] eqn:E;
    try reflexivity; exfalso;
    rewrite SFcompare_refl in H by discriminate; discriminate.
Qed.

Lemma f64_of_spec (x : float) (s : SpecFloat.spec_float) :
  FloatOps.Prim2SF x = s -> x = FloatOps.SF2Prim s.
Proof. intros <-. symmetry. apply FloatAxioms.SF2Prim_Prim2SF. Qed.

Lemma f64_nan_sub_l (y : float) : nan - y = nan.
Proof.
  apply (f64_of_spec _ SpecFloat.S754_nan). rewrite FloatAxioms.sub_spec.
  reflexivity.
Qed.

Lemma f64_nan_sub_r (x : float) : x - nan = nan.
Proof.
  apply (f64_of_spec _ SpecFloat.S754_nan). rewrite FloatAxioms.sub_spec.
  change (FloatOps.Prim2SF nan) with SpecFloat.S754_nan.
  destruct (FloatOps.Prim2SF x) as [[]|[]| |[] mx ex]; reflexivity.
Qed.

Lemma f64_nan_add_l (y : float) : nan + y = nan.
Proof.
  apply (f64_of_spec _ SpecFloat.S754_nan). rewrite FloatAxioms.add_spec.
  reflexivity.
Qed.

Lemma f64_nan_add_r (x : float) : x + nan = nan.
Proof.
  apply (f64_of_spec _ SpecFloat.S754_nan). rewrite FloatAxioms.add_spec.
  change (FloatOps.Prim2SF nan) with SpecFloat.S754_nan.
  destruct (FloatOps.Prim2SF x) as [[]|[]| |[] mx ex]; reflexivity.
Qed.

(** A vector with a NaN component has length NaN, which is not greater
    than 0. *)
Lemma f64_nan_vector_norm (e : F64.vec3) :
  F64.nan_vertex e = true -> (0 <? F64.norm e) = false.
Proof.
  destruct e as [[x y] z]. unfold F64.nan_vertex, F64.norm, F64.c0, F64.c1,
    F64.c2. cbn [fst snd]. intros H.
  apply orb_prop in H as [H|H]; [apply orb_prop in H as [H|H]|];
    apply f64_is_nan in H; subst;
    change (nan * nan) with nan;
    rewrite ?f64_nan_add_r, ?f64_nan_add_l; reflexivity.
Qed.

Lemma f64_nan_vsub_l (p q : F64.vec3) :
  F64.nan_vertex p = true -> F64.nan_vertex (F64.vsub p q) = true.
Proof.
  destruct p as [[x y] z], q as [[x' y'] z'].
  unfold F64.nan_vertex, F64.vsub, F64.c0, F64.c1, F64.c2. cbn [fst snd].
  intros H.
  apply orb_prop in H as [H|H]; [apply orb_prop in H as [H|H]|];
    apply f64_is_nan in H; subst; rewrite f64_nan_sub_l;
    rewrite ?orb_true_r; reflexivity.
Qed.

Lemma f64_nan_vsub_r (p q : F64.vec3) :
  F64.nan_vertex q = true -> F64.nan_vertex (F64.vsub p q) = true.
Proof.
  destruct p as [[x y] z], q as [[x' y'] z'].
  unfold F64.nan_vertex, F64.vsub, F64.c0, F64.c1, F64.c2. cbn [fst snd].
  intros H.
  apply orb_prop in H as [H|H]; [apply orb_prop in H as [H|H]|];
    apply f64_is_nan in H; subst; rewrite f64_nan_sub_r;
    rewrite ?orb_true_r; reflexivity.
Qed.

Lemma f64_nan_excluded (v : F64.corners) :
  F64.has_nan v = true -> F64.positive_edges v = false.
Proof.
  destruct v as [[p0 p1] p2]. unfold F64.has_nan, F64.positive_edges.
  intros H. apply orb_prop in H as [H|H]; [apply orb_prop in H as [H|H]|].
  - rewrite (f64_nan_vector_norm _ (f64_nan_vsub_r p1 p0 H)). reflexivity.
  - rewrite (f64_nan_vector_norm _ (f64_nan_vsub_l p1 p0 H)). reflexivity.
  - rewrite (f64_nan_vector_norm _ (f64_nan_vsub_l p2 p1 H)).
    rewrite andb_false_r. reflexivity.
Qed.

(** X18. A NaN coordinate raises nothing.  On a mesh of valid indices the
    loop returns, whatever the C library gives; a triangle with a NaN
    coordinate in one of its vertices fails the guard of line 97, so it
    adds nothing to the angle and aspect-ratio sequences, while its area is
    still appended: the two sequences are at most as long as the number of
    triangles without a NaN coordinate, and the area sequence is as long
    as the triangle list. *)
Theorem X18_nan_coordinate_drops_triangle
        (lm : F64.libm) (points : list F64.vec3) (triangles : list triangle) :
  F64.well_indexed points triangles = true ->
  exists vs m,
    F64.corners_all points triangles = Ok vs /\
    F64.collect_metrics lm points triangles = Ok m /\
    (forall v, F64.has_nan v = true -> F64.positive_edges v = false) /\
    (forall acc v, F64.has_nan v = true ->
       F64.min_angles (F64.push lm acc v) = F64.min_angles acc /\
       F64.aspect_ratios (F64.push lm acc v) = F64.aspect_ratios acc /\
       F64.areas (F64.push lm acc v) = F64.areas acc ++ [F64.area_of v]) /\
    List.length (F64.min_angles m) = List.length (F64.aspect_ratios m) /\
    (List.length (F64.min_angles m)
     <= List.length (filter (fun v => negb (F64.has_nan v)) vs))%nat /\
    List.length (F64.areas m) = List.length triangles.
Proof.
  intros H.
  destruct (f64_collect_metrics_ok lm points triangles H)
    as [vs [Hvs [Hl Hc]]].
  eexists vs, _. split; [exact Hvs|]. split; [exact Hc|].
  split; [exact f64_nan_excluded|]. split.
  { intros acc v Hv. unfold F64.push.
    rewrite (f64_nan_excluded v Hv).
    cbn [F64.min_angles F64.aspect_ratios F64.areas].
    rewrite !app_nil_r. repeat split; reflexivity. }
  cbn [F64.min_angles F64.aspect_ratios F64.areas]. rewrite !length_map.
  split; [reflexivity|]. split; [|exact Hl].
  apply filter_length_mono. intros v Hp.
  destruct (F64.has_nan v) eqn:E; [|reflexivity].
  rewrite (f64_nan_excluded v E) in Hp. discriminate.
Qed.

(** The 3-4-5 triangle with one NaN coordinate: no angle, no aspect ratio,
    one area. *)
Lemma X18_witness :
  exists vs m,
    F64.corners_all F64.nan_points F64.one_triangle = Ok vs /\
    F64.collect_metrics F64.sim_libm F64.nan_points F64.one_triangle = Ok m /\
    (forall v, F64.has_nan v = true -> F64.positive_edges v = false) /\
    (forall acc v, F64.has_nan v = true ->
       F64.min_angles (F64.push F64.sim_libm acc v) = F64.min_angles acc /\
       F64.aspect_ratios (F64.push F64.sim_libm acc v)
       = F64.aspect_ratios acc /\
       F64.areas (F64.push F64.sim_libm acc v)
       = F64.areas acc ++ [F64.area_of v]) /\
    List.length (F64.min_angles m) = List.length (F64.aspect_ratios m) /\
    (List.length (F64.min_angles m)
     <= List.length (filter (fun v => negb (F64.has_nan v)) vs))%nat /\
    List.length (F64.areas m) = List.length F64.one_triangle.
Proof.
  apply (X18_nan_coordinate_drops_triangle
           F64.sim_libm F64.nan_points F64.one_triangle).
  reflexivity.
Defined.

Lemma f64_eqb_infinity (x : float) : (x =? infinity) = true -> x = infinity.
Proof.
  rewrite FloatAxioms.eqb_spec. unfold SpecFloat.SFeqb.
  change (FloatOps.Prim2SF infinity) with (SpecFloat.S754_infinity false).
  intros H. apply (f64_of_spec x (SpecFloat.S754_infinity false)).
  destruct (FloatOps.Prim2SF x) as [[]|[]| |[] mx ex]; cbn in H;
    try discriminate; reflexivity.
Qed.

(** Whatever is divided by infinity, the quotient is a zero or NaN: it is
    not greater than 0. *)
Lemma f64_div_infinity_not_positive (y : float) :
  (0 <? y / infinity) = false.
Proof.
  rewrite FloatAxioms.ltb_spec, FloatAxioms.div_spec.
  change (FloatOps.Prim2SF infinity) with (SpecFloat.S754_infinity false).
  change (FloatOps.Prim2SF 0) with (SpecFloat.S754_zero false).
  destruct (FloatOps.Prim2SF y) as [[]|[]| |[] mx ex]; reflexivity.
Qed.

(** X19. A triangle whose three computed edge lengths are infinite (the
    squares of its coordinate differences overflow) passes the guard of
    line 97.  Given that the square of infinity is infinity and that NaN
    goes through [np.arccos] and [np.degrees], the loop appends NaN as its
    minimum angle and infinity as its aspect ratio, whatever its area.  The
    angle histogram counts the NaN in no bucket; the aspect-ratio histogram
    counts the infinity in its last bucket. *)
Theorem X19_overflowing_triangle
        (lm : F64.libm) (acc : F64.metric_lists) (v : F64.corners) :
  F64.pow2 lm infinity = infinity ->
  F64.np_arccos lm nan = nan ->
  F64.np_degrees lm nan = nan ->
  F64.infinite_edges v = true ->
  F64.positive_edges v = true /\
  F64.push lm acc v
  = {| F64.min_angles := F64.min_angles acc ++ [nan];
       F64.aspect_ratios := F64.aspect_ratios acc ++ [infinity];
       F64.areas := F64.areas acc ++ [F64.area_of v] |} /\
  F64.angle_hist [nan] = [0; 0; 0; 0; 0; 0; 0]%Z /\
  F64.ar_hist [infinity] = [0; 0; 0; 0; 0; 0; 1]%Z.
Proof.
  intros Hsq Hacos Hdeg Hinf. destruct v as [[p0 p1] p2].
  unfold F64.infinite_edges in Hinf.
  apply andb_prop in Hinf as [Hinf H2]. apply andb_prop in Hinf as [H0 H1].
  apply f64_eqb_infinity in H0, H1, H2.
  assert (Hp : F64.positive_edges (p0, p1, p2) = true).
  { unfold F64.positive_edges. rewrite H0, H1, H2. reflexivity. }
  split; [exact Hp|]. split; [|split; reflexivity].
  unfold F64.push. rewrite Hp. f_equal.
  - f_equal. unfold F64.min_angle_deg_of. rewrite H0, H1, H2.
    unfold F64.min_angle_of. rewrite Hsq.
    change (F64.clip ((infinity + infinity - infinity)
                      / (2 * infinity * infinity)) (-1) 1) with nan.
    rewrite Hacos. change (F64.min3 nan nan nan) with nan.
    rewrite Hdeg. reflexivity.
  - f_equal. unfold F64.aspect_of. rewrite H0, H1, H2.
    unfold F64.aspect_ratio_of.
    change (F64.max3 infinity infinity infinity) with infinity.
    now rewrite f64_div_infinity_not_positive.
Qed.

(** The triangle of [huge_points]. *)
Lemma X19_witness :
  F64.positive_edges ((0, 0, 0), (1e200, 0, 0), (0, 1e200, 0)) = true /\
  F64.push F64.sim_libm
           {| F64.min_angles := []; F64.aspect_ratios := [];
              F64.areas := [] |}
           ((0, 0, 0), (1e200, 0, 0), (0, 1e200, 0))
  = {| F64.min_angles := [] ++ [nan];
       F64.aspect_ratios := [] ++ [infinity];
       F64.areas :=
         [] ++ [F64.area_of ((0, 0, 0), (1e200, 0, 0), (0, 1e200, 0))] |} /\
  F64.angle_hist [nan] = [0; 0; 0; 0; 0; 0; 0]%Z /\
  F64.ar_hist [infinity] = [0; 0; 0; 0; 0; 0; 1]%Z.
Proof.
  apply (X19_overflowing_triangle
           F64.sim_libm
           {| F64.min_angles := []; F64.aspect_ratios := [];
              F64.areas := [] |}
           ((0, 0, 0), (1e200, 0, 0), (0, 1e200, 0))); reflexivity.
Defined.
End Binary64Extra.

(* ================================================================= *)
(** ** The runner *)

Section RunnerFacts.
Context {World Points Triangles Lines : Type}.
Variable ext : externals World.
Variable adapter_module : adapter World Points Triangles Lines.
Variables (outer : polygon) (inner_loops : list polygon)
          (maxh : option R) (quality : string)
          (enforce_constraints : bool).

Local Abbreviation X := (Points * Triangles * Lines)%type.
Local Abbreviation pass :=
  (timed_call ext adapter_module outer inner_loops maxh quality
              enforce_constraints).
Local Abbreviation passes :=
  (timed_calls ext adapter_module outer inner_loops maxh quality
               enforce_constraints).
Local Abbreviation loop :=
  (repeat_loop ext adapter_module outer inner_loops maxh quality
               enforce_constraints).

(** One pass of [repeat_loop] is a timed call followed by the
    comparison. *)
Lemma repeat_loop_step (n : nat) (bt : xreal) (br : option X) (w : World) :
  loop (S n) bt br w
  = match pass w with
    | (Ok (elapsed, result), w') =>
        if xltb (Fin elapsed) bt then loop n (Fin elapsed) (Some result) w'
        else loop n bt br w'
    | (Raise e, w') => (Raise e, w')
    end.
Proof.
  unfold timed_call. cbn [repeat_loop]. unfold bind, ret.
  destruct (perf_counter ext w) as [[start|e] w1]; [|reflexivity].
  destruct (adapter_module outer inner_loops maxh quality enforce_constraints w1)
    as [[result|e] w2]; [|reflexivity].
  destruct (perf_counter ext w2) as [[stop|e] w3]; [|reflexivity].
  destruct (xltb (Fin (stop - start)) bt); reflexivity.
Qed.

Lemma timed_calls_step (n : nat) (w : World) :
  passes (S n) w
  = match pass w with
    | (Ok x, w') =>
        match passes n w' with
        | (Ok xs, w'') => (Ok (x :: xs), w'')
        | (Raise e, w'') => (Raise e, w'')
        end
    | (Raise e, w') => (Raise e, w')
    end.
Proof.
  cbn [timed_calls]. unfold bind at 1.
  destruct (timed_call _ _ _ _ _ _ _ w) as [[x|e] w']; [|reflexivity].
  unfold bind, ret.
  destruct (timed_calls _ _ _ _ _ _ _ n w') as [[xs|e] w'']; reflexivity.
Qed.

(** When every pass returns, the loop ends with the running minimum of
    the measurements, in the world the last pass left. *)
Lemma repeat_loop_ok (n : nat) (bt : xreal) (br : option X)
      (w w' : World) (ms : list (R * X)) :
  passes n w = (Ok ms, w') ->
  loop n bt br w = (Ok (select_best ms bt br), w').
Proof.
  revert bt br w ms. induction n as [|n IH]; intros bt br w ms.
  - cbn. unfold ret. intros H; injection H as <- <-.
    reflexivity.
  - rewrite timed_calls_step, repeat_loop_step.
    destruct (pass w) as [[[elapsed result]|e] w1]; [|discriminate].
    destruct (passes n w1) as [[xs|e] w2] eqn:E; [|discriminate].
    intros H; injection H as <- <-. cbn [select_best].
    destruct (xltb (Fin elapsed) bt); now apply IH.
Qed.

(** When a pass raises, the loop stops there: it raises the same
    exception and leaves the world as the failing pass left it. *)
Lemma repeat_loop_raise (n : nat) (bt : xreal) (br : option X)
      (w w' : World) (e : exn) :
  passes n w = (Raise e, w') -> loop n bt br w = (Raise e, w').
Proof.
  revert bt br w. induction n as [|n IH]; intros bt br w.
  - cbn. unfold ret. discriminate.
  - rewrite timed_calls_step, repeat_loop_step.
    destruct (pass w) as [[[elapsed result]|e1] w1].
    + destruct (passes n w1) as [[xs|e2] w2] eqn:E; [discriminate|].
      intros H; injection H as <- <-.
      destruct (xltb (Fin elapsed) bt); now apply IH.
    + intros H; injection H as <- <-. reflexivity.
Qed.

Lemma timed_calls_length (n : nat) (w w' : World) (ms : list (R * X)) :
  passes n w = (Ok ms, w') -> List.length ms = n.
Proof.
  revert w ms. induction n as [|n IH]; intros w ms.
  - cbn. unfold ret. intros H; injection H as <- _.
    reflexivity.
  - rewrite timed_calls_step.
    destruct (pass w) as [[x|e] w1]; [|discriminate].
    destruct (passes n w1) as [[xs|e] w2] eqn:E; [|discriminate].
    intros H; injection H as <- <-. cbn. f_equal. now apply (IH w1).
Qed.

(** [k] passes that return, followed by a pass whose adapter call
    raises. *)
Lemma timed_calls_raise (k n : nat) (w wk w1 w2 : World)
      (ms : list (R * X)) (start : R) (e : exn) :
  (k < n)%nat ->
  passes k w = (Ok ms, wk) ->
  perf_counter ext wk = (Ok start, w1) ->
  adapter_module outer inner_loops maxh quality enforce_constraints w1
  = (Raise e, w2) ->
  passes n w = (Raise e, w2).
Proof.
  revert n w ms. induction k as [|k IH]; intros n w ms Hlt Hk Hs Ha.
  - destruct n as [|n]; [lia|]. cbn in Hk. unfold ret in Hk.
    injection Hk as <- <-. rewrite timed_calls_step.
    unfold timed_call, bind. rewrite Hs, Ha. reflexivity.
  - destruct n as [|n]; [lia|]. rewrite timed_calls_step in Hk |- *.
    destruct (pass w) as [[x|e1] w'] ; [|discriminate].
    destruct (passes k w') as [[xs|e2] w''] eqn:E; [|discriminate].
    injection Hk as <- <-.
    rewrite (IH n w' xs ltac:(lia) E Hs Ha). reflexivity.
Qed.
End RunnerFacts.

(** The running minimum started at [inf] with no result: over a non-empty
    list it is an element of the list, the first among those of least
    elapsed time. *)
Lemma select_best_from (X : Type) (ms : list (R * X)) (bt : R) (br : X) :
  exists t r,
    select_best ms (Fin bt) (Some br) = (Fin t, Some r) /\
    t <= bt /\
    (forall j e x, nth_error ms j = Some (e, x) -> t <= e) /\
    ((t = bt /\ r = br /\ forall j e x, nth_error ms j = Some (e, x) -> bt <= e)
     \/ exists i, nth_error ms i = Some (t, r) /\ t < bt /\
                  forall j e x, nth_error ms j = Some (e, x) ->
                                (j < i)%nat -> t < e).
Proof.
  revert bt br. induction ms as [|[e0 x0] ms IH]; intros bt br.
  - exists bt, br. cbn. split; [reflexivity|]. split; [lra|]. split.
    + intros [|j] e x H; discriminate.
    + left. repeat split. intros [|j] e x H; discriminate.
  - cbn [select_best xltb]. destruct (Rltb e0 bt) eqn:E.
    + apply Rltb_true in E.
      destruct (IH e0 x0) as [t [r [Hs [Hle [Hall Hcase]]]]].
      exists t, r. split; [exact Hs|]. split; [lra|]. split.
      * intros [|j] e x H; cbn in H.
        -- injection H as <- <-. exact Hle.
        -- apply (Hall j e x H).
      * right. destruct Hcase as [[-> [-> Hmin]]|[i [Hi [Hlt Hfirst]]]].
        -- exists 0%nat. split; [reflexivity|]. split; [exact E|].
           intros j e x _ Hj. lia.
        -- exists (S i). split; [exact Hi|]. split; [lra|].
           intros [|j] e x H Hj; cbn in H.
           ++ injection H as <- <-. exact Hlt.
           ++ apply (Hfirst j e x H). lia.
    + apply Rltb_false in E.
      destruct (IH bt br) as [t [r [Hs [Hle [Hall Hcase]]]]].
      exists t, r. split; [exact Hs|]. split; [exact Hle|]. split.
      * intros [|j] e x H; cbn in H.
        -- injection H as <- <-. lra.
        -- apply (Hall j e x H).
      * destruct Hcase as [[-> [-> Hmin]]|[i [Hi [Hlt Hfirst]]]].
        -- left. repeat split. intros [|j] e x H; cbn in H.
           ++ injection H as <- <-. exact E.
           ++ apply (Hmin j e x H).
        -- right. exists (S i). split; [exact Hi|]. split; [exact Hlt|].
           intros [|j] e x H Hj; cbn in H.
           ++ injection H as <- <-. lra.
           ++ apply (Hfirst j e x H). lia.
Qed.

Lemma select_best_spec (X : Type) (ms : list (R * X)) :
  ms <> [] ->
  exists i t r,
    select_best ms PInf None = (Fin t, Some r) /\
    nth_error ms i = Some (t, r) /\
    (forall j e x, nth_error ms j = Some (e, x) -> t <= e) /\
    (forall j e x, nth_error ms j = Some (e, x) -> (j < i)%nat -> t < e).
Proof.
  destruct ms as [|[e0 x0] ms]; [easy|]. intros _. cbn [select_best xltb].
  destruct (select_best_from X ms e0 x0) as [t [r [Hs [Hle [Hall Hcase]]]]].
  destruct Hcase as [[-> [-> Hmin]]|[i [Hi [Hlt Hfirst]]]].
  - exists 0%nat, e0, x0. split; [exact Hs|]. split; [reflexivity|]. split.
    + intros [|j] e x H; cbn in H.
      * injection H as <- <-. lra.
      * apply (Hmin j e x H).
    + intros j e x _ Hj. lia.
  - exists (S i), t, r. split; [exact Hs|]. split; [exact Hi|]. split.
    + intros [|j] e x H; cbn in H.
      * injection H as <- <-. lra.
      * apply (Hall j e x H).
    + intros [|j] e x H Hj; cbn in H.
      * injection H as <- <-. exact Hlt.
      * apply (Hfirst j e x H). lia.
Qed.

(** When every repeat returns and there is at least one, [run_benchmark]
    returns the first measurement of least elapsed time. *)
Lemma run_benchmark_ok
      {World Points Triangles Lines : Type}
      (ext : externals World)
      (adapter_module : adapter World Points Triangles Lines)
      (outer : polygon) (inner_loops : list polygon) (maxh : option R)
      (quality : string) (enforce_constraints : bool)
      (repeats : Z) (w w' : World)
      (ms : list (R * (Points * Triangles * Lines))) :
  (1 <= repeats)%Z ->
  timed_calls ext adapter_module outer inner_loops maxh quality
              enforce_constraints (Z.to_nat repeats) w = (Ok ms, w') ->
  exists i t points triangles lines,
    run_benchmark ext adapter_module outer inner_loops maxh quality
                  enforce_constraints (Some repeats) w
    = (Ok (points, triangles, lines, Fin t), w') /\
    nth_error ms i = Some (t, (points, triangles, lines)) /\
    (forall j e x, nth_error ms j = Some (e, x) -> t <= e) /\
    (forall j e x, nth_error ms j = Some (e, x) -> (j < i)%nat -> t < e).
Proof.
  intros Hrep Hms.
  pose proof (timed_calls_length _ _ _ _ _ _ _ _ _ _ _ Hms) as Hlen.
  assert (Hne : ms <> []).
  { intros ->. cbn in Hlen. lia. }
  destruct (select_best_spec _ ms Hne) as [i [t [[[p tr] l] [Hs [Hi [Hmin Hfirst]]]]]].
  exists i, t, p, tr, l. split; [|split; [exact Hi|split; assumption]].
  unfold run_benchmark, bind.
  rewrite (repeat_loop_ok _ _ _ _ _ _ _ _ PInf None _ _ _ Hms), Hs.
  reflexivity.
Qed.

(** C4. With a repeat count of at least 1, when every repeat's adapter call
    returns, [run_benchmark] returns; the elapsed time it returns is one of
    the measured times, it is at most every measured time, the mesh it
    returns is the result of that same call (the first one among the calls of
    least elapsed time), and as many calls were made as the repeat count.  A
    call that leaves [repeats] out runs with 3. *)
Theorem C4_run_benchmark_returns_fastest_run
        {World Points Triangles Lines : Type}
        (ext : externals World)
        (adapter_module : adapter World Points Triangles Lines)
        (outer : polygon) (inner_loops : list polygon) (maxh : option R)
        (quality : string) (enforce_constraints : bool)
        (repeats : Z) (w w' : World)
        (ms : list (R * (Points * Triangles * Lines))) :
  (1 <= repeats)%Z ->
  timed_calls ext adapter_module outer inner_loops maxh quality
              enforce_constraints (Z.to_nat repeats) w = (Ok ms, w') ->
  List.length ms = Z.to_nat repeats /\
  (exists i t points triangles lines,
      run_benchmark ext adapter_module outer inner_loops maxh quality
                    enforce_constraints (Some repeats) w
      = (Ok (points, triangles, lines, Fin t), w') /\
      nth_error ms i = Some (t, (points, triangles, lines)) /\
      (forall j e x, nth_error ms j = Some (e, x) -> t <= e) /\
      (forall j e x, nth_error ms j = Some (e, x) -> (j < i)%nat -> t < e)) /\
  run_benchmark ext adapter_module outer inner_loops maxh quality
                enforce_constraints None
  = run_benchmark ext adapter_module outer inner_loops maxh quality
                  enforce_constraints (Some 3%Z).
Proof.
  intros Hrep Hms. split.
  - exact (timed_calls_length _ _ _ _ _ _ _ _ _ _ _ Hms).
  - split; [|reflexivity]. now apply run_benchmark_ok.
Qed.

(** Three scripted repeats of 5, 2 and 4 seconds. *)
Lemma C4_witness :
  List.length [(5 - 0, sim_mesh 0); (12 - 10, sim_mesh 1); (24 - 20, sim_mesh 2)]
  = Z.to_nat 3 /\
  (exists i t points triangles lines,
      run_benchmark sim_ext sim_adapter unit_square [] None "default" false
                    (Some 3%Z) world_three_runs
      = (Ok (points, triangles, lines, Fin t),
         {| ticks := []; procs := []; calls := 3; written := [];
            trace := [call_A; call_A; call_A] |}) /\
      nth_error [(5 - 0, sim_mesh 0); (12 - 10, sim_mesh 1);
                 (24 - 20, sim_mesh 2)] i
      = Some (t, (points, triangles, lines)) /\
      (forall j e x,
          nth_error [(5 - 0, sim_mesh 0); (12 - 10, sim_mesh 1);
                     (24 - 20, sim_mesh 2)] j = Some (e, x) -> t <= e) /\
      (forall j e x,
          nth_error [(5 - 0, sim_mesh 0); (12 - 10, sim_mesh 1);
                     (24 - 20, sim_mesh 2)] j = Some (e, x) ->
          (j < i)%nat -> t < e)) /\
  run_benchmark sim_ext sim_adapter unit_square [] None "default" false None
  = run_benchmark sim_ext sim_adapter unit_square [] None "default" false
                  (Some 3%Z).
Proof.
  apply (C4_run_benchmark_returns_fastest_run
           sim_ext sim_adapter unit_square [] None "default" false 3
           world_three_runs).
  - lia.
  - reflexivity.
Defined.

(** The scripted run: the second call is the fastest, and its mesh and its
    two seconds are what [run_benchmark] returns. *)
Lemma run_benchmark_three_runs :
  run_benchmark sim_ext sim_adapter unit_square [] None "default" false
                (Some 3%Z) world_three_runs
  = (Ok (sample_points, sample_triangles, [(0, 1)]%Z, Fin (12 - 10)),
     {| ticks := []; procs := []; calls := 3; written := [];
            trace := [call_A; call_A; call_A] |}).
Proof.
  unfold run_benchmark, bind. change (Z.to_nat 3) with 3%nat.
  rewrite (repeat_loop_ok sim_ext sim_adapter unit_square [] None "default"
             false 3 PInf None world_three_runs
             {| ticks := []; procs := []; calls := 3; written := [];
            trace := [call_A; call_A; call_A] |}
             [(5 - 0, sim_mesh 0); (12 - 10, sim_mesh 1); (24 - 20, sim_mesh 2)])
    by reflexivity.
  cbn [select_best xltb].
  assert (E1 : Rltb (12 - 10) (5 - 0) = true) by (apply Rltb_true; lra).
  assert (E2 : Rltb (24 - 20) (12 - 10) = false) by (apply Rltb_false; lra).
  rewrite E1, E2. reflexivity.
Qed.

(* ================================================================= *)
(** ** Backend failures *)

(** C8. (1) When the command-line tool ends with a non-zero return code,
    [triangulate] raises [RuntimeError] carrying the tool's standard error,
    whatever the tool printed: no mesh is returned.  (2) When, after [k]
    repeats that returned, the adapter call of the next repeat raises,
    [run_benchmark] raises the same exception and leaves the world as that
    call left it: the call is not tried again and the remaining repeats are
    not run. *)
Theorem C8_backend_failure_propagates :
  (forall (World : Type) (sx : spade_externals World)
          (outer : polygon) (inner_loops : list polygon) (maxh : option R)
          (quality : string) (enforce_constraints : bool)
          (min_angle : option R) (w w1 : World) (cp : completed_process),
      subprocess_run sx [SPADE_CLI sx]
        (json_dumps sx {| in_outer := xy_list outer;
                          in_inner_loops := map xy_list inner_loops;
                          in_maxh := maxh;
                          in_quality := quality;
                          in_enforce_constraints := enforce_constraints;
                          in_min_angle := min_angle |}) 300 w = (Ok cp, w1) ->
      returncode cp <> 0%Z ->
      triangulate sx outer inner_loops maxh quality enforce_constraints
                  min_angle w
      = (Raise (RuntimeError ("Spade CLI failed: " ++ stderr cp)), w1)) /\
  (forall (World Points Triangles Lines : Type) (ext : externals World)
          (adapter_module : adapter World Points Triangles Lines)
          (outer : polygon) (inner_loops : list polygon) (maxh : option R)
          (quality : string) (enforce_constraints : bool)
          (repeats : Z) (k : nat) (w wk w1 w2 : World)
          (ms : list (R * (Points * Triangles * Lines)))
          (start : R) (e : exn),
      (Z.of_nat k < repeats)%Z ->
      timed_calls ext adapter_module outer inner_loops maxh quality
                  enforce_constraints k w = (Ok ms, wk) ->
      perf_counter ext wk = (Ok start, w1) ->
      adapter_module outer inner_loops maxh quality enforce_constraints w1
      = (Raise e, w2) ->
      run_benchmark ext adapter_module outer inner_loops maxh quality
                    enforce_constraints (Some repeats) w
      = (Raise e, w2)).
Proof.
  split.
  - intros World sx outer inner_loops maxh quality enforce_constraints
           min_angle w w1 cp Hrun Hrc.
    unfold triangulate, bind. rewrite Hrun.
    apply Z.eqb_neq in Hrc. rewrite Hrc. reflexivity.
  - intros World Points Triangles Lines ext adapter_module outer inner_loops
           maxh quality enforce_constraints repeats k w wk w1 w2 ms start e
           Hk Hms Hstart Hcall.
    unfold run_benchmark, bind.
    rewrite (repeat_loop_raise ext adapter_module outer inner_loops maxh
               quality enforce_constraints (Z.to_nat repeats) PInf None w w2 e).
    + reflexivity.
    + apply (timed_calls_raise ext adapter_module outer inner_loops maxh
               quality enforce_constraints k (Z.to_nat repeats) w wk w1 w2
               ms start e); try assumption. lia.
Qed.

(** The backend fails on the second of three repeats: the third is never
    started. *)
Lemma C8_witness :
  triangulate sim_sx unit_square [] None "default" false None
    {| ticks := [10; 12; 20; 24]; procs := [proc_failed; proc_ok];
       calls := 1; written := []; trace := [] |}
  = (Raise (RuntimeError ("Spade CLI failed: " ++ stderr proc_failed)),
     {| ticks := [10; 12; 20; 24]; procs := [proc_ok]; calls := 2;
        written := []; trace := [] |}) /\
  run_benchmark sim_ext (spade_adapter sim_sx) unit_square [] None "default"
                false (Some 3%Z) world_second_fails
  = (Raise (RuntimeError "Spade CLI failed: boom"),
     {| ticks := [12; 20; 24]; procs := [proc_ok]; calls := 2;
        written := []; trace := [] |}).
Proof.
  split.
  - apply (proj1 C8_backend_failure_propagates sim_world sim_sx).
    + reflexivity.
    + discriminate.
  - apply (proj2 C8_backend_failure_propagates sim_world _ _ _ sim_ext
             (spade_adapter sim_sx) unit_square [] None "default"%string
             false 3%Z 1%nat world_second_fails
             {| ticks := [10; 12; 20; 24]; procs := [proc_failed; proc_ok];
                calls := 1; written := []; trace := [] |}
             {| ticks := [12; 20; 24]; procs := [proc_failed; proc_ok];
                calls := 1; written := []; trace := [] |}
             {| ticks := [12; 20; 24]; procs := [proc_ok];
                calls := 2; written := []; trace := [] |}
             [(5 - 0, ([[JFloat 0; JFloat 0; JFloat 0]], [], []))] 10).
    + lia.
    + reflexivity.
    + reflexivity.
    + reflexivity.
Defined.

(* ================================================================= *)
(** ** The battery *)

Lemma bind_ok_inv {World A B} (c : M World A) (k : A -> M World B)
      (w w' : World) (b : B) :
  bind c k w = (Ok b, w') ->
  exists a w1, c w = (Ok a, w1) /\ k a w1 = (Ok b, w').
Proof.
  unfold bind. destruct (c w) as [[a|e] w1]; [|discriminate]. eauto.
Qed.

Lemma bind_ok {World A B} (c : M World A) (k : A -> M World B)
      (w w1 : World) (a : A) :
  c w = (Ok a, w1) -> bind c k w = k a w1.
Proof. unfold bind. now intros ->. Qed.

Section BatteryFacts.
Context {World : Type}.
Variable ext : externals World.
Variable adapter_module : adapter World (list vec3) (list triangle) (list edge).
Variable args : arguments.

(** A scenario that returns has appended one row and one report, tagged as
    asked. *)
Lemma scenario_inv (acc acc' : list bench_row * list quality_row)
      (outer : polygon) (inner_loops : list polygon) (maxh : option R)
      (quality : string) (enforce_constraints : bool)
      (vtu_name tag descr : string) (maxh_tag : option R) (w w' : World) :
  scenario ext adapter_module args acc outer inner_loops maxh quality
           enforce_constraints vtu_name tag descr maxh_tag w = (Ok acc', w') ->
  exists row qrow,
    acc' = (fst acc ++ [row], snd acc ++ [qrow]) /\
    row_tag row = (tag, descr, maxh_tag) /\
    quality_tag qrow = (tag, descr, maxh_tag) /\
    num_triangles (q_report qrow) = row_num_triangles row /\
    triangles_per_sec row = throughput (row_num_triangles row) (time_sec row).
Proof.
  destruct acc as [results quality_metrics]. unfold scenario.
  intros H. apply bind_ok_inv in H as [[[[points triangles] lines] t] [w1 [_ H]]].
  apply bind_ok_inv in H as [[] [w2 [_ H]]].
  apply bind_ok_inv in H as [q [w3 [Hq H]]].
  unfold ret in H. injection H as <- <-.
  eexists _, _. split; [reflexivity|]. cbn.
  repeat split. unfold lift in Hq. injection Hq as Hq _.
  unfold compute_mesh_quality in Hq.
  destruct (collect_metrics points triangles) as [m|]; [|discriminate].
  cbn [rbind] in Hq. rewrite build_report_ok in Hq. injection Hq as <-.
  reflexivity.
Qed.

Lemma size_sweep_inv (outer : polygon) (inner_loops : list polygon)
      (todo : list R) (acc acc' : list bench_row * list quality_row)
      (w w' : World) :
  size_sweep ext adapter_module args outer inner_loops todo acc w
  = (Ok acc', w') ->
  exists rows qrows,
    acc' = (fst acc ++ rows, snd acc ++ qrows) /\
    map row_tag rows
    = map (fun size => ("D", "city_maxh_" ++ format_size ext size,
                        Some size)%string) todo /\
    map quality_tag qrows
    = map (fun size => ("D", "city_maxh_" ++ format_size ext size,
                        Some size)%string) todo.
Proof.
  revert acc w. induction todo as [|size rest IH]; intros acc w;
    cbn [size_sweep].
  - unfold ret. intros H; injection H as <- <-.
    exists [], []. rewrite !app_nil_r. destruct acc; repeat split.
  - intros H. apply bind_ok_inv in H as [[] [w1 [_ H]]].
    apply bind_ok_inv in H as [acc1 [w2 [Hs H]]].
    apply scenario_inv in Hs as [row [qrow [-> [Hrow [Hq _]]]]].
    apply IH in H as [rows [qrows [-> [Hrows Hqrows]]]].
    exists (row :: rows), (qrow :: qrows). cbn [fst snd map].
    rewrite <- !app_assoc. cbn [app].
    rewrite Hrow, Hq, Hrows, Hqrows. repeat split.
Qed.

(** The battery, when it completes, has produced the rows and reports
    tagged A, B, C and one D per sweep size in sweep order. *)
Lemma main_inv (results : list bench_row) (qms : list quality_row)
      (w w' : World) :
  main ext adapter_module args w = (Ok (results, qms), w') ->
  map row_tag results = battery_tags (format_size ext) (sizes args) /\
  map quality_tag qms = battery_tags (format_size ext) (sizes args).
Proof.
  unfold main. intros H.
  apply bind_ok_inv in H as [[outer inner_loops] [w1 [_ H]]].
  apply bind_ok_inv in H as [[] [w2 [_ H]]].
  apply bind_ok_inv in H as [[] [w3 [_ H]]].
  apply bind_ok_inv in H as [accA [w4 [HA H]]].
  apply bind_ok_inv in H as [[] [w5 [_ H]]].
  apply bind_ok_inv in H as [accB [w6 [HB H]]].
  apply bind_ok_inv in H as [[] [w7 [_ H]]].
  apply bind_ok_inv in H as [accC [w8 [HC H]]].
  apply bind_ok_inv in H as [[] [w9 [_ H]]].
  apply scenario_inv in HA as [rA [qA [-> [HrA [HqA _]]]]].
  apply scenario_inv in HB as [rB [qB [-> [HrB [HqB _]]]]].
  apply scenario_inv in HC as [rC [qC [-> [HrC [HqC _]]]]].
  apply size_sweep_inv in H as [rows [qrows [Hacc [Hrows Hqrows]]]].
  cbn [fst snd app] in Hacc. injection Hacc as -> ->.
  unfold battery_tags. cbn [map app].
  rewrite HrA, HrB, HrC, HqA, HqB, HqC, Hrows, Hqrows. split; reflexivity.
Qed.
End BatteryFacts.

(* ================================================================= *)
(** ** The adapter calls of the battery *)

Section BatteryCalls.
Context {World : Type}.
Variable ext : externals World.
Variable adapter_module : adapter World (list vec3) (list triangle) (list edge).
Variable args : arguments.

(** A record of the adapter calls kept in the world: the adapter appends
    its arguments, nothing else touches it. *)
Variable log : World -> list call_args.
Hypothesis clock_log :
  forall w r w', perf_counter ext w = (r, w') -> log w' = log w.
Hypothesis print_log :
  forall text w r w', print ext text w = (r, w') -> log w' = log w.
Hypothesis readlines_log :
  forall path w r w', readlines ext path w = (r, w') -> log w' = log w.
Hypothesis write_log :
  forall path points cells w r w',
    meshio_write ext path points cells w = (r, w') -> log w' = log w.
Hypothesis adapter_log :
  forall outer inner_loops maxh quality enforce_constraints w r w',
    adapter_module outer inner_loops maxh quality enforce_constraints w
    = (r, w') ->
    log w'
    = log w ++ [{| call_outer := outer; call_inner_loops := inner_loops;
                   call_maxh := maxh; call_quality := quality;
                   call_enforce_constraints := enforce_constraints |}].

Lemma repeat_loop_log (outer : polygon) (inner_loops : list polygon)
      (maxh : option R) (quality : string) (enforce_constraints : bool)
      (n : nat) (bt : xreal)
      (br : option (list vec3 * list triangle * list edge))
      (w w' : World)
      (out : xreal * option (list vec3 * list triangle * list edge)) :
  repeat_loop ext adapter_module outer inner_loops maxh quality
              enforce_constraints n bt br w = (Ok out, w') ->
  log w'
  = log w ++ repeat {| call_outer := outer; call_inner_loops := inner_loops;
                       call_maxh := maxh; call_quality := quality;
                       call_enforce_constraints := enforce_constraints |} n.
Proof.
  revert bt br w. induction n as [|n IH]; intros bt br w; cbn [repeat_loop].
  - unfold ret. intros H; injection H as _ <-. cbn. now rewrite app_nil_r.
  - intros H. apply bind_ok_inv in H as [start [w1 [H1 H]]].
    apply bind_ok_inv in H as [result [w2 [H2 H]]].
    apply bind_ok_inv in H as [stop [w3 [H3 H]]].
    apply clock_log in H1, H3. apply adapter_log in H2.
    assert (Hl : log w' = log w3 ++ repeat
                   {| call_outer := outer; call_inner_loops := inner_loops;
                      call_maxh := maxh; call_quality := quality;
                      call_enforce_constraints := enforce_constraints |} n).
    { destruct (xltb (Fin (stop - start)) bt); now apply IH in H. }
    rewrite Hl, H3, H2, H1, <- app_assoc. reflexivity.
Qed.

Lemma scenario_log (acc acc' : list bench_row * list quality_row)
      (outer : polygon) (inner_loops : list polygon) (maxh : option R)
      (quality : string) (enforce_constraints : bool)
      (vtu_name tag descr : string) (maxh_tag : option R) (w w' : World) :
  scenario ext adapter_module args acc outer inner_loops maxh quality
           enforce_constraints vtu_name tag descr maxh_tag w = (Ok acc', w') ->
  log w'
  = log w ++ repeat {| call_outer := outer; call_inner_loops := inner_loops;
                       call_maxh := maxh; call_quality := quality;
                       call_enforce_constraints := enforce_constraints |}
                    (Z.to_nat (repeats_arg args)).
Proof.
  destruct acc as [results quality_metrics]. unfold scenario.
  intros H. apply bind_ok_inv in H as [[[[points triangles] lines] t] [w1 [Hr H]]].
  apply bind_ok_inv in H as [[] [w2 [Hw H]]].
  apply bind_ok_inv in H as [q [w3 [Hq H]]].
  unfold ret in H. injection H as _ <-.
  unfold lift in Hq. injection Hq as _ <-.
  unfold write_vtu in Hw. apply write_log in Hw.
  unfold run_benchmark in Hr.
  apply bind_ok_inv in Hr as [[bt br] [w0 [Hloop Hr]]].
  apply repeat_loop_log in Hloop.
  assert (w1 = w0) as ->.
  { destruct br as [[[p tr] l]|]; unfold ret, raise in Hr; now injection Hr. }
  now rewrite Hw, Hloop.
Qed.

Lemma size_sweep_log (outer : polygon) (inner_loops : list polygon)
      (todo : list R) (acc acc' : list bench_row * list quality_row)
      (w w' : World) :
  size_sweep ext adapter_module args outer inner_loops todo acc w
  = (Ok acc', w') ->
  log w'
  = log w
    ++ repeated (Z.to_nat (repeats_arg args))
         (map (fun size =>
                 {| call_outer := outer; call_inner_loops := inner_loops;
                    call_maxh := Some size; call_quality := "moderate";
                    call_enforce_constraints := true |}) todo).
Proof.
  revert acc w. induction todo as [|size rest IH]; intros acc w;
    cbn [size_sweep].
  - unfold ret. intros H; injection H as _ <-. cbn. now rewrite app_nil_r.
  - intros H. apply bind_ok_inv in H as [[] [w1 [Hp H]]].
    apply bind_ok_inv in H as [acc1 [w2 [Hs H]]].
    apply print_log in Hp. apply scenario_log in Hs. apply IH in H.
    rewrite H, Hs, Hp. unfold repeated. cbn [map flat_map].
    now rewrite <- app_assoc.
Qed.

(** The battery calls the adapter for A, B, C and every size of the sweep,
    in this order, each call as often as the repeat count says. *)
Lemma main_log (results : list bench_row) (qms : list quality_row)
      (w w' : World) :
  main ext adapter_module args w = (Ok (results, qms), w') ->
  exists lines w1 outer inner_loops,
    readlines ext (testcase args) w = (Ok lines, w1) /\
    parse_testcase lines = Ok (outer, inner_loops) /\
    log w'
    = log w ++ repeated (Z.to_nat (repeats_arg args))
                        (battery_calls outer inner_loops (sizes args)).
Proof.
  unfold main. intros H.
  apply bind_ok_inv in H as [[outer inner_loops] [w1 [Hload H]]].
  apply bind_ok_inv in H as [[] [w2 [Hp0 H]]].
  apply bind_ok_inv in H as [[] [w3 [Hp1 H]]].
  apply bind_ok_inv in H as [accA [w4 [HA H]]].
  apply bind_ok_inv in H as [[] [w5 [Hp2 H]]].
  apply bind_ok_inv in H as [accB [w6 [HB H]]].
  apply bind_ok_inv in H as [[] [w7 [Hp3 H]]].
  apply bind_ok_inv in H as [accC [w8 [HC H]]].
  apply bind_ok_inv in H as [[] [w9 [Hp4 H]]].
  unfold load_testcase in Hload.
  apply bind_ok_inv in Hload as [lines [w0 [Hread Hparse]]].
  unfold lift in Hparse. injection Hparse as Hparse <-.
  exists lines, w0, outer, inner_loops.
  split; [exact Hread|]. split; [exact Hparse|].
  apply readlines_log in Hread. apply print_log in Hp0, Hp1, Hp2, Hp3, Hp4.
  apply scenario_log in HA, HB, HC. apply size_sweep_log in H.
  rewrite H, Hp4, HC, Hp3, HB, Hp2, HA, Hp1, Hp0, Hread.
  unfold repeated, battery_calls, call_A. cbn [flat_map app].
  rewrite <- !app_assoc. reflexivity.
Qed.
End BatteryCalls.

(* ================================================================= *)
(** ** The battery completes *)

Section BatteryTotal.
Context {World : Type}.
Variable ext : externals World.
Variable adapter_module : adapter World (list vec3) (list triangle) (list edge).
Variable args : arguments.

Hypothesis clock_returns :
  forall w, exists t w', perf_counter ext w = (Ok t, w').
Hypothesis print_returns :
  forall text w, exists w', print ext text w = (Ok tt, w').
Hypothesis write_returns :
  forall path points cells w,
  exists w', meshio_write ext path points cells w = (Ok tt, w').
Hypothesis file_parses :
  forall w, exists lines w' outer inner_loops,
      readlines ext (testcase args) w = (Ok lines, w') /\
      parse_testcase lines = Ok (outer, inner_loops).
Hypothesis adapter_returns :
  forall outer inner_loops maxh quality enforce_constraints w,
  exists points triangles lines w',
    adapter_module outer inner_loops maxh quality enforce_constraints w
    = (Ok (points, triangles, lines), w') /\
    well_indexed points triangles = true.
Hypothesis repeats_positive : (1 <= repeats_arg args)%Z.

Lemma timed_calls_total (outer : polygon) (inner_loops : list polygon)
      (maxh : option R) (quality : string) (enforce_constraints : bool)
      (n : nat) (w : World) :
  exists ms w',
    timed_calls ext adapter_module outer inner_loops maxh quality
                enforce_constraints n w = (Ok ms, w') /\
    Forall (fun x => well_indexed (fst (fst (snd x))) (snd (fst (snd x)))
                     = true) ms.
Proof.
  revert w. induction n as [|n IH]; intros w.
  - exists [], w. split; [reflexivity | constructor].
  - destruct (clock_returns w) as [start [w1 H1]].
    destruct (adapter_returns outer inner_loops maxh quality
                              enforce_constraints w1)
      as [p [t [l [w2 [H2 Hwi]]]]].
    destruct (clock_returns w2) as [stop [w3 H3]].
    destruct (IH w3) as [ms [w' [Hms Hall]]].
    exists ((stop - start, (p, t, l)) :: ms), w'. split.
    + rewrite timed_calls_step. unfold timed_call, bind, ret.
      rewrite H1, H2, H3, Hms. reflexivity.
    + constructor; [exact Hwi | exact Hall].
Qed.

Lemma run_benchmark_total (outer : polygon) (inner_loops : list polygon)
      (maxh : option R) (quality : string) (enforce_constraints : bool)
      (w : World) :
  exists points triangles lines t w',
    run_benchmark ext adapter_module outer inner_loops maxh quality
                  enforce_constraints (Some (repeats_arg args)) w
    = (Ok (points, triangles, lines, Fin t), w') /\
    well_indexed points triangles = true.
Proof.
  destruct (timed_calls_total outer inner_loops maxh quality
              enforce_constraints (Z.to_nat (repeats_arg args)) w)
    as [ms [w' [Hms Hall]]].
  destruct (run_benchmark_ok ext adapter_module outer inner_loops maxh quality
              enforce_constraints (repeats_arg args) w w' ms
              repeats_positive Hms)
    as [i [t [p [tr [l [Hrun [Hi _]]]]]]].
  exists p, tr, l, t, w'. split; [exact Hrun|].
  apply nth_error_In in Hi. rewrite Forall_forall in Hall.
  apply (Hall _ Hi).
Qed.

Lemma scenario_total (acc : list bench_row * list quality_row)
      (outer : polygon) (inner_loops : list polygon) (maxh : option R)
      (quality : string) (enforce_constraints : bool)
      (vtu_name tag descr : string) (maxh_tag : option R) (w : World) :
  exists acc' w',
    scenario ext adapter_module args acc outer inner_loops maxh quality
             enforce_constraints vtu_name tag descr maxh_tag w
    = (Ok acc', w').
Proof.
  destruct acc as [results quality_metrics]. unfold scenario.
  destruct (run_benchmark_total outer inner_loops maxh quality
              enforce_constraints w) as [p [tr [l [t [w1 [Hrun Hwi]]]]]].
  rewrite (bind_ok _ _ _ _ _ Hrun).
  destruct (write_returns (path_join ext (outdir args) vtu_name) p
              (match l with
               | [] => [TriangleCells tr]
               | _ :: _ => [TriangleCells tr] ++ [LineCells l]
               end) w1) as [w2 Hw].
  unfold write_vtu. rewrite (bind_ok _ _ _ _ _ Hw).
  destruct (compute_mesh_quality_ok p tr Hwi) as [vs [m [_ [_ [_ [_ Hq]]]]]].
  unfold bind, lift, ret. rewrite Hq. eauto.
Qed.

Lemma size_sweep_total (outer : polygon) (inner_loops : list polygon)
      (todo : list R) (acc : list bench_row * list quality_row) (w : World) :
  exists acc' w',
    size_sweep ext adapter_module args outer inner_loops todo acc w
    = (Ok acc', w').
Proof.
  revert acc w. induction todo as [|size rest IH]; intros acc w;
    cbn [size_sweep].
  - unfold ret. eauto.
  - destruct (print_returns ("  Size: " ++ format_size ext size) w) as [w1 Hp].
    rewrite (bind_ok _ _ _ _ _ Hp).
    destruct (scenario_total acc outer inner_loops (Some size) "moderate" true
                ("D_city_" ++ format_size ext size ++ ".vtu") "D"
                ("city_maxh_" ++ format_size ext size) (Some size) w1)
      as [acc1 [w2 Hs]].
    rewrite (bind_ok _ _ _ _ _ Hs). apply IH.
Qed.

(** With collaborators that return and an adapter that returns
    well-indexed meshes, the battery completes. *)
Lemma main_total (w : World) :
  exists results qms w',
    main ext adapter_module args w = (Ok (results, qms), w').
Proof.
  unfold main, load_testcase.
  destruct (file_parses w) as [lines [w0 [outer [inner_loops [Hread Hparse]]]]].
  rewrite (bind_ok _ (fun x => match x with (o, i) => _ end) w w0
             (outer, inner_loops)).
  2:{ unfold bind, lift. rewrite Hread, Hparse. reflexivity. }
  destruct (print_returns ("Running benchmarks for " ++ software args ++ "...")
                          w0) as [w1 Hp0].
  rewrite (bind_ok _ _ _ _ _ Hp0).
  destruct (print_returns "Test A: Unit square (default)" w1) as [w2 Hp1].
  rewrite (bind_ok _ _ _ _ _ Hp1).
  match goal with
  | |- context [bind (scenario ?e ?a ?g ?acc ?o ?i ?m ?q ?c ?v ?t ?d ?mt)] =>
      destruct (scenario_total acc o i m q c v t d mt w2) as [accA [w3 HA]]
  end.
  rewrite (bind_ok _ _ _ _ _ HA).
  destruct (print_returns "Test B: Unit square with inner polygon" w3)
    as [w4 Hp2].
  rewrite (bind_ok _ _ _ _ _ Hp2).
  match goal with
  | |- context [bind (scenario ?e ?a ?g ?acc ?o ?i ?m ?q ?c ?v ?t ?d ?mt)] =>
      destruct (scenario_total acc o i m q c v t d mt w4) as [accB [w5 HB]]
  end.
  rewrite (bind_ok _ _ _ _ _ HB).
  destruct (print_returns "Test C: City testcase (maxh=100)" w5) as [w6 Hp3].
  rewrite (bind_ok _ _ _ _ _ Hp3).
  match goal with
  | |- context [bind (scenario ?e ?a ?g ?acc ?o ?i ?m ?q ?c ?v ?t ?d ?mt)] =>
      destruct (scenario_total acc o i m q c v t d mt w6) as [accC [w7 HC]]
  end.
  rewrite (bind_ok _ _ _ _ _ HC).
  destruct (print_returns "Test D: Size sweep" w7) as [w8 Hp4].
  rewrite (bind_ok _ _ _ _ _ Hp4).
  destruct (size_sweep_total outer inner_loops (sizes args) accC w8)
    as [[results qms] [w9 HD]].
  rewrite HD. eauto.
Qed.
End BatteryTotal.

(* ================================================================= *)
(** ** The scripted world satisfies the assumptions on collaborators *)

Lemma sim_clock_returns (w : sim_world) :
  exists t w', sim_perf_counter w = (Ok t, w').
Proof. unfold sim_perf_counter. destruct (ticks w); eauto. Qed.

Lemma sim_print_returns (text : string) (w : sim_world) :
  exists w', sim_print text w = (Ok tt, w').
Proof. unfold sim_print, ret. eauto. Qed.

Lemma sim_write_returns (path : string) (points : list vec3)
      (cells : list cell_block) (w : sim_world) :
  exists w', sim_meshio_write path points cells w = (Ok tt, w').
Proof. unfold sim_meshio_write. eauto. Qed.

Lemma sim_adapter_returns (outer : polygon) (inner_loops : list polygon)
      (maxh : option R) (quality : string) (enforce_constraints : bool)
      (w : sim_world) :
  exists points triangles lines w',
    sim_adapter outer inner_loops maxh quality enforce_constraints w
    = (Ok (points, triangles, lines), w') /\
    well_indexed points triangles = true.
Proof.
  unfold sim_adapter.
  destruct (sim_mesh (calls w)) as [[p t] l] eqn:E.
  exists p, t, l. eexists. split; [reflexivity|].
  destruct (calls w) as [|[|n]]; cbn in E; injection E as <- <- <-;
    reflexivity.
Qed.

Lemma sim_clock_trace (w : sim_world) r w' :
  sim_perf_counter w = (r, w') -> trace w' = trace w.
Proof.
  unfold sim_perf_counter. destruct (ticks w); intros H; injection H as _ <-;
    reflexivity.
Qed.

Lemma sim_print_trace (text : string) (w : sim_world) r w' :
  sim_print text w = (r, w') -> trace w' = trace w.
Proof. unfold sim_print, ret. intros H; injection H as _ <-. reflexivity. Qed.

Lemma sim_readlines_trace (path : string) (w : sim_world) r w' :
  sim_readlines path w = (r, w') -> trace w' = trace w.
Proof.
  unfold sim_readlines, ret. intros H; injection H as _ <-. reflexivity.
Qed.

Lemma short_readlines_trace (path : string) (w : sim_world) r w' :
  readlines sim_ext_short path w = (r, w') -> trace w' = trace w.
Proof. cbn. unfold ret. intros H; injection H as _ <-. reflexivity. Qed.

Lemma sim_write_trace (path : string) (points : list vec3)
      (cells : list cell_block) (w : sim_world) r w' :
  sim_meshio_write path points cells w = (r, w') -> trace w' = trace w.
Proof.
  unfold sim_meshio_write. intros H; injection H as _ <-. reflexivity.
Qed.

Lemma sim_adapter_trace (outer : polygon) (inner_loops : list polygon)
      (maxh : option R) (quality : string) (enforce_constraints : bool)
      (w : sim_world) r w' :
  sim_adapter outer inner_loops maxh quality enforce_constraints w = (r, w') ->
  trace w'
  = trace w ++ [{| call_outer := outer; call_inner_loops := inner_loops;
                   call_maxh := maxh; call_quality := quality;
                   call_enforce_constraints := enforce_constraints |}].
Proof. unfold sim_adapter. intros H; injection H as _ <-. reflexivity. Qed.

Lemma sim_file_parses (w : sim_world) :
  exists lines w' outer inner_loops,
    readlines sim_ext (testcase sim_args) w = (Ok lines, w') /\
    parse_testcase lines = Ok (outer, inner_loops).
Proof.
  exists sim_file, w. eexists _, _. split; reflexivity.
Qed.

Lemma short_file_parses (w : sim_world) :
  exists lines w' outer inner_loops,
    readlines sim_ext_short (testcase sim_args) w = (Ok lines, w') /\
    parse_testcase lines = Ok (outer, inner_loops).
Proof.
  exists short_file, w. eexists _, _. split; reflexivity.
Qed.

Lemma sim_main_total :
  exists results qms w',
    main sim_ext sim_adapter sim_args world_battery = (Ok (results, qms), w').
Proof.
  apply (main_total sim_ext sim_adapter sim_args).
  - exact sim_clock_returns.
  - exact sim_print_returns.
  - exact sim_write_returns.
  - exact sim_file_parses.
  - exact sim_adapter_returns.
  - cbn. lia.
Qed.

Lemma sim_format_size_5 : sim_format_size 5 = "5.0"%string.
Proof. unfold sim_format_size. destruct (Req_dec_T 5 5); [reflexivity|lra]. Qed.

(* ================================================================= *)
(** ** The results of the battery *)

(** C6, as stated, fails: with the sweep [5; 5] the battery completes, and
    the two D results, at positions 3 and 4, carry the same tag (test D,
    description, size hint 5): no index within the sweep is part of it. *)
Lemma C6_counterexample :
  exists results qms w',
    main sim_ext sim_adapter sim_args world_battery
    = (Ok (results, qms), w') /\
    nth_error (map row_tag results) 3
    = Some ("D"%string, "city_maxh_5.0"%string, Some 5) /\
    nth_error (map row_tag results) 4
    = Some ("D"%string, "city_maxh_5.0"%string, Some 5).
Proof.
  destruct sim_main_total as [results [qms [w' H]]].
  exists results, qms, w'. split; [exact H|].
  destruct (main_inv sim_ext sim_adapter sim_args results qms _ _ H) as [-> _].
  unfold battery_tags. cbn [sizes sim_args map app nth_error format_size sim_ext].
  rewrite sim_format_size_5. split; reflexivity.
Qed.

(** C6 (amended). Whenever the battery completes it has produced
    [3 + len(sizes)] results and as many quality reports; in both lists the
    tags are A, B, C and then one D per sweep size in sweep order, a D entry
    carrying the size hint and the description built from it (and no index).
    For an adapter that records its calls, the calls are those of A (unit
    square, defaults), B (unit square with the inner polygon, constraints
    enforced), C (the loaded test case, moderate quality, size hint 100,
    constraints enforced) and D (the same at each size of the sweep), in
    this order, each made [repeats] times. *)
Theorem C6_battery_results_in_fixed_order
        {World : Type} (ext : externals World)
        (adapter_module : adapter World (list vec3) (list triangle) (list edge))
        (args : arguments) (log : World -> list call_args)
        (results : list bench_row) (qms : list quality_row) (w w' : World) :
  (forall w r w', perf_counter ext w = (r, w') -> log w' = log w) ->
  (forall text w r w', print ext text w = (r, w') -> log w' = log w) ->
  (forall path w r w', readlines ext path w = (r, w') -> log w' = log w) ->
  (forall path points cells w r w',
      meshio_write ext path points cells w = (r, w') -> log w' = log w) ->
  (forall outer inner_loops maxh quality enforce_constraints w r w',
      adapter_module outer inner_loops maxh quality enforce_constraints w
      = (r, w') ->
      log w'
      = log w ++ [{| call_outer := outer; call_inner_loops := inner_loops;
                     call_maxh := maxh; call_quality := quality;
                     call_enforce_constraints := enforce_constraints |}]) ->
  main ext adapter_module args w = (Ok (results, qms), w') ->
  List.length results = (3 + List.length (sizes args))%nat /\
  List.length qms = (3 + List.length (sizes args))%nat /\
  map row_tag results = battery_tags (format_size ext) (sizes args) /\
  map quality_tag qms = battery_tags (format_size ext) (sizes args) /\
  exists lines w1 outer inner_loops,
    readlines ext (testcase args) w = (Ok lines, w1) /\
    parse_testcase lines = Ok (outer, inner_loops) /\
    log w'
    = log w ++ repeated (Z.to_nat (repeats_arg args))
                        (battery_calls outer inner_loops (sizes args)).
Proof.
  intros Hclock Hprint Hread Hwrite Hadapter Hmain.
  destruct (main_inv ext adapter_module args results qms w w' Hmain)
    as [Hrows Hqms].
  assert (Hlen : List.length (battery_tags (format_size ext) (sizes args))
                 = (3 + List.length (sizes args))%nat).
  { unfold battery_tags. rewrite length_app, length_map. reflexivity. }
  split; [rewrite <- Hlen, <- Hrows, length_map; reflexivity|].
  split; [rewrite <- Hlen, <- Hqms, length_map; reflexivity|].
  split; [exact Hrows|]. split; [exact Hqms|].
  exact (main_log ext adapter_module args log Hclock Hprint Hread Hwrite
                  Hadapter results qms w w' Hmain).
Qed.

(** The battery in the scripted world, with the sweep [5; 5] and two
    repeats. *)
Lemma C6_witness :
  exists results qms w',
    main sim_ext sim_adapter sim_args world_battery
    = (Ok (results, qms), w') /\
    List.length results = (3 + List.length (sizes sim_args))%nat /\
    List.length qms = (3 + List.length (sizes sim_args))%nat /\
    map row_tag results = battery_tags (format_size sim_ext) (sizes sim_args) /\
    map quality_tag qms = battery_tags (format_size sim_ext) (sizes sim_args) /\
    exists lines w1 outer inner_loops,
      readlines sim_ext (testcase sim_args) world_battery = (Ok lines, w1) /\
      parse_testcase lines = Ok (outer, inner_loops) /\
      trace w'
      = trace world_battery
        ++ repeated (Z.to_nat (repeats_arg sim_args))
                    (battery_calls outer inner_loops (sizes sim_args)).
Proof.
  destruct sim_main_total as [results [qms [w' H]]].
  exists results, qms, w'. split; [exact H|].
  apply (C6_battery_results_in_fixed_order
           sim_ext sim_adapter sim_args trace results qms world_battery w').
  - exact sim_clock_trace.
  - exact sim_print_trace.
  - exact sim_readlines_trace.
  - exact sim_write_trace.
  - exact sim_adapter_trace.
  - exact H.
Defined.

(* ================================================================= *)
(** ** Malformed input *)

Lemma py_index_negative {A} (l : list A) (i : Z) :
  (- Z.of_nat (List.length l) <= i < 0)%Z ->
  py_index l i = py_index l (i + Z.of_nat (List.length l)).
Proof.
  intros [Hlo Hhi]. unfold py_index; cbv zeta.
  assert (E1 : (i <? 0)%Z = true) by (apply Z.ltb_lt; lia).
  assert (E2 : (i + Z.of_nat (List.length l) <? 0)%Z = false)
    by (apply Z.ltb_ge; lia).
  rewrite E1, E2. reflexivity.
Qed.

Lemma floats_of_tokens (loop : polygon) :
  floats_of (tokens_of loop)
  = Ok (flat_map (fun p => [fst p; snd p]) loop).
Proof.
  induction loop as [|[x y] loop IH]; [reflexivity|].
  cbn [tokens_of flat_map app floats_of fst snd].
  fold (tokens_of loop). rewrite IH. reflexivity.
Qed.

(** [parse_loop] returns the points of the line whatever their number. *)
Lemma parse_loop_tokens (loop : polygon) :
  parse_loop (tokens_of loop) = Ok loop.
Proof.
  unfold parse_loop. rewrite floats_of_tokens. cbn [rbind].
  induction loop as [|[x y] loop IH]; [reflexivity|].
  cbn [flat_map app pair_up fst snd]. rewrite IH. reflexivity.
Qed.

Lemma well_indexed_app (points : list vec3) (before after : list triangle) :
  well_indexed points (before ++ after)
  = (well_indexed points before && well_indexed points after)%bool.
Proof. unfold well_indexed. apply forallb_app. Qed.

Lemma compute_mesh_quality_returns_iff (points : list vec3)
      (triangles : list triangle) :
  (exists q, compute_mesh_quality points triangles = Ok q)
  <-> well_indexed points triangles = true.
Proof.
  split.
  - intros [q Hq]. destruct (well_indexed points triangles) eqn:E;
      [reflexivity|].
    rewrite (compute_mesh_quality_bad _ _ E) in Hq. discriminate.
  - intros H. destruct (compute_mesh_quality_ok _ _ H)
      as [vs [m [_ [_ [_ [_ Hq]]]]]]. eauto.
Qed.

Lemma compute_mesh_quality_raises_iff (points : list vec3)
      (triangles : list triangle) :
  compute_mesh_quality points triangles = Raise IndexError
  <-> well_indexed points triangles = false.
Proof.
  split.
  - intros Hq. destruct (well_indexed points triangles) eqn:E;
      [|reflexivity].
    destruct (compute_mesh_quality_ok _ _ E) as [vs [m [_ [_ [_ [_ Hq']]]]]].
    rewrite Hq in Hq'. discriminate.
  - apply compute_mesh_quality_bad.
Qed.

Lemma run_benchmark_battery_A :
  run_benchmark sim_ext sim_adapter unit_square [] None "default" false
                (Some 2%Z) world_battery
  = (Ok (sample_points, [(0, 1, 2)]%Z, [(0, 7)]%Z, Fin (0 - 0)),
     {| ticks := []; procs := []; calls := 2; written := [];
        trace := [call_A; call_A] |}).
Proof.
  unfold run_benchmark, bind. change (Z.to_nat 2) with 2%nat.
  rewrite (repeat_loop_ok sim_ext sim_adapter unit_square [] None "default"
             false 2 PInf None world_battery
             {| ticks := []; procs := []; calls := 2; written := [];
                trace := [call_A; call_A] |}
             [(0 - 0, sim_mesh 0); (0 - 0, sim_mesh 1)])
    by reflexivity.
  cbn [select_best xltb].
  assert (E : Rltb (0 - 0) (0 - 0) = false) by (apply Rltb_false; lra).
  rewrite E. reflexivity.
Qed.

(** C5, as stated, fails.  (1) A test-case file whose outer loop has two
    points is parsed without a failure, and the battery runs on it to the
    end, calling the adapter on the two-point loop.  (2) A mesh with a
    constraint edge that names a missing point goes through the runner, the
    mesh writer's caller and the quality computation without a failure.
    (3) A triangle that names point -1 gets a report: the index is taken from
    the end of the point list. *)
Lemma C5_counterexample :
  parse_testcase short_file = Ok ([(0, 0); (1, 1)], []) /\
  (exists results qms w',
      main sim_ext_short sim_adapter sim_args world_battery
      = (Ok (results, qms), w') /\
      List.length results = 5%nat /\
      In {| call_outer := [(0, 0); (1, 1)]; call_inner_loops := [];
            call_maxh := Some 100.0; call_quality := "moderate";
            call_enforce_constraints := true |} (trace w')) /\
  (exists w1 w2 q,
      run_benchmark sim_ext sim_adapter unit_square [] None "default" false
                    (Some 2%Z) world_battery
      = (Ok (sample_points, [(0, 1, 2)]%Z, [(0, 7)]%Z, Fin (0 - 0)), w1) /\
      index_ok (List.length sample_points) 7 = false /\
      write_vtu sim_ext "out/A_unit_square_default.vtu" sample_points
                [(0, 1, 2)]%Z [(0, 7)]%Z w1 = (Ok tt, w2) /\
      compute_mesh_quality sample_points [(0, 1, 2)]%Z = Ok q) /\
  (exists q,
      compute_mesh_quality sample_points [(0, 1, -1)]%Z = Ok q /\
      num_triangles q = 1%nat).
Proof.
  split; [reflexivity|]. split; [|split].
  - destruct (main_total sim_ext_short sim_adapter sim_args
                sim_clock_returns sim_print_returns sim_write_returns
                short_file_parses sim_adapter_returns ltac:(cbn; lia)
                world_battery) as [results [qms [w' H]]].
    exists results, qms, w'. split; [exact H|]. split.
    + destruct (main_inv _ _ _ _ _ _ _ H) as [Hrows _].
      rewrite <- (length_map row_tag), Hrows. reflexivity.
    + destruct (main_log sim_ext_short sim_adapter sim_args trace
                  sim_clock_trace sim_print_trace short_readlines_trace
                  sim_write_trace sim_adapter_trace _ _ _ _ H)
        as [lines [w1 [outer [inner_loops [Hread [Hparse ->]]]]]].
      cbn in Hread. unfold ret in Hread. injection Hread as <- _.
      cbn in Hparse. injection Hparse as <- <-.
      cbn. right. right. right. right. left. reflexivity.
  - eexists _, _. 
    destruct (compute_mesh_quality_ok sample_points [(0, 1, 2)]%Z eq_refl)
      as [vs [m [_ [_ [_ [_ Hq]]]]]].
    eexists. split; [exact run_benchmark_battery_A|]. split; [reflexivity|].
    split; [reflexivity | exact Hq].
  - destruct (compute_mesh_quality_ok sample_points [(0, 1, -1)]%Z eq_refl)
      as [vs [m [_ [_ [_ [_ Hq]]]]]].
    eexists. split; [exact Hq | reflexivity].
Qed.

(** C5 (amended). [compute_mesh_quality] raises [IndexError], and returns
    no report, exactly when some triangle has an index [i] with [i >= n] or
    [i < -n], [n] being the number of points; it returns a report exactly
    when there is none.  The exception comes from the point lookup of the
    first such triangle, after the loop has processed the triangles before
    it.  An index from [-n] to [-1] is not an error: it addresses the point
    list from its end.  The number of points of a polygon loop is not
    checked: [parse_loop] returns the points of a line whatever their
    number.  (Constraint edges take no part in [compute_mesh_quality].) *)
Theorem C5_only_triangle_indices_fail
        (points : list vec3) (triangles : list triangle) :
  (compute_mesh_quality points triangles = Raise IndexError
   <-> well_indexed points triangles = false) /\
  ((exists q, compute_mesh_quality points triangles = Ok q)
   <-> well_indexed points triangles = true) /\
  (forall before tri after,
      triangles = before ++ tri :: after ->
      well_indexed points before = true ->
      triangle_ok (List.length points) tri = false ->
      (exists m, collect_metrics points before = Ok m /\
                 List.length (areas m) = List.length before) /\
      corners_of points tri = Raise IndexError /\
      compute_mesh_quality points triangles = Raise IndexError) /\
  (forall i, (- Z.of_nat (List.length points) <= i < 0)%Z ->
             py_index points i
             = py_index points (i + Z.of_nat (List.length points))) /\
  (forall loop : polygon, parse_loop (tokens_of loop) = Ok loop).
Proof.
  split; [apply compute_mesh_quality_raises_iff|].
  split; [apply compute_mesh_quality_returns_iff|].
  split; [|split; [apply py_index_negative | apply parse_loop_tokens]].
  intros before tri after -> Hb Ht. split; [|split].
  - destruct (collect_metrics_ok points before Hb) as [vs [_ [Hl Hc]]].
    eexists. split; [exact Hc|]. cbn [areas]. now rewrite length_map.
  - now apply corners_of_bad.
  - apply compute_mesh_quality_bad. rewrite well_indexed_app, Hb.
    unfold well_indexed. cbn [forallb andb]. now rewrite Ht.
Qed.

(** The second of three triangles names a point that does not exist. *)
Lemma C5_witness :
  (exists m, collect_metrics sample_points [(0, 1, 2)]%Z = Ok m /\
             List.length (areas m) = List.length [(0, 1, 2)]%Z) /\
  corners_of sample_points (0, 1, 3)%Z = Raise IndexError /\
  compute_mesh_quality sample_points [(0, 1, 2); (0, 1, 3); (0, 0, 1)]%Z
  = Raise IndexError.
Proof.
  apply (proj1 (proj2 (proj2 (C5_only_triangle_indices_fail
                                sample_points
                                [(0, 1, 2); (0, 1, 3); (0, 0, 1)]%Z)))
               [(0, 1, 2)]%Z (0, 1, 3)%Z [(0, 0, 1)]%Z);
    reflexivity.
Defined.

(* ================================================================= *)
(** ** Worked examples *)

(** Decides the comparisons of numerals that a goal contains. *)
Ltac decide_comparisons :=
  repeat match goal with
         | |- context [Rltb ?a ?b] =>
             first [ rewrite (proj2 (Rltb_true a b)) by lra
                   | rewrite (proj2 (Rltb_false a b)) by lra ]
         | |- context [Rleb ?a ?b] =>
             first [ rewrite (proj2 (Rleb_true a b)) by lra
                   | rewrite (proj2 (Rleb_false a b)) by lra ]
         end.

(** Boundary values: 60 and 90 fall in the last angle bucket, 0 in the
    first. *)
Example angle_hist_boundaries :
  angle_hist [45; 60; 90; 0] = [1; 0; 0; 0; 1; 0; 2]%Z.
Proof.
  rewrite angle_hist_buckets. unfold bucket_count, in_bucket.
  cbn [filter fleb fltb Float_R]. decide_comparisons. reflexivity.
Qed.

(** A value outside the outer edges is not counted by [np.histogram]. *)
Example angle_hist_out_of_range :
  total (angle_hist [45; 91]) = 1%Z.
Proof.
  rewrite angle_hist_buckets. unfold bucket_count, in_bucket.
  cbn [filter fleb fltb Float_R]. decide_comparisons. reflexivity.
Qed.

(** An infinite aspect ratio falls in the last bucket, as does 100. *)
Example ar_hist_boundaries :
  ar_hist [Fin 2; PInf; Fin 100] = [0; 1; 0; 0; 0; 0; 2]%Z.
Proof.
  rewrite ar_hist_buckets. unfold bucket_count, in_bucket.
  cbn [filter fleb fltb Float_xreal xleb xltb]. decide_comparisons.
  reflexivity.
Qed.




(* ================================================================= *)
(** ** Vertex order, infinite aspect ratios *)




















(* ================================================================= *)
(** ** The adapter calls of [run_benchmark] *)

Lemma bind_inv {World A B} (c : M World A) (k : A -> M World B)
      (w w' : World) (r : result B) :
  bind c k w = (r, w') ->
  (exists e, c w = (Raise e, w') /\ r = Raise e) \/
  (exists a w1, c w = (Ok a, w1) /\ k a w1 = (r, w')).
Proof.
  unfold bind. destruct (c w) as [[a|e] w1].
  - intros H. right. eauto.
  - intros H. injection H as <- <-. left. eauto.
Qed.

Section RunnerCalls.
Context {World Points Triangles Lines Entry : Type}.
Variable ext : externals World.
Variable adapter_module : adapter World Points Triangles Lines.
Variables (outer : polygon) (inner_loops : list polygon)
          (maxh : option R) (quality : string)
          (enforce_constraints : bool).

(** A record kept in the world, to which a call of the adapter with these
    arguments adds [entry] and which the clock leaves alone. *)
Variable log : World -> list Entry.
Variable entry : Entry.
Hypothesis clock_keeps :
  forall w r w', perf_counter ext w = (r, w') -> log w' = log w.
Hypothesis adapter_adds :
  forall w r w',
    adapter_module outer inner_loops maxh quality enforce_constraints w
    = (r, w') ->
    log w' = log w ++ [entry].

Lemma repeat_app_one {A} (x : A) (k : nat) :
  [x] ++ repeat x k = repeat x (S k).
Proof. reflexivity. Qed.

(** The loop calls the adapter at most [n] times, and exactly [n] times
    when it runs to its end. *)
Lemma repeat_loop_calls (n : nat) (bt : xreal)
      (br : option (Points * Triangles * Lines)) (w w' : World)
      (r : result (xreal * option (Points * Triangles * Lines))) :
  repeat_loop ext adapter_module outer inner_loops maxh quality
              enforce_constraints n bt br w = (r, w') ->
  exists k, (k <= n)%nat /\ log w' = log w ++ repeat entry k /\
            ((exists out, r = Ok out) -> k = n).
Proof.
  revert bt br w. induction n as [|n IH]; intros bt br w; cbn [repeat_loop].
  - unfold ret. intros H; injection H as <- <-.
    exists 0%nat. cbn. rewrite app_nil_r. auto.
  - intros H.
    apply bind_inv in H as [[e [H1 ->]]|[start [w1 [H1 H]]]].
    { apply clock_keeps in H1. exists 0%nat. cbn. rewrite app_nil_r.
      repeat split; [lia | exact H1 | intros [out Ho]; discriminate]. }
    apply clock_keeps in H1.
    apply bind_inv in H as [[e [H2 ->]]|[result [w2 [H2 H]]]].
    { apply adapter_adds in H2. exists 1%nat. cbn [repeat].
      repeat split; [lia | now rewrite H2, H1
                     | intros [out Ho]; discriminate]. }
    apply adapter_adds in H2.
    apply bind_inv in H as [[e [H3 ->]]|[stop [w3 [H3 H]]]].
    { apply clock_keeps in H3. exists 1%nat. cbn [repeat].
      repeat split; [lia | now rewrite H3, H2, H1
                     | intros [out Ho]; discriminate]. }
    apply clock_keeps in H3.
    assert (Hrec : exists k, (k <= n)%nat /\ log w' = log w3 ++ repeat entry k
                             /\ ((exists out, r = Ok out) -> k = n)).
    { destruct (xltb (Fin (stop - start)) bt); now apply IH in H. }
    destruct Hrec as [k [Hk [Hlog Hok]]].
    exists (S k). split; [lia|]. split.
    + rewrite Hlog, H3, H2, H1, <- app_assoc. now rewrite repeat_app_one.
    + intros Hout. now rewrite (Hok Hout).
Qed.

Lemma run_benchmark_calls (repeats : Z) (w w' : World)
      (r : result (Points * Triangles * Lines * xreal)) :
  run_benchmark ext adapter_module outer inner_loops maxh quality
                enforce_constraints (Some repeats) w = (r, w') ->
  exists k, (k <= Z.to_nat repeats)%nat /\
            log w' = log w ++ repeat entry k /\
            ((exists out, r = Ok out) ->
             k = Z.to_nat repeats /\ (1 <= repeats)%Z).
Proof.
  unfold run_benchmark. intros H.
  apply bind_inv in H as [[e [H1 ->]]|[[bt br] [w1 [H1 H]]]].
  - apply repeat_loop_calls in H1 as [k [Hk [Hlog _]]].
    exists k. repeat split; try assumption; destruct H as [out Ho];
      discriminate.
  - pose proof H1 as Hloop.
    apply repeat_loop_calls in H1 as [k [Hk [Hlog Hok]]].
    specialize (Hok (ex_intro _ _ eq_refl)). subst k.
    assert (w' = w1) as ->.
    { destruct br as [[[p t] l]|]; unfold ret, raise in H; now injection H. }
    exists (Z.to_nat repeats). split; [lia|]. split; [exact Hlog|].
    intros [out ->]. split; [reflexivity|].
    destruct (Z.to_nat repeats) as [|n] eqn:En; [|lia].
    cbn in Hloop. unfold ret in Hloop. injection Hloop as <- <- _.
    unfold raise in H. discriminate.
Qed.
End RunnerCalls.

(** X5. With a repeat count of 0 or less, [run_benchmark] raises
    [TypeError] (the unpacking of [best_result], still [None]) without
    reading the clock or calling the adapter: the world is left as it
    was. *)
Theorem X5_run_benchmark_without_repeats
        {World Points Triangles Lines : Type}
        (ext : externals World)
        (adapter_module : adapter World Points Triangles Lines)
        (outer : polygon) (inner_loops : list polygon) (maxh : option R)
        (quality : string) (enforce_constraints : bool)
        (repeats : Z) (w : World) :
  (repeats <= 0)%Z ->
  run_benchmark ext adapter_module outer inner_loops maxh quality
                enforce_constraints (Some repeats) w
  = (Raise TypeError, w).
Proof.
  intros H. unfold run_benchmark.
  replace (Z.to_nat repeats) with 0%nat by lia. reflexivity.
Qed.

Lemma X5_witness :
  run_benchmark sim_ext sim_adapter unit_square [] None "default" false
                (Some (-1)%Z) world_three_runs
  = (Raise TypeError, world_three_runs).
Proof.
  apply (X5_run_benchmark_without_repeats
           sim_ext sim_adapter unit_square [] None "default" false (-1)).
  lia.
Defined.

(** X6. Whatever the outcome of [run_benchmark], it has called the adapter
    at most [repeats] times, every time with the five arguments it was
    given; when it returns, it has made exactly [repeats] calls and
    [repeats] is at least 1. *)
Theorem X6_run_benchmark_repeats_one_call
        {World Points Triangles Lines : Type}
        (ext : externals World)
        (adapter_module : adapter World Points Triangles Lines)
        (log : World -> list call_args)
        (outer : polygon) (inner_loops : list polygon) (maxh : option R)
        (quality : string) (enforce_constraints : bool)
        (repeats : Z) (w w' : World)
        (r : result (Points * Triangles * Lines * xreal)) :
  (forall w r w', perf_counter ext w = (r, w') -> log w' = log w) ->
  (forall outer inner_loops maxh quality enforce_constraints w r w',
      adapter_module outer inner_loops maxh quality enforce_constraints w
      = (r, w') ->
      log w'
      = log w ++ [{| call_outer := outer; call_inner_loops := inner_loops;
                     call_maxh := maxh; call_quality := quality;
                     call_enforce_constraints := enforce_constraints |}]) ->
  run_benchmark ext adapter_module outer inner_loops maxh quality
                enforce_constraints (Some repeats) w = (r, w') ->
  exists k,
    (k <= Z.to_nat repeats)%nat /\
    log w'
    = log w ++ repeat {| call_outer := outer;
                         call_inner_loops := inner_loops;
                         call_maxh := maxh; call_quality := quality;
                         call_enforce_constraints := enforce_constraints |} k /\
    ((exists out, r = Ok out) -> k = Z.to_nat repeats /\ (1 <= repeats)%Z).
Proof.
  intros Hclock Hadapter Hrun.
  apply (run_benchmark_calls ext adapter_module outer inner_loops maxh quality
           enforce_constraints log _ Hclock
           (Hadapter outer inner_loops maxh quality enforce_constraints)
           repeats w w' r Hrun).
Qed.

Lemma X6_witness :
  exists k,
    (k <= Z.to_nat 3)%nat /\
    trace {| ticks := []; procs := []; calls := 3; written := [];
             trace := [call_A; call_A; call_A] |}
    = trace world_three_runs ++ repeat call_A k /\
    ((exists out,
         Ok (sample_points, sample_triangles, [(0, 1)]%Z, Fin (12 - 10))
         = Ok out) ->
     k = Z.to_nat 3 /\ (1 <= 3)%Z).
Proof.
  apply (X6_run_benchmark_repeats_one_call
           sim_ext sim_adapter trace unit_square [] None "default" false 3
           world_three_runs _ _ sim_clock_trace sim_adapter_trace
           run_benchmark_three_runs).
Defined.

(* ================================================================= *)
(** ** The native adapter *)

Lemma native_triangulate_transparent
      {World Points Triangles Lines : Type}
      (backend : native_backend World Points Triangles Lines)
      (outer : polygon) (inner_loops : list polygon) (maxh : option R)
      (quality : string) (enforce_constraints : bool)
      (min_angle : option R) (exclude_holes : bool) (w : World) :
  native_triangulate backend outer inner_loops maxh quality
                     enforce_constraints min_angle exclude_holes w
  = backend outer inner_loops maxh quality enforce_constraints min_angle
            exclude_holes w.
Proof.
  unfold native_triangulate, bind, ret.
  destruct (backend _ _ _ _ _ _ _ w) as [[[[p t] l]|e] w']; reflexivity.
Qed.

(** X7. The native adapter hands its seven arguments to the backend and
    returns what the backend returns, result or exception, in the world the
    backend left.  Through [run_benchmark] the backend is therefore called
    at most [repeats] times (exactly [repeats] times when the benchmark
    returns), each time with the five arguments of the benchmark,
    [min_angle=None] and [exclude_holes=True]. *)
Theorem X7_native_adapter_passes_defaults
        {World Points Triangles Lines : Type}
        (ext : externals World)
        (backend : native_backend World Points Triangles Lines)
        (log : World -> list backend_call)
        (outer : polygon) (inner_loops : list polygon) (maxh : option R)
        (quality : string) (enforce_constraints : bool)
        (repeats : Z) (w w' : World)
        (r : result (Points * Triangles * Lines * xreal)) :
  (forall w r w', perf_counter ext w = (r, w') -> log w' = log w) ->
  (forall outer inner_loops maxh quality enforce_constraints min_angle
          exclude_holes w r w',
      backend outer inner_loops maxh quality enforce_constraints min_angle
              exclude_holes w = (r, w') ->
      log w'
      = log w ++ [{| bc_outer := outer; bc_inner_loops := inner_loops;
                     bc_maxh := maxh; bc_quality := quality;
                     bc_enforce_constraints := enforce_constraints;
                     bc_min_angle := min_angle;
                     bc_exclude_holes := exclude_holes |}]) ->
  run_benchmark ext (native_adapter backend) outer inner_loops maxh quality
                enforce_constraints (Some repeats) w = (r, w') ->
  (forall min_angle exclude_holes w0,
      native_triangulate backend outer inner_loops maxh quality
                         enforce_constraints min_angle exclude_holes w0
      = backend outer inner_loops maxh quality enforce_constraints min_angle
                exclude_holes w0) /\
  exists k,
    (k <= Z.to_nat repeats)%nat /\
    log w'
    = log w ++ repeat {| bc_outer := outer; bc_inner_loops := inner_loops;
                         bc_maxh := maxh; bc_quality := quality;
                         bc_enforce_constraints := enforce_constraints;
                         bc_min_angle := None;
                         bc_exclude_holes := true |} k /\
    ((exists out, r = Ok out) -> k = Z.to_nat repeats).
Proof.
  intros Hclock Hbackend Hrun. split.
  - intros. apply native_triangulate_transparent.
  - destruct (run_benchmark_calls ext (native_adapter backend) outer
                inner_loops maxh quality enforce_constraints log
                {| bc_outer := outer; bc_inner_loops := inner_loops;
                   bc_maxh := maxh; bc_quality := quality;
                   bc_enforce_constraints := enforce_constraints;
                   bc_min_angle := None; bc_exclude_holes := true |}
                Hclock) with (repeats := repeats) (w := w) (w' := w') (r := r)
      as [k [Hk [Hlog Hok]]].
    + intros w0 r0 w0' H. unfold native_adapter in H.
      rewrite native_triangulate_transparent in H.
      now apply Hbackend in H.
    + exact Hrun.
    + exists k. split; [exact Hk|]. split; [exact Hlog|].
      intros Hout. now destruct (Hok Hout).
Qed.

Lemma recording_run :
  run_benchmark recording_ext (native_adapter recording_backend) unit_square
                [inner_poly] None "default" true (Some 2%Z) []
  = (Ok (sample_points, sample_triangles, [], Fin (0 - 0)),
     repeat {| bc_outer := unit_square; bc_inner_loops := [inner_poly];
               bc_maxh := None; bc_quality := "default";
               bc_enforce_constraints := true; bc_min_angle := None;
               bc_exclude_holes := true |} 2).
Proof.
  unfold run_benchmark, bind. change (Z.to_nat 2) with 2%nat.
  rewrite (repeat_loop_ok recording_ext (native_adapter recording_backend)
             unit_square [inner_poly] None "default" true 2 PInf None []
             (repeat {| bc_outer := unit_square;
                        bc_inner_loops := [inner_poly];
                        bc_maxh := None; bc_quality := "default";
                        bc_enforce_constraints := true; bc_min_angle := None;
                        bc_exclude_holes := true |} 2)
             [(0 - 0, (sample_points, sample_triangles, []));
              (0 - 0, (sample_points, sample_triangles, []))])
    by reflexivity.
  cbn [select_best xltb].
  assert (E : Rltb (0 - 0) (0 - 0) = false) by (apply Rltb_false; lra).
  rewrite E. reflexivity.
Qed.

Lemma X7_witness :
  (forall min_angle exclude_holes w0,
      native_triangulate recording_backend unit_square [inner_poly] None
                         "default" true min_angle exclude_holes w0
      = recording_backend unit_square [inner_poly] None "default"%string
                          true min_angle exclude_holes w0) /\
  exists k,
    (k <= Z.to_nat 2)%nat /\
    repeat {| bc_outer := unit_square; bc_inner_loops := [inner_poly];
              bc_maxh := None; bc_quality := "default";
              bc_enforce_constraints := true; bc_min_angle := None;
              bc_exclude_holes := true |} 2
    = [] ++ repeat {| bc_outer := unit_square;
                      bc_inner_loops := [inner_poly];
                      bc_maxh := None; bc_quality := "default";
                      bc_enforce_constraints := true; bc_min_angle := None;
                      bc_exclude_holes := true |} k /\
    ((exists out,
         Ok (sample_points, sample_triangles, @nil edge, Fin (0 - 0))
         = Ok out) -> k = Z.to_nat 2).
Proof.
  apply (X7_native_adapter_passes_defaults
           recording_ext recording_backend (fun w => w) unit_square
           [inner_poly] None "default"%string true 2%Z [] _ _).
  - intros w r w' H. cbn in H. unfold ret in H. now injection H.
  - intros o i m q e ma eh w r w' H. unfold recording_backend in H.
    now injection H.
  - exact recording_run.
Defined.

(* ================================================================= *)
(** ** The test-case file *)

Lemma list_pair_ind {A} (P : list A -> Prop) :
  P [] -> (forall x, P [x]) -> (forall x y l, P l -> P (x :: y :: l)) ->
  forall l, P l.
Proof.
  intros H0 H1 H2.
  assert (H : forall l, P l /\ forall x, P (x :: l)).
  { induction l as [|y l [IH1 IH2]]; split; auto. }
  intros l. apply H.
Qed.

Lemma floats_of_bad (line : text_line) :
  all_floats line = false -> floats_of line = Raise ValueError.
Proof.
  induction line as [|[x|] line IH]; cbn [all_floats forallb floats_of].
  - discriminate.
  - intros H. fold (all_floats line) in H. cbn [andb] in H.
    now rewrite (IH H).
  - reflexivity.
Qed.

Lemma floats_of_good (line : text_line) :
  all_floats line = true ->
  exists xs, floats_of line = Ok xs /\ map TokFloat xs = line.
Proof.
  induction line as [|[x|] line IH]; cbn [all_floats forallb floats_of].
  - exists []. split; reflexivity.
  - intros H. fold (all_floats line) in H. cbn [andb] in H.
    destruct (IH H) as [xs [-> <-]]. exists (x :: xs). split; reflexivity.
  - discriminate.
Qed.

Lemma pair_up_outcome (xs : list R) :
  if Nat.even (List.length xs)
  then exists loop, pair_up xs = Ok loop /\
                    flat_map (fun p => [fst p; snd p]) loop = xs /\
                    (2 * List.length loop = List.length xs)%nat
  else pair_up xs = Raise IndexError.
Proof.
  induction xs as [| x | x y xs IH] using list_pair_ind.
  - exists []. repeat split.
  - reflexivity.
  - change (Nat.even (List.length (x :: y :: xs)))
      with (Nat.even (List.length xs)).
    cbn [pair_up]. destruct (Nat.even (List.length xs)).
    + destruct IH as [loop [-> [Hflat Hlen]]]. exists ((x, y) :: loop).
      cbn [rbind flat_map fst snd app List.length]. rewrite Hflat.
      repeat split. lia.
    + now rewrite IH.
Qed.

Lemma tokens_of_flat (loop : polygon) :
  tokens_of loop = map TokFloat (flat_map (fun p => [fst p; snd p]) loop).
Proof.
  induction loop as [|[x y] loop IH]; [reflexivity|].
  cbn [tokens_of flat_map app map fst snd]. f_equal. f_equal. exact IH.
Qed.

(** X8. [parse_loop] on a line: a token that is not a float raises
    [ValueError], wherever it stands; a line of floats of odd count raises
    [IndexError]; a line of floats of even count gives the loop that pairs
    them up in order, half as many points as floats, whatever their number
    (none included). *)
Theorem X8_parse_loop_outcomes (line : text_line) :
  (all_floats line = false -> parse_loop line = Raise ValueError) /\
  (all_floats line = true -> Nat.even (List.length line) = false ->
   parse_loop line = Raise IndexError) /\
  (all_floats line = true -> Nat.even (List.length line) = true ->
   exists loop, parse_loop line = Ok loop /\ tokens_of loop = line /\
                (2 * List.length loop = List.length line)%nat).
Proof.
  unfold parse_loop. split; [|split].
  - intros H. now rewrite (floats_of_bad line H).
  - intros H Hodd. destruct (floats_of_good line H) as [xs [-> Hxs]].
    cbn [rbind]. pose proof (pair_up_outcome xs) as Ho.
    rewrite <- Hxs, length_map in Hodd. now rewrite Hodd in Ho.
  - intros H Heven. destruct (floats_of_good line H) as [xs [-> Hxs]].
    cbn [rbind]. pose proof (pair_up_outcome xs) as Ho.
    rewrite <- Hxs, length_map in Heven. rewrite Heven in Ho.
    destruct Ho as [loop [-> [Hflat Hlen]]]. exists loop.
    split; [reflexivity|]. split.
    + now rewrite tokens_of_flat, Hflat.
    + now rewrite <- Hxs, length_map.
Qed.

(** Five floats, the last one unpaired; and a line with a stray word. *)
Lemma X8_witness :
  parse_loop [TokFloat 0; TokFloat 0; TokFloat 1; TokFloat 0; TokFloat 1]
  = Raise IndexError /\
  parse_loop [TokFloat 0; TokBad; TokFloat 1] = Raise ValueError.
Proof.
  split.
  - apply (proj1 (proj2 (X8_parse_loop_outcomes
                           [TokFloat 0; TokFloat 0; TokFloat 1; TokFloat 0;
                            TokFloat 1]))); reflexivity.
  - apply (proj1 (X8_parse_loop_outcomes [TokFloat 0; TokBad; TokFloat 1])).
    reflexivity.
Defined.

Lemma parse_loops_filter (lines : list text_line) :
  parse_loops (filter nonblank lines) = parse_loops lines.
Proof.
  induction lines as [|[|t line] lines IH]; cbn [filter nonblank parse_loops].
  - reflexivity.
  - exact IH.
  - now rewrite IH.
Qed.

Lemma tokens_of_nonempty (loop : polygon) :
  loop <> [] -> exists t line, tokens_of loop = t :: line.
Proof.
  destruct loop as [|[x y] loop]; [easy|]. intros _.
  cbn [tokens_of flat_map app fst snd]. eauto.
Qed.

Lemma parse_loops_tokens (inner_loops : list polygon) :
  Forall (fun loop => loop <> []) inner_loops ->
  parse_loops (map tokens_of inner_loops) = Ok inner_loops.
Proof.
  induction 1 as [|loop rest Hne _ IH]; [reflexivity|]. cbn [map].
  destruct (tokens_of_nonempty loop Hne) as [t [line E]].
  pose proof (parse_loop_tokens loop) as Hp. rewrite E in Hp |- *.
  cbn [parse_loops]. rewrite Hp. cbn [rbind]. rewrite IH. reflexivity.
Qed.

(** X9. [parse_testcase] (lines 33-36 of [load_testcase]): an empty file
    raises [IndexError]; blank lines after the first line are skipped; and
    the file that lists an outer loop on its first line and non-empty inner
    loops on later lines, blank lines anywhere among them, is read back as
    these loops.  The first line is never skipped: a blank first line is
    read as an outer loop without points. *)
Theorem X9_parse_testcase_round_trip
        (outer : polygon) (inner_loops : list polygon)
        (rest : list text_line) :
  Forall (fun loop => loop <> []) inner_loops ->
  filter nonblank rest = map tokens_of inner_loops ->
  parse_testcase (tokens_of outer :: rest) = Ok (outer, inner_loops) /\
  parse_testcase ([] :: rest) = Ok ([], inner_loops) /\
  parse_testcase [] = Raise IndexError.
Proof.
  intros Hne Hrest. unfold parse_testcase.
  rewrite parse_loop_tokens, <- parse_loops_filter, Hrest,
    (parse_loops_tokens inner_loops Hne).
  repeat split.
Qed.

Lemma X9_witness :
  parse_testcase (tokens_of [(0, 0); (4, 0); (4, 4); (0, 4)]
                  :: [[]; tokens_of [(1, 1); (2, 1); (1, 2)]; []])
  = Ok ([(0, 0); (4, 0); (4, 4); (0, 4)], [[(1, 1); (2, 1); (1, 2)]]) /\
  parse_testcase ([] :: [[]; tokens_of [(1, 1); (2, 1); (1, 2)]; []])
  = Ok ([], [[(1, 1); (2, 1); (1, 2)]]) /\
  parse_testcase [] = Raise IndexError.
Proof.
  apply (X9_parse_testcase_round_trip
           [(0, 0); (4, 0); (4, 4); (0, 4)] [[(1, 1); (2, 1); (1, 2)]]).
  - repeat constructor. discriminate.
  - reflexivity.
Defined.

(* ================================================================= *)
(** ** The output of the command-line tool *)

Lemma find_key_in {V} (items : list (string * V)) (key : string) (v : V) :
  NoDup (map fst items) -> In (key, v) items ->
  find (fun kv => String.eqb (fst kv) key) items = Some (key, v).
Proof.
  induction items as [|[k u] items IH]; [easy|].
  cbn [map fst find]. intros Hnd Hin. inversion Hnd as [|? ? Hk Hnd']; subst.
  destruct (String.eqb k key) eqn:E.
  - apply String.eqb_eq in E. subst k. destruct Hin as [Heq|Hin].
    + now injection Heq as ->.
    + exfalso. apply Hk. apply in_map_iff. now exists (key, v).
  - destruct Hin as [Heq|Hin].
    + injection Heq as -> _. now rewrite String.eqb_refl in E.
    + now apply IH.
Qed.

Lemma find_key_absent {V} (items : list (string * V)) (key : string) :
  ~ In key (map fst items) ->
  find (fun kv => String.eqb (fst kv) key) items = None.
Proof.
  induction items as [|[k u] items IH]; [reflexivity|].
  cbn [map fst find In]. intros Hn.
  destruct (String.eqb k key) eqn:E.
  - apply String.eqb_eq in E. tauto.
  - apply IH. tauto.
Qed.

Lemma getitem_present (items : list (string * json)) (key : string)
      (v : json) :
  NoDup (map fst items) -> In (key, v) items ->
  getitem (JDict items) key = Ok v.
Proof.
  intros Hnd Hin. unfold getitem. now rewrite (find_key_in items key v Hnd Hin).
Qed.

Lemma getitem_absent (items : list (string * json)) (key : string) :
  ~ In key (map fst items) -> getitem (JDict items) key = Raise (KeyError key).
Proof.
  intros Hn. unfold getitem. now rewrite (find_key_absent items key Hn).
Qed.

Lemma tuples_of_lists (rows : list pytuple) :
  tuples_of (JList (map JList rows)) = Ok rows.
Proof.
  unfold tuples_of. cbn [iterate rbind].
  induction rows as [|row rows IH]; [reflexivity|].
  cbn [map tuples_of_items iterate rbind]. now rewrite IH.
Qed.

(** X10. When the tool ends with return code 0 and its standard output
    decodes to an object that holds lists of lists under [points],
    [triangles] and [constraint_edges] (other keys may be present),
    [triangulate] returns exactly these lists as tuples, in the world the
    tool left.  Nothing is checked about the tuples: a point may have any
    number of coordinates, a triangle any number of indices. *)
Theorem X10_triangulate_decodes_output
        {World : Type} (sx : spade_externals World)
        (outer : polygon) (inner_loops : list polygon) (maxh : option R)
        (quality : string) (enforce_constraints : bool)
        (min_angle : option R) (w w1 : World) (cp : completed_process)
        (items : list (string * json))
        (points triangles lines : list pytuple) :
  subprocess_run sx [SPADE_CLI sx]
    (json_dumps sx {| in_outer := xy_list outer;
                      in_inner_loops := map xy_list inner_loops;
                      in_maxh := maxh;
                      in_quality := quality;
                      in_enforce_constraints := enforce_constraints;
                      in_min_angle := min_angle |}) 300 w = (Ok cp, w1) ->
  returncode cp = 0%Z ->
  json_loads sx (stdout cp) = Ok (JDict items) ->
  NoDup (map fst items) ->
  In ("points"%string, JList (map JList points)) items ->
  In ("triangles"%string, JList (map JList triangles)) items ->
  In ("constraint_edges"%string, JList (map JList lines)) items ->
  triangulate sx outer inner_loops maxh quality enforce_constraints
              min_angle w
  = (Ok (points, triangles, lines), w1).
Proof.
  intros Hrun Hrc Hloads Hnd Hp Ht Hl.
  unfold triangulate, bind. rewrite Hrun, Hrc. cbn [Z.eqb negb].
  unfold lift, parse_output. rewrite Hloads. cbn [rbind].
  rewrite (getitem_present items _ _ Hnd Hp),
    (getitem_present items _ _ Hnd Ht), (getitem_present items _ _ Hnd Hl).
  cbn [rbind]. rewrite !tuples_of_lists. reflexivity.
Qed.

(** The scripted tool answers with one point and no triangle. *)
Lemma X10_witness :
  triangulate sim_sx unit_square [] None "default" false None
    world_second_fails
  = (Ok ([[JFloat 0; JFloat 0; JFloat 0]], [], []),
     {| ticks := [0; 5; 10; 12; 20; 24]; procs := [proc_failed; proc_ok];
        calls := 1; written := []; trace := [] |}).
Proof.
  apply (X10_triangulate_decodes_output
           sim_sx unit_square [] None "default" false None world_second_fails
           _ proc_ok
           [("points"%string, JList [JList [JFloat 0; JFloat 0; JFloat 0]]);
            ("triangles"%string, JList []);
            ("constraint_edges"%string, JList [])]
           [[JFloat 0; JFloat 0; JFloat 0]] [] []).
  - reflexivity.
  - reflexivity.
  - reflexivity.
  - repeat constructor; cbn; intuition discriminate.
  - cbn. tauto.
  - cbn. tauto.
  - cbn. tauto.
Defined.

(** X11. The other failures of [triangulate].  An exception of
    [subprocess.run] (a timeout, a missing executable) comes out unchanged,
    in the world the call left.  With return code 0: an exception of
    [json.loads] comes out unchanged; output that decodes to anything but
    an object raises [TypeError]; an object without the key [points] raises
    [KeyError] for that key, whatever else it holds. *)
Theorem X11_triangulate_failures
        {World : Type} (sx : spade_externals World)
        (outer : polygon) (inner_loops : list polygon) (maxh : option R)
        (quality : string) (enforce_constraints : bool)
        (min_angle : option R) (w w1 : World) :
  let run :=
    subprocess_run sx [SPADE_CLI sx]
      (json_dumps sx {| in_outer := xy_list outer;
                        in_inner_loops := map xy_list inner_loops;
                        in_maxh := maxh;
                        in_quality := quality;
                        in_enforce_constraints := enforce_constraints;
                        in_min_angle := min_angle |}) 300 in
  let call :=
    triangulate sx outer inner_loops maxh quality enforce_constraints
                min_angle in
  (forall e, run w = (Raise e, w1) -> call w = (Raise e, w1)) /\
  (forall cp, run w = (Ok cp, w1) -> returncode cp = 0%Z ->
     (forall e, json_loads sx (stdout cp) = Raise e ->
                call w = (Raise e, w1)) /\
     (forall v, json_loads sx (stdout cp) = Ok v ->
                (forall items, v <> JDict items) ->
                call w = (Raise TypeError, w1)) /\
     (forall items, json_loads sx (stdout cp) = Ok (JDict items) ->
                    ~ In "points"%string (map fst items) ->
                    call w = (Raise (KeyError "points"), w1))).
Proof.
  cbv zeta. split.
  - intros e Hrun. unfold triangulate, bind. now rewrite Hrun.
  - intros cp Hrun Hrc. unfold triangulate, bind. rewrite Hrun, Hrc.
    cbn [Z.eqb negb]. unfold lift, parse_output. split; [|split].
    + intros e ->. reflexivity.
    + intros v -> Hnot. cbn [rbind].
      destruct v; try reflexivity. exfalso. now apply (Hnot items).
    + intros items -> Hn. cbn [rbind].
      now rewrite (getitem_absent items _ Hn).
Qed.

(** No process can be started in [world_three_runs]. *)
Lemma X11_witness :
  triangulate sim_sx unit_square [] None "default" false None
              world_three_runs
  = (Raise (OSError "no process"), world_three_runs).
Proof.
  apply (proj1 (X11_triangulate_failures
                  sim_sx unit_square [] None "default"%string false None
                  world_three_runs world_three_runs)).
  reflexivity.
Defined.

(* ================================================================= *)
(** ** [get_system_meta] *)

(** A version probe never raises: it ends in the world the tool left, with
    the key set when the tool returned 0 and the dict unchanged
    otherwise. *)
Lemma probe_version_outcome {World : Type} (mx : meta_externals World)
      (meta : dict string) (tool key : string) (w : World) :
  probe_version mx meta tool key w
  = (Ok match fst (tool_run mx [tool; "--version"%string] 5 w) with
        | Ok cp => if (returncode cp =? 0)%Z
                   then dict_set meta key (str_strip mx (stdout cp))
                   else meta
        | Raise _ => meta
        end,
     snd (tool_run mx [tool; "--version"%string] 5 w)).
Proof.
  unfold probe_version, catch, bind, ret.
  destruct (tool_run mx [tool; "--version"%string] 5 w) as [[cp|e] w'];
    cbn [fst snd]; [|reflexivity].
  destruct (returncode cp =? 0)%Z; reflexivity.
Qed.

Lemma dict_set_fresh {V} (d : dict V) (key : string) (v : V) :
  ~ In key (dict_keys d) -> dict_set d key v = d ++ [(key, v)].
Proof.
  induction d as [|[k u] d IH]; [reflexivity|].
  cbn [dict_keys map fst In dict_set app]. intros Hn.
  destruct (String.eqb k key) eqn:E.
  - apply String.eqb_eq in E. tauto.
  - rewrite IH; [reflexivity|]. unfold dict_keys. tauto.
Qed.

(** What a probe found: the stripped output of a run that returned 0. *)
Lemma probe_found {V} (strip : string -> V) (r : result completed_process)
      (d : dict V) (key : string) :
  ~ In key (dict_keys d) ->
  exists found : list (string * V),
    match r with
    | Ok cp => if (returncode cp =? 0)%Z
               then dict_set d key (strip (stdout cp))
               else d
    | Raise _ => d
    end = d ++ found /\
    (found = [] \/ exists v, found = [(key, v)]) /\
    (found <> [] <-> exists cp, r = Ok cp /\ returncode cp = 0%Z).
Proof.
  intros Hn. destruct r as [cp|e].
  - destruct (returncode cp =? 0)%Z eqn:E.
    + exists [(key, strip (stdout cp))]. rewrite (dict_set_fresh d _ _ Hn).
      split; [reflexivity|]. split; [right; eauto|]. split; [|discriminate].
      intros _. exists cp. split; [reflexivity | now apply Z.eqb_eq].
    + exists []. rewrite app_nil_r. split; [reflexivity|].
      split; [now left|]. split; [easy|].
      intros [cp' [Hcp Hz]]. injection Hcp as <-.
      apply Z.eqb_neq in E. contradiction.
  - exists []. rewrite app_nil_r. split; [reflexivity|].
    split; [now left|]. split; [easy|]. intros [cp' [Hcp _]]. discriminate.
Qed.

(** X12. When the six [platform] calls return, [get_system_meta] returns,
    whatever the two version probes do: a tool that raises (not installed,
    timed out) or ends with a non-zero code only leaves its key out.  The
    dict starts with the six platform keys in the order of the literal;
    [rust_version] is present exactly when the [rustc] run returned with
    code 0, and [cargo_version] likewise; there is no other key. *)
Theorem X12_get_system_meta_survives_tool_failures
        {World : Type} (mx : meta_externals World) (w : World) :
  (forall w, exists s w', platform_system mx w = (Ok s, w')) ->
  (forall w, exists s w', platform_version mx w = (Ok s, w')) ->
  (forall w, exists s w', platform_platform mx w = (Ok s, w')) ->
  (forall w, exists s w', platform_machine mx w = (Ok s, w')) ->
  (forall w, exists s w', platform_processor mx w = (Ok s, w')) ->
  (forall w, exists s w', platform_python_version mx w = (Ok s, w')) ->
  exists meta w6 w',
    get_system_meta mx w = (Ok meta, w') /\
    w' = snd (tool_run mx ["cargo"; "--version"]%string 5
                (snd (tool_run mx ["rustc"; "--version"]%string 5 w6))) /\
    firstn 6 (dict_keys meta) = platform_keys /\
    (In "rust_version"%string (dict_keys meta) <->
     exists cp, fst (tool_run mx ["rustc"; "--version"]%string 5 w6) = Ok cp /\
                returncode cp = 0%Z) /\
    (In "cargo_version"%string (dict_keys meta) <->
     exists cp,
       fst (tool_run mx ["cargo"; "--version"]%string 5
              (snd (tool_run mx ["rustc"; "--version"]%string 5 w6))) = Ok cp /\
       returncode cp = 0%Z) /\
    (forall k, In k (dict_keys meta) ->
               In k platform_keys \/ k = "rust_version"%string
               \/ k = "cargo_version"%string).
Proof.
  intros H1 H2 H3 H4 H5 H6. unfold get_system_meta.
  destruct (H1 w) as [s1 [w1 E1]]. destruct (H2 w1) as [s2 [w2 E2]].
  destruct (H3 w2) as [s3 [w3 E3]]. destruct (H4 w3) as [s4 [w4 E4]].
  destruct (H5 w4) as [s5 [w5 E5]]. destruct (H6 w5) as [s6 [w6 E6]].
  rewrite (bind_ok _ _ _ _ _ E1), (bind_ok _ _ _ _ _ E2),
    (bind_ok _ _ _ _ _ E3), (bind_ok _ _ _ _ _ E4), (bind_ok _ _ _ _ _ E5),
    (bind_ok _ _ _ _ _ E6).
  unfold bind at 1. rewrite !probe_version_outcome.
  set (r1 := tool_run mx ["rustc"; "--version"]%string 5 w6).
  set (r2 := tool_run mx ["cargo"; "--version"]%string 5 (snd r1)).
  set (base := [("os", s1); ("os_version", s2); ("platform", s3);
                ("machine", s4); ("processor", s5);
                ("python_version", s6)]%string).
  destruct (probe_found (str_strip mx) (fst r1) base "rust_version")
    as [rust [-> [Hrust Hrust_iff]]].
  { cbn. intros [H|[H|[H|[H|[H|[H|[]]]]]]]; discriminate. }
  destruct (probe_found (str_strip mx) (fst r2) (base ++ rust) "cargo_version")
    as [cargo [-> [Hcargo Hcargo_iff]]].
  { unfold base. destruct Hrust as [->|[v ->]]; cbn;
      intros H; repeat (destruct H as [H|H]; [discriminate|]); exact H. }
  exists ((base ++ rust) ++ cargo), w6, (snd r2).
  split; [reflexivity|]. split; [reflexivity|].
  split; [reflexivity|]. fold r1. fold r2.
  rewrite <- Hrust_iff, <- Hcargo_iff.
  unfold base. destruct Hrust as [->|[v1 ->]], Hcargo as [->|[v2 ->]];
    cbn [app dict_keys map fst In platform_keys];
    (split; [|split]);
    try (split; [intros H; repeat (destruct H as [H|H]; try discriminate);
                 try contradiction; try discriminate
                | intros H; try tauto; try (now exfalso; apply H)]);
    try (intros k Hk; intuition (subst; tauto)).
Qed.

(** With [rustc] installed and [cargo] missing, the dict has seven keys. *)
Example get_system_meta_rustc_only :
  get_system_meta sim_mx world_rustc_only
  = (Ok [("os", "Linux"); ("os_version", "6.1");
         ("platform", "Linux-6.1-x86_64"); ("machine", "x86_64");
         ("processor", ""); ("python_version", "3.12.0");
         ("rust_version", "rustc 1.80.0")]%string,
     {| ticks := []; procs := []; calls := 1; written := []; trace := [] |}).
Proof. reflexivity. Qed.

Lemma X12_witness :
  exists meta w6 w',
    get_system_meta sim_mx world_rustc_only = (Ok meta, w') /\
    w' = snd (tool_run sim_mx ["cargo"; "--version"]%string 5
                (snd (tool_run sim_mx ["rustc"; "--version"]%string 5 w6))) /\
    firstn 6 (dict_keys meta) = platform_keys /\
    (In "rust_version"%string (dict_keys meta) <->
     exists cp,
       fst (tool_run sim_mx ["rustc"; "--version"]%string 5 w6) = Ok cp /\
       returncode cp = 0%Z) /\
    (In "cargo_version"%string (dict_keys meta) <->
     exists cp,
       fst (tool_run sim_mx ["cargo"; "--version"]%string 5
              (snd (tool_run sim_mx ["rustc"; "--version"]%string 5 w6)))
       = Ok cp /\
       returncode cp = 0%Z) /\
    (forall k, In k (dict_keys meta) ->
               In k platform_keys \/ k = "rust_version"%string
               \/ k = "cargo_version"%string).
Proof.
  apply (X12_get_system_meta_survives_tool_failures sim_mx world_rustc_only);
    intros w; cbn; unfold ret; eauto.
Defined.

(* ================================================================= *)
(** ** Failures inside the battery *)

Lemma bind_raise {World A B} (c : M World A) (k : A -> M World B)
      (w w1 : World) (e : exn) :
  c w = (Raise e, w1) -> bind c k w = (Raise e, w1).
Proof. unfold bind. now intros ->. Qed.

(** X13. A scenario writes the mesh file before it computes the quality
    report.  When the benchmark returns a mesh with a triangle index that
    addresses no point, the mesh file is written all the same; then the
    scenario raises [IndexError], and no result is appended. *)
Theorem X13_mesh_file_written_before_index_error
        {World : Type} (ext : externals World)
        (adapter_module : adapter World (list vec3) (list triangle) (list edge))
        (args : arguments) (acc : list bench_row * list quality_row)
        (outer : polygon) (inner_loops : list polygon) (maxh : option R)
        (quality : string) (enforce_constraints : bool)
        (vtu_name tag descr : string) (maxh_tag : option R)
        (w w1 w2 : World) (points : list vec3) (triangles : list triangle)
        (lines : list edge) (t : xreal) :
  run_benchmark ext adapter_module outer inner_loops maxh quality
                enforce_constraints (Some (repeats_arg args)) w
  = (Ok (points, triangles, lines, t), w1) ->
  well_indexed points triangles = false ->
  write_vtu ext (path_join ext (outdir args) vtu_name) points triangles lines
            w1 = (Ok tt, w2) ->
  scenario ext adapter_module args acc outer inner_loops maxh quality
           enforce_constraints vtu_name tag descr maxh_tag w
  = (Raise IndexError, w2).
Proof.
  intros Hrun Hbad Hwrite. destruct acc as [results quality_metrics].
  unfold scenario. rewrite (bind_ok _ _ _ _ _ Hrun).
  rewrite (bind_ok _ _ _ _ _ Hwrite).
  unfold bind, lift. now rewrite (compute_mesh_quality_bad _ _ Hbad).
Qed.

Lemma X13_witness :
  scenario sim_ext sim_bad_adapter sim_args_once ([], []) unit_square []
           None "default" false "A_unit_square_default.vtu" "A"
           "unit_square_default" None world_battery
  = (Raise IndexError,
     {| ticks := []; procs := []; calls := 1;
        written := ["out/A_unit_square_default.vtu"%string]; trace := [] |}).
Proof.
  apply (X13_mesh_file_written_before_index_error
           sim_ext sim_bad_adapter sim_args_once ([], []) unit_square []
           None "default" false "A_unit_square_default.vtu" "A"
           "unit_square_default" None world_battery
           {| ticks := []; procs := []; calls := 1; written := [];
              trace := [] |}
           _ sample_points [(0, 1, 3)]%Z [] (Fin (0 - 0))).
  - reflexivity.
  - reflexivity.
  - reflexivity.
Defined.

Lemma bind_assoc {World A B C} (c : M World A) (k : A -> M World B)
      (h : B -> M World C) (w : World) :
  bind (bind c k) h w = bind c (fun a => bind (k a) h) w.
Proof. unfold bind. destruct (c w) as [[a|e] w1]; reflexivity. Qed.

Lemma bind_ext {World A B} (c : M World A) (k k' : A -> M World B)
      (w : World) :
  (forall a w1, k a w1 = k' a w1) -> bind c k w = bind c k' w.
Proof.
  intros H. unfold bind. destruct (c w) as [[a|e] w1]; [apply H|reflexivity].
Qed.

Lemma size_sweep_app {World : Type} (ext : externals World)
      (adapter_module : adapter World (list vec3) (list triangle) (list edge))
      (args : arguments) (outer : polygon) (inner_loops : list polygon)
      (done todo : list R) (acc : list bench_row * list quality_row)
      (w : World) :
  size_sweep ext adapter_module args outer inner_loops (done ++ todo) acc w
  = bind (size_sweep ext adapter_module args outer inner_loops done acc)
         (size_sweep ext adapter_module args outer inner_loops todo) w.
Proof.
  revert acc w. induction done as [|size done IH]; intros acc w.
  - reflexivity.
  - cbn [app size_sweep]. rewrite bind_assoc.
    apply bind_ext. intros [] w1. rewrite bind_assoc.
    apply bind_ext. intros acc1 w2. apply IH.
Qed.

Lemma main_with_sizes_app {World : Type} (ext : externals World)
      (adapter_module : adapter World (list vec3) (list triangle) (list edge))
      (args : arguments) (outer : polygon) (inner_loops : list polygon)
      (done todo : list R) (w w0 : World) :
  load_testcase ext (testcase args) w = (Ok (outer, inner_loops), w0) ->
  main ext adapter_module (with_sizes args (done ++ todo)) w
  = bind (main ext adapter_module (with_sizes args done))
         (size_sweep ext adapter_module args outer inner_loops todo) w.
Proof.
  intros Hload. unfold main. cbn [testcase with_sizes software sizes].
  rewrite bind_assoc, !(bind_ok _ _ _ _ _ Hload).
  repeat (rewrite bind_assoc; apply bind_ext; intros ? ?).
  apply (size_sweep_app ext adapter_module args outer inner_loops done todo).
Qed.

(** X14. A failure at one size of the sweep ends [main]: if the battery
    with the sweep cut before that size returns, and the scenario of that
    size raises, then the battery with the full sweep raises the same
    exception, in the world that scenario left.  The results gathered so
    far are not returned, the later sizes are not run, and none of the
    three report files is written. *)
Theorem X14_failure_in_sweep_ends_main
        {World : Type} (ext : externals World) (rx : report_externals World)
        (adapter_module : adapter World (list vec3) (list triangle) (list edge))
        (args : arguments) (done todo : list R) (size : R)
        (outer : polygon) (inner_loops : list polygon)
        (results : list bench_row) (qms : list quality_row)
        (w w0 w1 w2 w3 : World) (e : exn) :
  load_testcase ext (testcase args) w = (Ok (outer, inner_loops), w0) ->
  main ext adapter_module (with_sizes args done) w
  = (Ok (results, qms), w1) ->
  print ext ("  Size: " ++ format_size ext size) w1 = (Ok tt, w2) ->
  scenario ext adapter_module args (results, qms) outer inner_loops
           (Some size) "moderate" true
           ("D_city_" ++ format_size ext size ++ ".vtu") "D"
           ("city_maxh_" ++ format_size ext size) (Some size) w2
  = (Raise e, w3) ->
  main ext adapter_module (with_sizes args (done ++ size :: todo)) w
  = (Raise e, w3) /\
  main_with_reports ext rx adapter_module
                    (with_sizes args (done ++ size :: todo)) w
  = (Raise e, w3).
Proof.
  intros Hload Hmain Hprint Hscen.
  assert (H : main ext adapter_module (with_sizes args (done ++ size :: todo)) w
              = (Raise e, w3)).
  { rewrite (main_with_sizes_app ext adapter_module args outer inner_loops
               done (size :: todo) w w0 Hload).
    rewrite (bind_ok _ _ _ _ _ Hmain). cbn [size_sweep].
    rewrite (bind_ok _ _ _ _ _ Hprint). now apply bind_raise. }
  split; [exact H|]. unfold main_with_reports. now apply bind_raise.
Qed.

(** The adapter fails on its fourth call, the first call of test D. *)
Lemma X14_witness :
  main sim_ext sim_limited_adapter (with_sizes sim_args_once ([] ++ 5 :: [5]))
       world_battery
  = (Raise (RuntimeError "boom"),
     {| ticks := []; procs := []; calls := 4;
        written := ["out/A_unit_square_default.vtu";
                    "out/B_unit_square_with_inner_polygon.vtu";
                    "out/C_city_100.vtu"]%string;
        trace := [] |}) /\
  main_with_reports sim_ext sim_rx sim_limited_adapter
                    (with_sizes sim_args_once ([] ++ 5 :: [5])) world_battery
  = (Raise (RuntimeError "boom"),
     {| ticks := []; procs := []; calls := 4;
        written := ["out/A_unit_square_default.vtu";
                    "out/B_unit_square_with_inner_polygon.vtu";
                    "out/C_city_100.vtu"]%string;
        trace := [] |}).
Proof.
  eapply (X14_failure_in_sweep_ends_main
            sim_ext sim_rx sim_limited_adapter sim_args_once [] [5] 5).
  - reflexivity.
  - cbv -[Rplus Rminus Rmult Rdiv Ropp Rinv IZR INR sqrt acos PI]. reflexivity.
  - reflexivity.
  - reflexivity.
Defined.

(* ================================================================= *)
(** ** The files a run leaves behind *)

Section BatteryFiles.
Context {World : Type}.
Variable ext : externals World.
Variable rx : report_externals World.
Variable adapter_module : adapter World (list vec3) (list triangle) (list edge).
Variable args : arguments.

(** A record of the files written, kept in the world: [meshio.write] and
    [open(path, 'w')] append the path, nothing else touches it. *)
Variable files : World -> list string.
Hypothesis clock_files :
  forall w t w', perf_counter ext w = (Ok t, w') -> files w' = files w.
Hypothesis print_files :
  forall text w w', print ext text w = (Ok tt, w') -> files w' = files w.
Hypothesis readlines_files :
  forall path w lines w',
    readlines ext path w = (Ok lines, w') -> files w' = files w.
Hypothesis adapter_files :
  forall outer inner_loops maxh quality enforce_constraints w mesh w',
    adapter_module outer inner_loops maxh quality enforce_constraints w
    = (Ok mesh, w') ->
    files w' = files w.
Hypothesis mesh_files :
  forall path points cells w w',
    meshio_write ext path points cells w = (Ok tt, w') ->
    files w' = files w ++ [path].
Hypothesis report_files :
  forall path text w w',
    write_file rx path text w = (Ok tt, w') -> files w' = files w ++ [path].

Lemma repeat_loop_files (outer : polygon) (inner_loops : list polygon)
      (maxh : option R) (quality : string) (enforce_constraints : bool)
      (n : nat) (bt : xreal)
      (br : option (list vec3 * list triangle * list edge))
      (w w' : World)
      (out : xreal * option (list vec3 * list triangle * list edge)) :
  repeat_loop ext adapter_module outer inner_loops maxh quality
              enforce_constraints n bt br w = (Ok out, w') ->
  files w' = files w.
Proof.
  revert bt br w. induction n as [|n IH]; intros bt br w; cbn [repeat_loop].
  - unfold ret. intros H; injection H as _ <-. reflexivity.
  - intros H. apply bind_ok_inv in H as [start [w1 [H1 H]]].
    apply bind_ok_inv in H as [result [w2 [H2 H]]].
    apply bind_ok_inv in H as [stop [w3 [H3 H]]].
    apply clock_files in H1, H3. apply adapter_files in H2.
    assert (Hl : files w' = files w3).
    { destruct (xltb (Fin (stop - start)) bt); now apply IH in H. }
    now rewrite Hl, H3, H2, H1.
Qed.

Lemma scenario_files (acc acc' : list bench_row * list quality_row)
      (outer : polygon) (inner_loops : list polygon) (maxh : option R)
      (quality : string) (enforce_constraints : bool)
      (vtu_name tag descr : string) (maxh_tag : option R) (w w' : World) :
  scenario ext adapter_module args acc outer inner_loops maxh quality
           enforce_constraints vtu_name tag descr maxh_tag w = (Ok acc', w') ->
  files w' = files w ++ [path_join ext (outdir args) vtu_name].
Proof.
  destruct acc as [results quality_metrics]. unfold scenario.
  intros H. apply bind_ok_inv in H as [[[[points triangles] lines] t] [w1 [Hr H]]].
  apply bind_ok_inv in H as [[] [w2 [Hw H]]].
  apply bind_ok_inv in H as [q [w3 [Hq H]]].
  unfold ret in H. injection H as _ <-.
  unfold lift in Hq. injection Hq as _ <-.
  unfold write_vtu in Hw. apply mesh_files in Hw.
  unfold run_benchmark in Hr.
  apply bind_ok_inv in Hr as [[bt br] [w0 [Hloop Hr]]].
  apply repeat_loop_files in Hloop.
  assert (w1 = w0) as ->.
  { destruct br as [[[p tr] l]|]; unfold ret, raise in Hr; now injection Hr. }
  now rewrite Hw, Hloop.
Qed.

Lemma size_sweep_files (outer : polygon) (inner_loops : list polygon)
      (todo : list R) (acc acc' : list bench_row * list quality_row)
      (w w' : World) :
  size_sweep ext adapter_module args outer inner_loops todo acc w
  = (Ok acc', w') ->
  files w'
  = files w
    ++ map (fun size =>
              path_join ext (outdir args)
                        ("D_city_" ++ format_size ext size ++ ".vtu")) todo.
Proof.
  revert acc w. induction todo as [|size rest IH]; intros acc w;
    cbn [size_sweep].
  - unfold ret. intros H; injection H as _ <-. cbn. now rewrite app_nil_r.
  - intros H. apply bind_ok_inv in H as [[] [w1 [Hp H]]].
    apply bind_ok_inv in H as [acc1 [w2 [Hs H]]].
    apply print_files in Hp. apply scenario_files in Hs. apply IH in H.
    rewrite H, Hs, Hp. cbn [map]. now rewrite <- app_assoc.
Qed.

Lemma main_files (results : list bench_row) (qms : list quality_row)
      (w w' : World) :
  main ext adapter_module args w = (Ok (results, qms), w') ->
  files w'
  = files w ++ map (path_join ext (outdir args))
                   (battery_files (format_size ext) (sizes args)).
Proof.
  unfold main. intros H.
  apply bind_ok_inv in H as [[outer inner_loops] [w1 [Hload H]]].
  apply bind_ok_inv in H as [[] [w2 [Hp0 H]]].
  apply bind_ok_inv in H as [[] [w3 [Hp1 H]]].
  apply bind_ok_inv in H as [accA [w4 [HA H]]].
  apply bind_ok_inv in H as [[] [w5 [Hp2 H]]].
  apply bind_ok_inv in H as [accB [w6 [HB H]]].
  apply bind_ok_inv in H as [[] [w7 [Hp3 H]]].
  apply bind_ok_inv in H as [accC [w8 [HC H]]].
  apply bind_ok_inv in H as [[] [w9 [Hp4 H]]].
  unfold load_testcase in Hload.
  apply bind_ok_inv in Hload as [lines [w0 [Hread Hparse]]].
  unfold lift in Hparse. injection Hparse as _ <-.
  apply readlines_files in Hread.
  apply print_files in Hp0, Hp1, Hp2, Hp3, Hp4.
  apply scenario_files in HA, HB, HC. apply size_sweep_files in H.
  rewrite H, Hp4, HC, Hp3, HB, Hp2, HA, Hp1, Hp0, Hread.
  unfold battery_files. rewrite map_app, map_map. cbn [map app].
  rewrite <- !app_assoc. reflexivity.
Qed.

Lemma write_reports_files (results : list bench_row)
      (qms : list quality_row) (w w' : World) :
  write_reports ext rx args results qms w = (Ok tt, w') ->
  files w'
  = files w ++ map (path_join ext (outdir args))
                   ["bench_" ++ software args ++ ".json";
                    "bench_" ++ software args ++ ".csv";
                    "metrics_" ++ software args ++ ".log"]%string.
Proof.
  unfold write_reports. intros H.
  apply bind_ok_inv in H as [[] [w1 [H1 H]]].
  apply bind_ok_inv in H as [[] [w2 [H2 H]]].
  apply bind_ok_inv in H as [[] [w3 [H3 H]]].
  apply bind_ok_inv in H as [[] [w4 [H4 H]]].
  apply bind_ok_inv in H as [[] [w5 [H5 H]]].
  apply report_files in H1, H2, H3. apply print_files in H4, H5, H.
  rewrite H, H5, H4, H3, H2, H1. cbn [map]. rewrite <- !app_assoc.
  reflexivity.
Qed.
End BatteryFiles.

(** X15. The files of a complete run, in the order they are written: the
    mesh files of A, B and C, one mesh file per size of the sweep in the
    order of the sweep, then the JSON file, the CSV file and the metrics
    log, all in the output directory.  No report file is written before
    the last mesh file. *)
Theorem X15_files_of_a_complete_run
        {World : Type} (ext : externals World) (rx : report_externals World)
        (adapter_module : adapter World (list vec3) (list triangle) (list edge))
        (args : arguments) (files : World -> list string) (w w' : World) :
  (forall w t w', perf_counter ext w = (Ok t, w') -> files w' = files w) ->
  (forall text w w', print ext text w = (Ok tt, w') -> files w' = files w) ->
  (forall path w lines w',
      readlines ext path w = (Ok lines, w') -> files w' = files w) ->
  (forall outer inner_loops maxh quality enforce_constraints w mesh w',
      adapter_module outer inner_loops maxh quality enforce_constraints w
      = (Ok mesh, w') ->
      files w' = files w) ->
  (forall path points cells w w',
      meshio_write ext path points cells w = (Ok tt, w') ->
      files w' = files w ++ [path]) ->
  (forall path text w w',
      write_file rx path text w = (Ok tt, w') ->
      files w' = files w ++ [path]) ->
  main_with_reports ext rx adapter_module args w = (Ok tt, w') ->
  files w'
  = files w
    ++ map (path_join ext (outdir args))
           (battery_files (format_size ext) (sizes args)
            ++ ["bench_" ++ software args ++ ".json";
                "bench_" ++ software args ++ ".csv";
                "metrics_" ++ software args ++ ".log"]%string).
Proof.
  intros Hclock Hprint Hread Hadapter Hmesh Hreport H.
  unfold main_with_reports in H.
  apply bind_ok_inv in H as [[results qms] [w1 [Hmain H]]].
  cbn [fst snd] in H.
  apply (main_files ext adapter_module args files Hclock Hprint Hread
                    Hadapter Hmesh) in Hmain.
  apply (write_reports_files ext rx args files Hprint Hreport) in H.
  rewrite H, Hmain, map_app, <- app_assoc. reflexivity.
Qed.

Lemma sim_reports_return (args : arguments) (results : list bench_row)
      (qms : list quality_row) (w : sim_world) :
  exists w', write_reports sim_ext sim_rx args results qms w = (Ok tt, w').
Proof.
  cbv [write_reports bind write_file sim_rx print sim_ext sim_print ret].
  eexists. reflexivity.
Qed.

(** The scripted run with the sweep [5; 5]: five mesh files, then the
    three report files. *)
Lemma X15_witness :
  exists w',
    main_with_reports sim_ext sim_rx sim_adapter sim_args world_battery
    = (Ok tt, w') /\
    written w'
    = written world_battery
      ++ map (path_join sim_ext (outdir sim_args))
             (battery_files (format_size sim_ext) (sizes sim_args)
              ++ ["bench_" ++ software sim_args ++ ".json";
                  "bench_" ++ software sim_args ++ ".csv";
                  "metrics_" ++ software sim_args ++ ".log"]%string).
Proof.
  destruct sim_main_total as [results [qms [w1 Hmain]]].
  destruct (sim_reports_return sim_args results qms w1) as [w' Hrep].
  assert (H : main_with_reports sim_ext sim_rx sim_adapter sim_args
                                world_battery = (Ok tt, w')).
  { unfold main_with_reports. rewrite (bind_ok _ _ _ _ _ Hmain). exact Hrep. }
  exists w'. split; [exact H|].
  apply (X15_files_of_a_complete_run
           sim_ext sim_rx sim_adapter sim_args written world_battery w').
  - intros w t w2. unfold sim_ext, perf_counter, sim_perf_counter.
    destruct (ticks w); intros E; injection E as _ <-; reflexivity.
  - intros text w w2 E. injection E as <-. reflexivity.
  - intros path w lines w2 E. injection E as _ <-. reflexivity.
  - intros outer inner_loops maxh quality enforce_constraints w mesh w2 E.
    unfold sim_adapter in E. injection E as _ <-. reflexivity.
  - intros path points cells w w2 E. injection E as <-. reflexivity.
  - intros path text w w2 E. injection E as <-. reflexivity.
  - exact H.
Defined.
(* ================================================================= *)
(** ** The report files *)

(** X17. The CSV file of a complete battery: the header line and one line
    per result, 4 plus the length of the sweep in all.  The first three
    fields of the lines are fixed by the battery: test, description and
    size hint, where the size hint is empty for A, B and also for C (run
    with the size hint 100), and the formatted size for every D. *)
Theorem X17_csv_lines_of_the_battery
        {World : Type} (ext : externals World) (rx : report_externals World)
        (adapter_module : adapter World (list vec3) (list triangle) (list edge))
        (args : arguments) (results : list bench_row)
        (qms : list quality_row) (w w' : World) :
  main ext adapter_module args w = (Ok (results, qms), w') ->
  List.length (csv_writes ext rx results)
  = (4 + List.length (sizes args))%nat /\
  map (fun r => firstn 3 (csv_fields ext rx r)) results
  = battery_csv_heads (format_size ext) (sizes args).
Proof.
  intros H.
  apply (main_inv ext adapter_module args results qms w w') in H as [Hrows _].
  assert (Hheads : map (fun r => firstn 3 (csv_fields ext rx r)) results
                   = map (fun t : string * string * option R =>
                            [fst (fst t); snd (fst t);
                             match snd t with
                             | Some size => format_size ext size
                             | None => ""%string
                             end])
                         (map row_tag results)).
  { rewrite map_map. reflexivity. }
  split.
  - unfold csv_writes. cbn [List.length].
    rewrite length_map, <- (length_map row_tag), Hrows.
    unfold battery_tags. rewrite length_app, length_map. reflexivity.
  - rewrite Hheads, Hrows. unfold battery_tags, battery_csv_heads.
    rewrite map_app, map_map. reflexivity.
Qed.

Lemma X17_witness :
  exists results qms w',
    main sim_ext sim_adapter sim_args world_battery
    = (Ok (results, qms), w') /\
    List.length (csv_writes sim_ext sim_rx results)
    = (4 + List.length (sizes sim_args))%nat /\
    map (fun r => firstn 3 (csv_fields sim_ext sim_rx r)) results
    = battery_csv_heads (format_size sim_ext) (sizes sim_args).
Proof.
  destruct sim_main_total as [results [qms [w' H]]].
  exists results, qms, w'. split; [exact H|].
  exact (X17_csv_lines_of_the_battery sim_ext sim_rx sim_adapter sim_args
                                      results qms world_battery w' H).
Defined.
